(** * Nutrition widget: envelope normalisation, rendering states and tool handlers

    A shallow embedding of the TypeScript sources of the repository:

    - [src/app/nmacros/page.tsx]  the [Macros] widget with a loading state
      (module [NMacrosPage]) followed by the tool handler that accepts an
      [analyzedData] argument (module [AnalyzedDataRoute]);
    - [src/unnamed/part_000]      the [Macros] widget that shows a daily
      totals block (module [TotalsPage]);
    - [src/app/mcp/route.ts]      the tool handler that only echoes the food
      description (module [McpRoute]);
    - [src/unnamed/part_001]      the tool handler that calls the chat
      completion service (module [LiveRoute]).

    JavaScript values are modelled dynamically (module [Js]): host envelopes
    are untyped data and the components probe them with optional chaining,
    [||], [in], [typeof] and [Array.isArray]. *)

From Stdlib Require Import String Ascii List Bool ZArith QArith Qround Qabs Lia Lqa.
From Stdlib Require Import DecimalString.
Import ListNotations.

Set Warnings "-register-all".

Local Open Scope list_scope.
Local Open Scope string_scope.

(* ===================================================================== *)
(** * A fragment of JavaScript's dynamic semantics *)
(* ===================================================================== *)

Module Js.

(** JSON-shaped values plus [undefined].  Numbers are the finite doubles,
    seen as rationals; an object is its list of own properties, the first
    entry for a key being the property's value. *)
Inductive Value : Type :=
| Undefined
| Null
| Bool (b : bool)
| Num (q : Q)
| Str (s : string)
| Arr (items : list Value)
| Obj (props : list (string * Value)).

(** A Number as arithmetic produces it: finite, infinite or NaN. *)
Inductive Number : Type :=
| NaN
| PosInf
| NegInf
| Fin (q : Q).

(** Thrown values.  [ErrorObj] stands for any instance of [Error]
    ([TypeError], [SyntaxError], ...), [NonError] for anything else. *)
Inductive Thrown : Type :=
| ErrorObj (name message : string)
| NonError (v : Value).

(** Completion of an expression or function body. *)
Inductive Res (A : Type) : Type :=
| Ok (a : A)
| Throw (e : Thrown).
Arguments Ok {A} a.
Arguments Throw {A} e.

Definition bind {A B} (r : Res A) (k : A -> Res B) : Res B :=
  match r with
  | Ok a => k a
  | Throw e => Throw e
  end.

Notation "x <- c ;; k" := (bind c (fun x => k))
  (at level 61, c at next level, right associativity).

Fixpoint mapM {A B} (f : A -> Res B) (l : list A) : Res (list B) :=
  match l with
  | [] => Ok []
  | a :: l' => b <- f a ;; bs <- mapM f l' ;; Ok (b :: bs)
  end.

(** The parts of the runtime that the sources call but that are defined by
    the language implementation on floating point text, and the wording of
    the one error React raises while rendering, which depends on its build:
    they are taken as parameters of the development. *)
Class Runtime : Type := {
  (** [StringToNumber] of ECMA-262 (what [Number(s)] computes). *)
  StringToNumber : string -> Number;
  (** [Number::toString] of ECMA-262. *)
  NumberToString : Q -> string;
  (** [JSON.parse]: the parsed value, or the message of its [SyntaxError]. *)
  JSON_parse : string -> Value + string;
  (** The message of the [Error] React throws when an object with these
      properties is given as a child (the development build names the
      object's keys, the production build gives an error code). *)
  invalid_child_message : list (string * Value) -> string
}.

(** ** Truthiness, [typeof], [Array.isArray] *)

Definition Qis_zero (q : Q) : bool := Z.eqb (Qnum q) 0.

(** [ToBoolean]. *)
Definition truthy (v : Value) : bool :=
  match v with
  | Undefined | Null => false
  | Bool b => b
  | Num q => negb (Qis_zero q)
  | Str s => negb (String.eqb s "")
  | Arr _ | Obj _ => true
  end.

(** [a || b]. *)
Definition or_else (a b : Value) : Value := if truthy a then a else b.

(** [typeof v === 'object'] (true of [null] as well). *)
Definition typeof_object (v : Value) : bool :=
  match v with
  | Null | Arr _ | Obj _ => true
  | _ => false
  end.

Definition isArray (v : Value) : bool :=
  match v with
  | Arr _ => true
  | _ => false
  end.

(** [v === null]. *)
Definition is_null (v : Value) : bool :=
  match v with
  | Null => true
  | _ => false
  end.

(** ** Property access *)

Fixpoint lookup (k : string) (props : list (string * Value)) : option Value :=
  match props with
  | [] => None
  | (k', v) :: rest => if String.eqb k k' then Some v else lookup k rest
  end.

Definition has_key (k : string) (props : list (string * Value)) : bool :=
  match lookup k props with
  | Some _ => true
  | None => false
  end.

Definition index_name (i : nat) : string :=
  NilEmpty.string_of_uint (Nat.to_uint i).

Definition nat_num (n : nat) : Value := Num (inject_Z (Z.of_nat n)).

(** Index names start with a digit; the property names of this program do
    not. *)
Definition leading_digit (s : string) : bool :=
  match s with
  | String c _ =>
      match c with
      | "0"%char | "1"%char | "2"%char | "3"%char | "4"%char
      | "5"%char | "6"%char | "7"%char | "8"%char | "9"%char => true
      | _ => false
      end
  | EmptyString => false
  end.

(** Own properties of an array: its indices and [length]. *)
Definition array_prop (k : string) (items : list Value) : option Value :=
  if String.eqb k "length" then Some (nat_num (List.length items))
  else
    match find (fun i => String.eqb k (index_name i)) (seq 0 (List.length items)) with
    | Some i => nth_error items i
    | None => None
    end.

Definition type_error (msg : string) : Thrown := ErrorObj "TypeError" msg.

Definition nullish_name (v : Value) : string :=
  match v with
  | Null => "null"
  | _ => "undefined"
  end.

(** [v.k] for the data property names this program reads (none of them is
    inherited from a prototype, except [length], which arrays and strings
    own).  Reading a property of [null] or [undefined] throws. *)
Definition get (v : Value) (k : string) : Res Value :=
  match v with
  | Undefined | Null =>
      Throw (type_error ("Cannot read properties of " ++ nullish_name v
                           ++ " (reading '" ++ k ++ "')"))
  | Obj props =>
      Ok (match lookup k props with Some x => x | None => Undefined end)
  | Arr items =>
      Ok (match array_prop k items with Some x => x | None => Undefined end)
  | Str s =>
      Ok (if String.eqb k "length" then nat_num (String.length s) else Undefined)
  | Bool _ | Num _ => Ok Undefined
  end.

(** [v?.k]: [undefined] when [v] is [null] or [undefined]. *)
Definition opt_get (v : Value) (k : string) : Value :=
  match v with
  | Undefined | Null => Undefined
  | _ => match get v k with Ok x => x | Throw _ => Undefined end
  end.

(** [k in v] for the property names this program probes; a right operand
    that is not an object throws. *)
Definition js_in (k : string) (v : Value) : Res bool :=
  match v with
  | Obj props => Ok (has_key k props)
  | Arr items =>
      Ok (match array_prop k items with Some _ => true | None => false end)
  | _ =>
      Throw (type_error ("Cannot use 'in' operator to search for '" ++ k ++ "'"))
  end.

(** [v[i]] for a numeric index. *)
Definition get_index (v : Value) (i : nat) : Res Value :=
  match v with
  | Arr items =>
      Ok (match nth_error items i with Some x => x | None => Undefined end)
  | Str s =>
      Ok (match String.get i s with
          | Some c => Str (String c EmptyString)
          | None => Undefined
          end)
  | _ => get v (index_name i)
  end.

(** ** Conversions *)

Section Conversions.
Context {rt : Runtime}.

(** [ToString]; an array is joined with commas, [null] and [undefined]
    elements giving the empty string. *)
Fixpoint ToString (v : Value) : string :=
  match v with
  | Undefined => "undefined"
  | Null => "null"
  | Bool true => "true"
  | Bool false => "false"
  | Num q => NumberToString q
  | Str s => s
  | Arr items =>
      (fix join (first : bool) (l : list Value) : string :=
         match l with
         | [] => ""
         | x :: l' =>
             (if first then "" else ",")
               ++ match x with
                  | Undefined | Null => ""
                  | _ => ToString x
                  end
               ++ join false l'
         end) true items
  | Obj _ => "[object Object]"
  end.

(** [ToNumber]; arrays and objects go through [ToPrimitive], that is,
    through their string. *)
Definition ToNumber (v : Value) : Number :=
  match v with
  | Undefined => NaN
  | Null => Fin 0
  | Bool true => Fin 1
  | Bool false => Fin 0
  | Num q => Fin q
  | Str s => StringToNumber s
  | Arr _ | Obj _ => StringToNumber (ToString v)
  end.

(** [v > n] for a number literal [n]; comparisons with NaN are false. *)
Definition gt_num (v : Value) (n : Q) : bool :=
  match ToNumber v with
  | NaN | NegInf => false
  | PosInf => true
  | Fin q => if Qlt_le_dec n q then true else false
  end.

(** [Math.round]: the nearest integer, a tie going towards +infinity. *)
Definition Math_round (v : Value) : Number :=
  match ToNumber v with
  | Fin q => Fin (inject_Z (Qfloor (q + (1 # 2))))
  | n => n
  end.

End Conversions.

(** [v === n] for a number literal [n]. *)
Definition strict_eq_num (v : Value) (n : Q) : bool :=
  match v with
  | Num q => Qeq_bool q n
  | _ => false
  end.

End Js.

Import Js.

(* ===================================================================== *)
(** * The canonical data model (the TypeScript interfaces) *)
(* ===================================================================== *)

Module Data.

(** [interface Nutrients]. *)
Record Nutrients : Type := {
  calories : Q;
  protein : Q;
  carbs : Q;
  fat : Q
}.

(** [interface Ingredient]. *)
Record Ingredient : Type := {
  name : string;
  brand : option string;
  serving_info : string;
  nutrients : Nutrients
}.

(** [interface Meal]. *)
Record Meal : Type := {
  meal_name : string;
  meal_size : option string;
  ingredients : list Ingredient;
  total_nutrients : Nutrients
}.

(** [interface MealData]. *)
Record MealData : Type := {
  dailyTotals : option Nutrients;
  loggedMeals : option (list Meal);
  error : option string
}.

(** An optional property is an absent key. *)
Definition optional (k : string) (v : option Value) : list (string * Value) :=
  match v with
  | Some x => [(k, x)]
  | None => []
  end.

(** The JavaScript objects that inhabit the interfaces. *)
Definition of_Nutrients (n : Nutrients) : Value :=
  Obj [("calories", Num (calories n)); ("protein", Num (protein n));
       ("carbs", Num (carbs n)); ("fat", Num (fat n))].

Definition of_Ingredient (i : Ingredient) : Value :=
  Obj ([("name", Str (name i))]
         ++ optional "brand" (option_map Str (brand i))
         ++ [("serving_info", Str (serving_info i));
             ("nutrients", of_Nutrients (nutrients i))])%list.

Definition of_Meal (m : Meal) : Value :=
  Obj ([("meal_name", Str (meal_name m))]
         ++ optional "meal_size" (option_map Str (meal_size m))
         ++ [("ingredients", Arr (map of_Ingredient (ingredients m)));
             ("total_nutrients", of_Nutrients (total_nutrients m))])%list.

Definition of_MealData (d : MealData) : Value :=
  Obj (optional "dailyTotals" (option_map of_Nutrients (dailyTotals d))
         ++ optional "loggedMeals"
              (option_map (fun l => Arr (map of_Meal l)) (loggedMeals d))
         ++ optional "error" (option_map Str (error d)))%list.

(** Non-negative nutrients, as the data model requires. *)
Definition nonneg (n : Nutrients) : Prop :=
  0 <= calories n /\ 0 <= protein n /\ 0 <= carbs n /\ 0 <= fat n.

End Data.

(** The four rendering states of the specification. *)
Inductive State : Type := Error | Loading | Empty | Ready.

(* ===================================================================== *)
(** * What the components put on screen *)
(* ===================================================================== *)

Module Ui.

(** A JSX child [{v && <element .../>}]: the element when [v] is truthy,
    the falsy value itself otherwise. *)
Inductive Slot (A : Type) : Type :=
| Element (a : A)
| Bare (v : Value).
Arguments Element {A} a.
Arguments Bare {A} v.

Definition shown {A} (s : Slot A) : bool :=
  match s with
  | Element _ => true
  | Bare _ => false
  end.

(** A grid of four rounded nutrient numbers. *)
Record Grid : Type := {
  g_calories : Number;
  g_protein : Number;
  g_carbs : Number;
  g_fat : Number
}.

(** One entry of a meal's ingredient breakdown. *)
Record IngredientLine : Type := {
  i_name : Value;
  i_serving_info : Value;
  i_grid : Grid
}.

(** A rendered [MealCard]. *)
Record Card : Type := {
  c_meal_name : Value;
  c_meal_size : Slot Value;
  c_grid : Grid;
  (** the expanded breakdown, when it is rendered *)
  c_breakdown : option (list IngredientLine);
  (** the toggle button, with [showBreakdown] deciding its label *)
  c_toggle : option bool
}.

(** [<MealCard key={mealIndex} meal={meal} />] *)
Record CardElement : Type := {
  key : nat;
  meal : Value
}.

(** React accepts strings, numbers, booleans, [null], [undefined] and arrays
    of such as children of an element; a plain object is not a valid child.
    [invalid_child v] is the first object met in the child [v]. *)
Fixpoint invalid_child (v : Value) : option (list (string * Value)) :=
  match v with
  | Obj props => Some props
  | Arr items =>
      (fix first (l : list Value) : option (list (string * Value)) :=
         match l with
         | [] => None
         | x :: l' =>
             match invalid_child x with
             | Some props => Some props
             | None => first l'
             end
         end) items
  | _ => None
  end.

(** The values a card holds as children of its elements, in document order:
    [{meal.meal_name}], [{meal.meal_size}], and [{ingredient.name}] and
    [{ingredient.serving_info}] of each line of an open breakdown (the
    numbers of the grids are always valid children). *)
Definition card_children (c : Card) : list Value :=
  c_meal_name c
    :: match c_meal_size c with Element v => v | Bare v => v end
    :: match c_breakdown c with
       | Some ls => flat_map (fun l => [i_name l; i_serving_info l]) ls
       | None => []
       end.

End Ui.

Import Ui.

(** [meals.map((meal, mealIndex) => <MealCard key={mealIndex} meal={meal} />)];
    anything but an array has no callable [map]. *)
Definition map_cards (meals : Value) : Res (list CardElement) :=
  match meals with
  | Arr items =>
      Ok (map (fun p => {| key := fst p; meal := snd p |})
              (combine (seq 0 (List.length items)) items))
  | _ => Throw (type_error "meals.map is not a function")
  end.

(** [meal.ingredients.map((ingredient, ingredientIndex) => ...)] *)
Definition map_items {A} (f : Value -> Res A) (v : Value) : Res (list A) :=
  match v with
  | Arr items => mapM f items
  | _ => Throw (type_error "meal.ingredients.map is not a function")
  end.

(* ===================================================================== *)
(** * [MealCard] (the same function, up to markup, in both page files) *)
(* ===================================================================== *)

Section MealCard.
Context {rt : Runtime}.

(** The four cells [{Math.round(n.calories)}] ... [{Math.round(n.fat)}] of a
    nutrition grid, [n] being read by [read] for each cell as the source
    spells the path out each time. *)
Definition grid (read : Res Value) : Res Grid :=
  c <- (n <- read ;; get n "calories") ;;
  p <- (n <- read ;; get n "protein") ;;
  cb <- (n <- read ;; get n "carbs") ;;
  f <- (n <- read ;; get n "fat") ;;
  Ok {| g_calories := Math_round c; g_protein := Math_round p;
        g_carbs := Math_round cb; g_fat := Math_round f |}.

Definition ingredientLine (ingredient : Value) : Res IngredientLine :=
  nm <- get ingredient "name" ;;
  si <- get ingredient "serving_info" ;;
  g <- grid (get ingredient "nutrients") ;;
  Ok {| i_name := nm; i_serving_info := si; i_grid := g |}.

(** [function MealCard({ meal })], [showBreakdown] being the card's own
    [useState(false)] cell. *)
Definition MealCard (showBreakdown : bool) (meal : Value) : Res Card :=
  ings <- get meal "ingredients" ;;
  len <- get ings "length" ;;
  let hasMultipleIngredients := gt_num len 1 in
  nm <- get meal "meal_name" ;;
  sz <- get meal "meal_size" ;;
  g <- grid (get meal "total_nutrients") ;;
  bd <- (if showBreakdown && hasMultipleIngredients
         then (ings' <- get meal "ingredients" ;;
               ls <- map_items ingredientLine ings' ;; Ok (Some ls))
         else Ok None) ;;
  Ok {| c_meal_name := nm;
        c_meal_size := if truthy sz then Element sz else Bare sz;
        c_grid := g;
        c_breakdown := bd;
        c_toggle := if hasMultipleIngredients then Some showBreakdown else None |}.

(** React reconciles the children of the elements a component returned and
    throws at the first that is an object. *)
Fixpoint reconcile (children : list Value) : Res unit :=
  match children with
  | [] => Ok tt
  | v :: rest =>
      match invalid_child v with
      | Some props => Throw (ErrorObj "Error" (invalid_child_message props))
      | None => reconcile rest
      end
  end.

(** React renders the card elements of a list, each with its own toggle
    cell (keyed by position): it calls [MealCard] and reconciles what the
    call returned before it goes on to the next card. *)
Definition render_cards (showBreakdown : nat -> bool) (cards : list CardElement)
  : Res (list Card) :=
  mapM (fun c =>
          card <- MealCard (showBreakdown (key c)) (meal c) ;;
          _ <- reconcile (card_children card) ;;
          Ok card) cards.

End MealCard.

(* ===================================================================== *)
(** * [src/app/nmacros/page.tsx]: the widget with a loading state *)
(* ===================================================================== *)

Module NMacrosPage.

(** What [Macros] returns. *)
Inductive View : Type :=
| ErrorView (message : Value)
| LoadingView
| EmptyView
| MealCards (cards : list CardElement).

Definition state_of (v : View) : State :=
  match v with
  | ErrorView _ => Error
  | LoadingView => Loading
  | EmptyView => Empty
  | MealCards _ => Ready
  end.

(** Whether a view has a daily totals block: none of the four [return]s of
    this [Macros] has one (the last, lines 145-159, holds the meal cards
    only). *)
Definition dailyTotalsBlock_shown (v : View) : bool :=
  match v with
  | ErrorView _ | LoadingView | EmptyView | MealCards _ => false
  end.

(** Lines 46-60: [let mealData: MealData | null = null] and the chain of
    [if]s that tries the data paths. *)
Definition mealData (toolOutput : Value) : Res Value :=
  if truthy (opt_get (opt_get toolOutput "result") "structuredContent") then
    r <- get toolOutput "result" ;; get r "structuredContent"
  else if truthy (opt_get toolOutput "structuredContent") then
    get toolOutput "structuredContent"
  else if truthy (opt_get toolOutput "result") then
    get toolOutput "result"
  else if truthy toolOutput && typeof_object toolOutput then
    hasLogged <- js_in "loggedMeals" toolOutput ;;
    if hasLogged then Ok toolOutput
    else
      hasTotals <- js_in "dailyTotals" toolOutput ;;
      if hasTotals then Ok toolOutput else Ok Null
  else Ok Null.

(** Line 63: [const error = mealData?.error || toolOutput?.error]. *)
Definition error (md toolOutput : Value) : Value :=
  or_else (opt_get md "error") (opt_get toolOutput "error").

(** Line 64: [const meals = mealData?.loggedMeals || []]. *)
Definition meals (md : Value) : Value :=
  or_else (opt_get md "loggedMeals") (Arr []).

Section Component.
Context {rt : Runtime}.

(** Lines 67-95: the body of the effect, returning the argument of the one
    [setIsLoading] call it makes. *)
Definition effect (toolOutput : Value) : Res bool :=
  md <- mealData toolOutput ;;
  len <- get (meals md) "length" ;;
  if gt_num len 0 then Ok false
  else if is_null toolOutput then Ok true
  else if truthy toolOutput && typeof_object toolOutput then
    hasFoodDescription <- js_in "foodDescription" toolOutput ;;
    hasMeals <-
      (inEnv <- js_in "loggedMeals" toolOutput ;;
       if inEnv then
         lm <- get toolOutput "loggedMeals" ;;
         if isArray lm then
           n <- get lm "length" ;; Ok (gt_num n 0)
         else Ok false
       else Ok false) ;;
    if hasFoodDescription && negb hasMeals then Ok true else Ok false
  else Ok false.

(** One call of [Macros] with [isLoading] the current value of its state
    cell: lines 46-64, the dependency array of line 95, and the chain of
    [return]s of lines 97-159. *)
Definition Macros (isLoading : bool) (toolOutput : Value) : Res View :=
  md <- mealData toolOutput ;;
  let error := error md toolOutput in
  let meals := meals md in
  len <- get meals "length" ;;
  if truthy error then Ok (ErrorView error)
  else if isLoading then Ok LoadingView
  else
    len' <- get meals "length" ;;
    if strict_eq_num len' 0 then Ok EmptyView
    else
      cards <- map_cards meals ;;
      Ok (MealCards cards).

(** An envelope arrives while the state cell holds [isLoading]: React calls
    [Macros], runs the effect (its dependencies changed), and calls [Macros]
    again when the effect changed the cell.  The result is the cell and the
    view left on screen. *)
Definition arrive (isLoading : bool) (toolOutput : Value) : Res (bool * View) :=
  v <- Macros isLoading toolOutput ;;
  isLoading' <- effect toolOutput ;;
  if Bool.eqb isLoading' isLoading then Ok (isLoading, v)
  else
    v' <- Macros isLoading' toolOutput ;;
    Ok (isLoading', v').

(** The state the widget shows for an envelope, whatever the cell held.
    On mount the cell holds [useState(true)]. *)
Definition state (isLoading : bool) (toolOutput : Value) : Res State :=
  r <- arrive isLoading toolOutput ;; Ok (state_of (snd r)).

(** The screen: the view with its children reconciled ([{error}] is a
    child of the error view's paragraph, line 106) and its meal cards
    rendered. *)
Inductive Screen : Type :=
| ErrorScreen (message : Value)
| LoadingScreen
| EmptyScreen
| ReadyScreen (cards : list Card).

Definition paint (showBreakdown : nat -> bool) (v : View) : Res Screen :=
  match v with
  | ErrorView m => _ <- reconcile [m] ;; Ok (ErrorScreen m)
  | LoadingView => Ok LoadingScreen
  | EmptyView => Ok EmptyScreen
  | MealCards cards =>
      cs <- render_cards showBreakdown cards ;; Ok (ReadyScreen cs)
  end.

(** Envelopes arriving one after the other while the widget stays mounted:
    the state cell is carried from one arrival to the next; the result is
    the cell and the view left on screen ([last] before any arrival). *)
Fixpoint arrivals (isLoading : bool) (last : option View)
    (toolOutputs : list Value) : Res (bool * option View) :=
  match toolOutputs with
  | [] => Ok (isLoading, last)
  | toolOutput :: rest =>
      r <- arrive isLoading toolOutput ;;
      arrivals (fst r) (Some (snd r)) rest
  end.

End Component.

End NMacrosPage.

(* ===================================================================== *)
(** * [src/unnamed/part_000], first component: the widget with daily totals *)
(* ===================================================================== *)

Module TotalsPage.

(** What [Macros] returns; the last case is its final [return]: the daily
    totals child followed by the meal cards. *)
Inductive View : Type :=
| ErrorView (message : Value)
| EmptyView
| Main (dailyTotalsBlock : Slot Grid) (cards : list CardElement).

Definition state_of (v : View) : State :=
  match v with
  | ErrorView _ => Error
  | EmptyView => Empty
  | Main _ _ => Ready
  end.

(** Whether a view has a daily totals block. *)
Definition dailyTotalsBlock_shown (v : View) : bool :=
  match v with
  | Main blk _ => shown blk
  | _ => false
  end.

(** Lines 45-48: [toolOutput?.result?.structuredContent ||
    toolOutput?.structuredContent || null]. *)
Definition mealData (toolOutput : Value) : Value :=
  or_else
    (or_else (opt_get (opt_get toolOutput "result") "structuredContent")
             (opt_get toolOutput "structuredContent"))
    Null.

(** Line 51. *)
Definition error (md toolOutput : Value) : Value :=
  or_else (opt_get md "error") (opt_get toolOutput "error").

(** Line 52. *)
Definition meals (md : Value) : Value :=
  or_else (opt_get md "loggedMeals") (Arr []).

Section Component.
Context {rt : Runtime}.

(** Lines 82-114: [{mealData?.dailyTotals && ( ...four rounded cells... )}]. *)
Definition dailyTotalsBlock (md : Value) : Res (Slot Grid) :=
  let dt := opt_get md "dailyTotals" in
  if truthy dt then
    g <- grid (get md "dailyTotals") ;; Ok (Element g)
  else Ok (Bare dt).

(** [function Macros()], lines 35-125. *)
Definition Macros (toolOutput : Value) : Res View :=
  let md := mealData toolOutput in
  let error := error md toolOutput in
  let meals := meals md in
  if truthy error then Ok (ErrorView error)
  else
    len <- get meals "length" ;;
    if strict_eq_num len 0 then Ok EmptyView
    else
      blk <- dailyTotalsBlock md ;;
      cards <- map_cards meals ;;
      Ok (Main blk cards).

(** The screen: the view with its children reconciled ([{error}] is a
    child of the error view's paragraph, line 60) and its meal cards
    rendered. *)
Inductive Screen : Type :=
| ErrorScreen (message : Value)
| EmptyScreen
| ReadyScreen (dailyTotalsBlock : Slot Grid) (cards : list Card).

Definition paint (showBreakdown : nat -> bool) (v : View) : Res Screen :=
  match v with
  | ErrorView m => _ <- reconcile [m] ;; Ok (ErrorScreen m)
  | EmptyView => Ok EmptyScreen
  | Main blk cards =>
      cs <- render_cards showBreakdown cards ;; Ok (ReadyScreen blk cs)
  end.

(** The state this widget shows for an envelope (it has no state cell). *)
Definition state (toolOutput : Value) : Res State :=
  v <- Macros toolOutput ;; Ok (state_of v).

End Component.

End TotalsPage.

(* ===================================================================== *)
(** * The tool handlers *)
(* ===================================================================== *)

Module Tool.

(** [type ContentWidget]. *)
Record ContentWidget : Type := {
  id : string;
  title : string;
  templateUri : string;
  invoking : string;
  invoked : string;
  html : string;
  description : string;
  widgetDomain : string
}.

(** The object [widgetMeta] returns, its keys being
    [openai/outputTemplate], [openai/toolInvocation/invoking],
    [openai/toolInvocation/invoked], [openai/widgetAccessible] and
    [openai/resultCanProduceWidget]. *)
Record Meta : Type := {
  outputTemplate : string;
  toolInvocation_invoking : string;
  toolInvocation_invoked : string;
  widgetAccessible : bool;
  resultCanProduceWidget : bool
}.

Definition widgetMeta (widget : ContentWidget) : Meta :=
  {| outputTemplate := templateUri widget;
     toolInvocation_invoking := invoking widget;
     toolInvocation_invoked := invoked widget;
     widgetAccessible := false;
     resultCanProduceWidget := true |}.

(** [const macrosWidget], with the fetched page and the base URL as
    arguments. *)
Definition macrosWidget (macrosHtml baseURL : string) : ContentWidget :=
  {| id := "analyze_food";
     title := "Analyze Food Macros";
     templateUri := "ui://widget/macros-template.html";
     invoking := "Analyzing food nutrition...";
     invoked := "Food analysis complete";
     html := macrosHtml;
     description :=
       "Analyzes food descriptions and displays nutritional information in meal cards";
     widgetDomain := baseURL |}.

(** An entry of the [contents] that the resource callback returns, its
    [_meta] keys being [openai/widgetDescription],
    [openai/widgetPrefersBorder] and [openai/widgetDomain]. *)
Record ResourceContent : Type := {
  rc_uri : string;
  rc_mimeType : string;
  rc_text : string;
  rc_widgetDescription : string;
  rc_widgetPrefersBorder : bool;
  rc_widgetDomain : string
}.

(** The arguments of [server.registerResource]: name, URI, metadata and
    the callback that reads the resource at [uri.href]. *)
Record ResourceRegistration : Type := {
  r_name : string;
  r_uri : string;
  r_title : string;
  r_description : string;
  r_mimeType : string;
  r_widgetDescription : string;
  r_widgetPrefersBorder : bool;
  r_read : string -> list ResourceContent
}.

(** [server.registerResource("macros-widget", macrosWidget.templateUri,
    {...}, async (uri) => ({ contents: [...] }))], the same call in the
    three route files. *)
Definition registerResource_call (macrosWidget : ContentWidget)
  : ResourceRegistration :=
  {| r_name := "macros-widget";
     r_uri := templateUri macrosWidget;
     r_title := title macrosWidget;
     r_description := description macrosWidget;
     r_mimeType := "text/html+skybridge";
     r_widgetDescription := description macrosWidget;
     r_widgetPrefersBorder := true;
     r_read := fun href =>
       [{| rc_uri := href;
           rc_mimeType := "text/html+skybridge";
           rc_text := "<html>" ++ html macrosWidget ++ "</html>";
           rc_widgetDescription := description macrosWidget;
           rc_widgetPrefersBorder := true;
           rc_widgetDomain := widgetDomain macrosWidget |}] |}.

(** An entry of [content]. *)
Record ContentItem : Type := {
  type : string;
  text : string
}.

(** What a tool handler resolves to. *)
Record ToolResult : Type := {
  content : list ContentItem;
  structuredContent : Value;
  _meta : Meta
}.

Definition text_content (s : string) : list ContentItem :=
  [{| type := "text"; text := s |}].

(** The result as the JavaScript object a consumer receives. *)
Definition of_ToolResult (r : ToolResult) : Value :=
  Obj [("content",
        Arr (map (fun c => Obj [("type", Str (type c)); ("text", Str (text c))])
                 (content r)));
       ("structuredContent", structuredContent r);
       ("_meta",
        Obj [("openai/outputTemplate", Str (outputTemplate (_meta r)));
             ("openai/toolInvocation/invoking",
              Str (toolInvocation_invoking (_meta r)));
             ("openai/toolInvocation/invoked",
              Str (toolInvocation_invoked (_meta r)));
             ("openai/widgetAccessible", Bool (widgetAccessible (_meta r)));
             ("openai/resultCanProduceWidget",
              Bool (resultCanProduceWidget (_meta r)))])].

Definition dquote : string := String "034"%char EmptyString.
Definition newline : string := String "010"%char EmptyString.

(** [new Error(message)] for a defined [message]. *)
Definition new_Error {rt : Runtime} (message : Value) : Thrown :=
  ErrorObj "Error" (ToString message).

(** [error instanceof Error ? error.message : "Failed to analyze food.
    Please try again."] *)
Definition caught_message (error : Thrown) : string :=
  match error with
  | ErrorObj _ message => message
  | NonError _ => "Failed to analyze food. Please try again."
  end.

(** The [catch (error)] clause shared by the three handlers. *)
Definition catch_clause {rt : Runtime} (widget : ContentWidget)
    (foodDescription : Value) (error : Thrown) : ToolResult :=
  {| content :=
       text_content ("Error processing food analysis request: "
                       ++ ToString foodDescription);
     structuredContent := Obj [("error", Str (caught_message error))];
     _meta := widgetMeta widget |}.

(** [try { body } catch (error) { ... }]. *)
Definition try_catch {rt : Runtime} (widget : ContentWidget)
    (foodDescription : Value) (body : Res ToolResult) : ToolResult :=
  match body with
  | Ok r => r
  | Throw e => catch_clause widget foodDescription e
  end.

(** The [analyzedData] argument as the input schema lets it through: an
    object of a [dailyTotals] with four numbers and a [loggedMeals] array of
    anything (the schema drops any other key). *)
Record AnalyzedData : Type := {
  dailyTotals : Data.Nutrients;
  loggedMeals : list Value
}.

Definition of_AnalyzedData (a : AnalyzedData) : Value :=
  Obj [("dailyTotals", Data.of_Nutrients (dailyTotals a));
       ("loggedMeals", Arr (loggedMeals a))].

Definition of_optional (f : AnalyzedData -> Value) (a : option AnalyzedData) : Value :=
  match a with
  | Some x => f x
  | None => Undefined
  end.

End Tool.

Import Tool.

(** ** [src/app/nmacros/page.tsx], second part: the handler that accepts
       [analyzedData] *)

Module AnalyzedDataRoute.
Section Handler.
Context {rt : Runtime} (widget : ContentWidget).

(** The [try] block of the handler, lines 502-533. *)
Definition body (foodDescription analyzedData : Value) : Res ToolResult :=
  if truthy (opt_get analyzedData "loggedMeals")
     && truthy (opt_get analyzedData "dailyTotals")
  then
    dt <- get analyzedData "dailyTotals" ;;
    lm <- get analyzedData "loggedMeals" ;;
    Ok {| content := text_content ("Food analyzed: " ++ ToString foodDescription);
          structuredContent := Obj [("dailyTotals", dt); ("loggedMeals", lm)];
          _meta := widgetMeta widget |}
  else
    Ok {| content :=
            text_content
              ("Please analyze " ++ dquote ++ ToString foodDescription ++ dquote
                 ++ " using your nutrition knowledge and call this tool with the analyzedData parameter populated with the complete meal data.");
          structuredContent :=
            Obj [("foodDescription", foodDescription);
                 ("error",
                  Str "Please call this tool with the analyzedData parameter containing the analyzed meal data.")];
          _meta := widgetMeta widget |}.

(** [async ({ foodDescription, analyzedData }) => { try ... catch ... }]. *)
Definition handler (foodDescription analyzedData : Value) : ToolResult :=
  try_catch widget foodDescription (body foodDescription analyzedData).

End Handler.
End AnalyzedDataRoute.

(** ** [src/app/mcp/route.ts]: the handler that echoes the description *)

Module McpRoute.
Section Handler.
Context {rt : Runtime} (widget : ContentWidget).

(** The [try] block, lines 145-171. *)
Definition body (foodDescription : Value) : Res ToolResult :=
  Ok {| content :=
          text_content
            ("Food to analyze: " ++ ToString foodDescription ++ newline ++ newline
               ++ "Please analyze this food using your nutrition knowledge and return the nutritional data in the JSON structure specified in the tool description.");
        structuredContent := Obj [("foodDescription", foodDescription)];
        _meta := widgetMeta widget |}.

(** [async ({ foodDescription }) => { try ... catch ... }]. *)
Definition handler (foodDescription : Value) : ToolResult :=
  try_catch widget foodDescription (body foodDescription).

End Handler.
End McpRoute.

(** ** [src/unnamed/part_001]: the handler that calls the completion service *)

Module LiveRoute.

(** How the one [await fetch(...)] settles: the promise rejects, or it
    resolves to a response with its [ok] flag and its body text. *)
Inductive Fetched : Type :=
| Rejected (e : Thrown)
| Response (ok : bool) (bodyText : string).

Section Handler.
Context {rt : Runtime} (widget : ContentWidget).

(** The completion service: how the request built from the key and the food
    description settles.  The service is outside the repository. *)
Context (fetch : Value -> Value -> Fetched).

Definition parse (s : string) : Res Value :=
  match JSON_parse s with
  | inl v => Ok v
  | inr message => Throw (ErrorObj "SyntaxError" message)
  end.

(** [await response.json()]. *)
Definition response_json (bodyText : string) : Res Value := parse bodyText.

(** [responseData.choices[0].message.content]. *)
Definition message_content (responseData : Value) : Res Value :=
  choices <- get responseData "choices" ;;
  choice <- get_index choices 0 ;;
  message <- get choice "message" ;;
  get message "content".

Definition invalid_format_message : string :=
  "Invalid response format from AI. Please try again.".

Definition invalid_format : Thrown :=
  new_Error (Str invalid_format_message).

Definition credential_message : string :=
  "OpenAI API key not configured. Please set OPENAI_API_KEY environment variable.".

(** The [try] block, lines 140-276; [apiKey] is
    [process.env.OPENAI_API_KEY]. *)
Definition body (apiKey foodDescription : Value) : Res ToolResult :=
  if negb (truthy apiKey) then
    Ok {| content := text_content ("Error: " ++ credential_message);
          structuredContent := Obj [("error", Str credential_message)];
          _meta := widgetMeta widget |}
  else
    match fetch apiKey foodDescription with
    | Rejected e => Throw e
    | Response ok bodyText =>
        if negb ok then
          errorData <- response_json bodyText ;;
          err <- get errorData "error" ;;
          Throw (new_Error (or_else (opt_get err "message")
                                    (Str "Failed to process food data")))
        else
          responseData <- response_json bodyText ;;
          content <- message_content responseData ;;
          data <- parse (ToString content) ;;
          dt <- get data "dailyTotals" ;;
          if negb (truthy dt) then Throw invalid_format
          else
            lm <- get data "loggedMeals" ;;
            if negb (truthy lm) then Throw invalid_format
            else
              dt' <- get data "dailyTotals" ;;
              lm' <- get data "loggedMeals" ;;
              Ok {| Tool.content :=
                      text_content ("Food analyzed: " ++ ToString foodDescription);
                    structuredContent :=
                      Obj [("dailyTotals", dt'); ("loggedMeals", lm')];
                    _meta := widgetMeta widget |}
    end.

(** [async ({ foodDescription }) => { try ... catch ... }]. *)
Definition handler (apiKey foodDescription : Value) : ToolResult :=
  try_catch widget foodDescription (body apiKey foodDescription).

End Handler.
End LiveRoute.

(* ===================================================================== *)
(** * The properties, in the specification's words *)
(* ===================================================================== *)

Module Spec.

(** ** Envelope normaliser: an ordered list of extractors, the first match
       winning.  A path matches when it holds a truthy value, which every
       object is; [null] and [undefined] never match. *)

Definition when_present (v : Value) : option Value :=
  if truthy v then Some v else None.

(** An object's own field. *)
Definition exposes (k : string) (envelope : Value) : bool :=
  match envelope with
  | Obj props => has_key k props
  | _ => false
  end.

Definition rule1 (envelope : Value) : option Value :=
  when_present (opt_get (opt_get envelope "result") "structuredContent").

Definition rule2 (envelope : Value) : option Value :=
  when_present (opt_get envelope "structuredContent").

Definition rule3 (envelope : Value) : option Value :=
  when_present (opt_get envelope "result").

Definition rule4 (envelope : Value) : option Value :=
  if exposes "loggedMeals" envelope || exposes "dailyTotals" envelope
  then Some envelope else None.

Definition rules : list (Value -> option Value) := [rule1; rule2; rule3; rule4].

Fixpoint first_match (rs : list (Value -> option Value)) (envelope : Value)
  : option Value :=
  match rs with
  | [] => None
  | r :: rs' =>
      match r envelope with
      | Some v => Some v
      | None => first_match rs' envelope
      end
  end.

Definition normalize (envelope : Value) : Value :=
  match first_match rules envelope with
  | Some v => v
  | None => Null
  end.

(** ** Error extraction *)

Definition nullish (v : Value) : bool :=
  match v with
  | Undefined | Null => true
  | _ => false
  end.

(** [a ?? b]. *)
Definition coalesce (a b : Value) : Value := if nullish a then b else a.

(** The error "taken first from the derived MealData's error field, else
    from the envelope's top-level error field". *)
Definition extracted_error (envelope : Value) : Value :=
  coalesce (opt_get (normalize envelope) "error") (opt_get envelope "error").

(** ** Rendering state machine *)

(** The derived [loggedMeals] of an envelope, and its being absent or an
    empty sequence. *)
Definition derived_loggedMeals (envelope : Value) : Value :=
  opt_get (normalize envelope) "loggedMeals".

Definition absent_or_empty (v : Value) : bool :=
  match v with
  | Undefined | Null | Arr [] => true
  | _ => false
  end.

Definition nonempty_array (v : Value) : bool :=
  match v with
  | Arr (_ :: _) => true
  | _ => false
  end.

(** The interface types [loggedMeals] as an optional array. *)
Definition well_typed_meals (envelope : Value) : Prop :=
  absent_or_empty (derived_loggedMeals envelope) = true
  \/ nonempty_array (derived_loggedMeals envelope) = true.

(** The derived sequence of meals: empty when [loggedMeals] is absent,
    undefined when [loggedMeals] is not an array. *)
Definition derived_meals (envelope : Value) : option (list Value) :=
  match derived_loggedMeals envelope with
  | Undefined | Null => Some []
  | Arr items => Some items
  | _ => None
  end.

(** "The envelope exposes a non-empty loggedMeals array". *)
Definition exposes_meals (envelope : Value) : bool :=
  exposes "loggedMeals" envelope && nonempty_array (opt_get envelope "loggedMeals").

(** Rule 2 of the state machine: (a) no envelope yet, or (b) nothing derived
    while the envelope carries the in-flight marker. *)
Definition loading_rule (envelope : Value) : bool :=
  is_null envelope
  || (absent_or_empty (derived_loggedMeals envelope)
      && exposes "foodDescription" envelope
      && negb (exposes_meals envelope)).

(** The priority order of the four states, the error being the first
    truthy of the two error fields. *)
Definition machine (envelope : Value) : State :=
  if truthy (NMacrosPage.error (normalize envelope) envelope) then Error
  else if loading_rule envelope then Loading
  else if absent_or_empty (derived_loggedMeals envelope) then Empty
  else Ready.

(** ** Presenter *)

(** Rounding to the nearest integer, a half going away from zero. *)
Definition round_half_away (q : Q) : Z :=
  if Qle_bool 0 q then Qfloor (q + (1 # 2))
  else (- Qfloor ((- q) + (1 # 2)))%Z.

(** [z] is the integer nearest to [q], a tie being broken away from zero. *)
Definition nearest_half_away (q : Q) (z : Z) : Prop :=
  Qabs (q - inject_Z z) < 1 # 2
  \/ (Qabs (q - inject_Z z) == 1 # 2 /\ Qabs q < Qabs (inject_Z z)).

Definition shown (q : Q) : Number := Fin (inject_Z (round_half_away q)).

Definition shown_grid (n : Data.Nutrients) : Grid :=
  {| g_calories := shown (Data.calories n);
     g_protein := shown (Data.protein n);
     g_carbs := shown (Data.carbs n);
     g_fat := shown (Data.fat n) |}.

Definition shown_line (i : Data.Ingredient) : IngredientLine :=
  {| i_name := Str (Data.name i);
     i_serving_info := Str (Data.serving_info i);
     i_grid := shown_grid (Data.nutrients i) |}.

Definition several (A : Type) (l : list A) : bool :=
  match l with
  | _ :: _ :: _ => true
  | _ => false
  end.
Arguments several {A} l.

(** The card of a meal: name, optional size line, rounded totals; the
    breakdown is offered only for more than one ingredient. *)
Definition shown_card (showBreakdown : bool) (m : Data.Meal) : Card :=
  {| c_meal_name := Str (Data.meal_name m);
     c_meal_size :=
       match Data.meal_size m with
       | Some s => if String.eqb s "" then Bare (Str s) else Element (Str s)
       | None => Bare Undefined
       end;
     c_grid := shown_grid (Data.total_nutrients m);
     c_breakdown :=
       if showBreakdown && several (Data.ingredients m)
       then Some (map shown_line (Data.ingredients m)) else None;
     c_toggle :=
       if several (Data.ingredients m) then Some showBreakdown else None |}.

(** The cards of a list of meals, each with the toggle of its position. *)
Definition shown_cards_from (start : nat) (showBreakdown : nat -> bool)
    (l : list Data.Meal) : list Card :=
  map (fun p => shown_card (showBreakdown (fst p)) (snd p))
      (combine (seq start (List.length l)) l).

Definition shown_cards (showBreakdown : nat -> bool) (l : list Data.Meal)
  : list Card :=
  shown_cards_from 0 showBreakdown l.

Definition nonneg_meal (m : Data.Meal) : Prop :=
  Data.nonneg (Data.total_nutrients m)
  /\ Forall (fun i => Data.nonneg (Data.nutrients i)) (Data.ingredients m).

(** ** Tool results *)

(** No number occurs anywhere in a value. *)
Fixpoint no_numbers (v : Value) : bool :=
  match v with
  | Num _ => false
  | Arr items => forallb no_numbers items
  | Obj props =>
      (fix all (l : list (string * Value)) : bool :=
         match l with
         | [] => true
         | (_, x) :: l' => no_numbers x && all l'
         end) props
  | _ => true
  end.

Definition error_shaped (r : ToolResult) (message : string) : Prop :=
  structuredContent r = Obj [("error", Str message)] /\ message <> "".

(** The Deferred response: the description verbatim, a non-empty error
    string, and no number anywhere in the payload. *)
Definition deferred_response (foodDescription : string) (r : ToolResult) : Prop :=
  opt_get (structuredContent r) "foodDescription" = Str foodDescription
  /\ (exists message,
        opt_get (structuredContent r) "error" = Str message /\ message <> "")
  /\ no_numbers (structuredContent r) = true.

(** The error message of a non-success reply of the service is a string
    when it is there at all, as the service documents it. *)
Definition upstream_message_typed (errorData : Value) : Prop :=
  match opt_get (opt_get errorData "error") "message" with
  | Undefined | Null | Str _ => True
  | _ => False
  end.

(** ** The widget with daily totals *)

(** Its normaliser tries the first two paths only. *)
Definition two_paths : list (Value -> option Value) := [rule1; rule2].

Definition normalize_two_paths (envelope : Value) : Value :=
  match first_match two_paths envelope with
  | Some v => v
  | None => Null
  end.

(** Its states, in priority order; there is no Loading. *)
Definition totals_machine (envelope : Value) : State :=
  if truthy (TotalsPage.error (normalize_two_paths envelope) envelope) then Error
  else if absent_or_empty (opt_get (normalize_two_paths envelope) "loggedMeals")
  then Empty
  else Ready.

Definition totals_well_typed_meals (envelope : Value) : Prop :=
  absent_or_empty (opt_get (normalize_two_paths envelope) "loggedMeals") = true
  \/ nonempty_array (opt_get (normalize_two_paths envelope) "loggedMeals") = true.

(** Where the totals page shows Empty the page with the loading state may
    show Loading; otherwise the states are the same. *)
Definition without_loading (s : State) : State :=
  match s with
  | Loading => Empty
  | _ => s
  end.

(** ** [Math.round] on every finite number *)

(** [z] is the integer nearest to [q], a tie going towards +infinity. *)
Definition nearest_half_up (q : Q) (z : Z) : Prop :=
  Qabs (q - inject_Z z) < 1 # 2
  \/ (Qabs (q - inject_Z z) == 1 # 2 /\ q < inject_Z z).

(** [q] lies halfway between two integers. *)
Definition is_tie (q : Q) : Prop :=
  inject_Z (Qfloor (q + (1 # 2))) == q + (1 # 2).

(** ** Assumptions on what is outside the repository *)

(** The [SyntaxError]s of [JSON.parse] carry a message. *)
Definition parser_messages {rt : Runtime} : Prop :=
  forall s message, JSON_parse s = inr message -> message <> "".

(** A rejection of [fetch] with an [Error] carries a message. *)
Definition rejection_messages (fetch : Value -> Value -> LiveRoute.Fetched)
    (apiKey foodDescription : Value) : Prop :=
  forall name message,
    fetch apiKey foodDescription = LiveRoute.Rejected (ErrorObj name message) ->
    message <> "".

(** The error body of a non-success reply is typed as documented. *)
Definition error_replies_typed {rt : Runtime}
    (fetch : Value -> Value -> LiveRoute.Fetched)
    (apiKey foodDescription : Value) : Prop :=
  forall bodyText errorData,
    fetch apiKey foodDescription = LiveRoute.Response false bodyText ->
    JSON_parse bodyText = inl errorData ->
    upstream_message_typed errorData.

(** The service answered the request with a success status, a body that
    parses, and a message content whose text parses to [data]. *)
Definition completion_data {rt : Runtime}
    (fetch : Value -> Value -> LiveRoute.Fetched)
    (apiKey foodDescription data : Value) : Prop :=
  exists bodyText responseData content,
    fetch apiKey foodDescription = LiveRoute.Response true bodyText
    /\ JSON_parse bodyText = inl responseData
    /\ LiveRoute.message_content responseData = Ok content
    /\ JSON_parse (ToString content) = inl data.

(** The result of the [catch] clause for a message. *)
Definition caught_result {rt : Runtime} (widget : ContentWidget)
    (foodDescription message : string) : ToolResult :=
  {| content :=
       text_content ("Error processing food analysis request: " ++ foodDescription);
     structuredContent := Obj [("error", Str message)];
     _meta := widgetMeta widget |}.

(** The shape that every result of a handler has. *)
Definition well_formed_result (widget : ContentWidget) (r : ToolResult) : Prop :=
  _meta r = widgetMeta widget /\ exists t, content r = text_content t.

(** The result of a successful analysis. *)
Definition success_shaped (widget : ContentWidget) (foodDescription : string)
    (r : ToolResult) : Prop :=
  exists dt lm,
    r = {| content := text_content ("Food analyzed: " ++ foodDescription);
           structuredContent := Obj [("dailyTotals", dt); ("loggedMeals", lm)];
           _meta := widgetMeta widget |}
    /\ truthy dt = true /\ truthy lm = true.

End Spec.

(* ===================================================================== *)
(** * A runtime for the examples *)
(* ===================================================================== *)

Module Example.

Definition digits_value (s : string) : Number :=
  match NilEmpty.uint_of_string s with
  | Some d => Fin (inject_Z (Z.of_nat (Nat.of_uint d)))
  | None => NaN
  end.

(** The JSON text of a completion whose message content is the text of an
    empty object, and the value it stands for. *)
Definition reply_body : string :=
  "{" ++ dquote ++ "choices" ++ dquote ++ ":[{" ++ dquote ++ "message" ++ dquote
    ++ ":{" ++ dquote ++ "content" ++ dquote ++ ":" ++ dquote ++ "{}" ++ dquote
    ++ "}}]}".

Definition reply : Value :=
  Obj [("choices", Arr [Obj [("message", Obj [("content", Str "{}")])]])].

(** The JSON text of an error body whose message is an empty array, and
    the value it stands for. *)
Definition array_message_body : string :=
  "{" ++ dquote ++ "error" ++ dquote ++ ":{" ++ dquote ++ "message" ++ dquote
    ++ ":[]}}".

Definition array_message : Value :=
  Obj [("error", Obj [("message", Arr [])])].

(** The replies of [JSON.parse] on the texts the examples use. *)
Definition parse_table (s : string) : Value + string :=
  if String.eqb s "{}" then inl (Obj [])
  else if String.eqb s "null" then inl Null
  else if String.eqb s reply_body then inl reply
  else if String.eqb s array_message_body then inl array_message
  else inr ("Unexpected token in JSON: " ++ s).

(** The message of React's development build for an object child. *)
Definition child_message (props : list (string * Value)) : string :=
  "Objects are not valid as a React child (found: object with keys {"
    ++ String.concat ", " (map fst props)
    ++ "}). If you meant to render a collection of children, use an array instead.".

(** A runtime that agrees with the language on texts of digits, on small
    integers and on the JSON texts above. *)
Definition runtime : Runtime :=
  {| StringToNumber := digits_value;
     NumberToString := fun q => NilEmpty.string_of_int (Z.to_int (Qfloor q));
     JSON_parse := parse_table;
     invalid_child_message := child_message |}.

Definition nutrients (c p cb f : Q) : Data.Nutrients :=
  {| Data.calories := c; Data.protein := p; Data.carbs := cb; Data.fat := f |}.

Definition bigMac : Data.Meal :=
  {| Data.meal_name := "Big Mac Meal";
     Data.meal_size := Some "Medium";
     Data.ingredients :=
       [ {| Data.name := "Big Mac"; Data.brand := Some "McDonald's";
            Data.serving_info := "1 burger";
            Data.nutrients := nutrients 563 26 45 33 |};
         {| Data.name := "Fries"; Data.brand := None;
            Data.serving_info := "1 small";
            Data.nutrients := nutrients (189 # 2) 4 17 2 |} ];
     Data.total_nutrients := nutrients 657 30 62 35 |}.

Definition widget : ContentWidget := macrosWidget "<div></div>" "https://example.test".

(** The envelope of the specification's first scenario: totals and one
    meal under [result.structuredContent]. *)
Definition bigMacData : Data.MealData :=
  {| Data.dailyTotals := Some (nutrients 657 30 62 35);
     Data.loggedMeals := Some [bigMac];
     Data.error := None |}.

Definition bigMacEnvelope : Value :=
  Obj [("result", Obj [("structuredContent", Data.of_MealData bigMacData)])].

(** The envelope whose only field is an empty error string. *)
Definition empty_error_envelope : Value := Obj [("error", Str "")].

(** An envelope whose structured content holds an empty error string while
    its own error field holds a message. *)
Definition fallthrough_envelope : Value :=
  Obj [("structuredContent", Obj [("error", Str "")]); ("error", Str "boom")].

(** An echo of the food description whose structured content holds its
    meals as an object keyed by meal time, not as an array. *)
Definition keyed_meals_envelope : Value :=
  Obj [("foodDescription", Str "pizza");
       ("structuredContent",
        Obj [("loggedMeals", Obj [("breakfast", Str "two eggs")])])].

(** An envelope whose meals are a text. *)
Definition text_meals_envelope : Value := Obj [("loggedMeals", Str "two eggs")].

(** A service that answers every request with [reply_body]. *)
Definition service (apiKey foodDescription : Value) : LiveRoute.Fetched :=
  LiveRoute.Response true reply_body.

(** A service that refuses every request with an empty JSON object as its
    error body, one that answers every request with an empty JSON object,
    and one that cannot be reached. *)
Definition refusing_service (apiKey foodDescription : Value) : LiveRoute.Fetched :=
  LiveRoute.Response false "{}".

Definition hollow_service (apiKey foodDescription : Value) : LiveRoute.Fetched :=
  LiveRoute.Response true "{}".

(** A service that refuses every request with [array_message_body]. *)
Definition array_message_service (apiKey foodDescription : Value)
  : LiveRoute.Fetched :=
  LiveRoute.Response false array_message_body.

Definition unreachable_service (apiKey foodDescription : Value)
  : LiveRoute.Fetched :=
  LiveRoute.Rejected (ErrorObj "TypeError" "fetch failed").

End Example.

(* ===================================================================== *)
(** * Facts about the JavaScript fragment *)
(* ===================================================================== *)

Section JsFacts.

Lemma revapp_nonnil (d acc : Decimal.uint) :
  acc <> Decimal.Nil -> Decimal.revapp d acc <> Decimal.Nil.
Proof.
  revert acc. induction d; intros acc H; simpl; try assumption;
    apply IHd; discriminate.
Qed.

Lemma to_little_uint_nonnil (n : nat) (acc : Decimal.uint) :
  acc <> Decimal.Nil -> Nat.to_little_uint n acc <> Decimal.Nil.
Proof.
  revert acc. induction n as [|n IH]; intros acc H; simpl; [assumption|].
  apply IH. destruct acc; simpl; discriminate.
Qed.

Lemma to_uint_nonnil (n : nat) : Nat.to_uint n <> Decimal.Nil.
Proof.
  unfold Nat.to_uint, Decimal.rev.
  pose proof (to_little_uint_nonnil n Decimal.zero) as H.
  destruct (Nat.to_little_uint n Decimal.zero); simpl;
    try (apply revapp_nonnil; discriminate).
  apply H. discriminate.
Qed.

Lemma index_name_leading_digit (i : nat) : leading_digit (index_name i) = true.
Proof.
  unfold index_name.
  pose proof (to_uint_nonnil i) as H.
  destruct (Nat.to_uint i); try reflexivity.
  now elim H.
Qed.

Lemma eqb_leading_digit (k s : string) :
  leading_digit k = false -> leading_digit s = true -> String.eqb k s = false.
Proof.
  intros Hk Hs. apply String.eqb_neq. intros ->. congruence.
Qed.

(** A name that is neither [length] nor an index is no own property of an
    array. *)
Lemma array_prop_name (k : string) (items : list Value) :
  leading_digit k = false -> String.eqb k "length" = false ->
  array_prop k items = None.
Proof.
  intros Hk Hl. unfold array_prop. rewrite Hl.
  assert (H : forall l, find (fun i => String.eqb k (index_name i)) l = None).
  { induction l as [|i l IH]; simpl; [reflexivity|].
    rewrite (eqb_leading_digit k (index_name i) Hk (index_name_leading_digit i)).
    exact IH. }
  now rewrite H.
Qed.

Lemma opt_get_array (k : string) (items : list Value) :
  leading_digit k = false -> String.eqb k "length" = false ->
  opt_get (Arr items) k = Undefined.
Proof.
  intros Hk Hl. unfold opt_get, get. now rewrite array_prop_name.
Qed.

Lemma js_in_array (k : string) (items : list Value) :
  leading_digit k = false -> String.eqb k "length" = false ->
  js_in k (Arr items) = Ok false.
Proof.
  intros Hk Hl. unfold js_in. now rewrite array_prop_name.
Qed.

Lemma opt_get_nullish (v : Value) (k : string) :
  Spec.nullish v = true -> opt_get v k = Undefined.
Proof. destruct v; simpl; congruence. Qed.

(** Outside [null] and [undefined], [v.k] and [v?.k] agree. *)
Lemma get_opt_get (v : Value) (k : string) :
  Spec.nullish v = false -> get v k = Ok (opt_get v k).
Proof. destruct v; simpl; try congruence; reflexivity. Qed.

Lemma truthy_not_nullish (v : Value) :
  truthy v = true -> Spec.nullish v = false.
Proof. destruct v; simpl; congruence. Qed.

Lemma truthy_opt_get (v : Value) (k : string) :
  truthy (opt_get v k) = true -> Spec.nullish v = false.
Proof.
  destruct (Spec.nullish v) eqn:E; [|reflexivity].
  rewrite opt_get_nullish by assumption. discriminate.
Qed.

Lemma or_else_not_nullish (a : Value) (items : list Value) :
  Spec.nullish (or_else a (Arr items)) = false.
Proof.
  unfold or_else. destruct (truthy a) eqn:E; [|reflexivity].
  now apply truthy_not_nullish.
Qed.

(** A non-empty string is truthy. *)
Lemma nonempty_truthy (m : string) : m <> "" -> truthy (Str m) = true.
Proof.
  intros H. simpl. apply negb_true_iff. now apply String.eqb_neq.
Qed.

End JsFacts.

(* ===================================================================== *)
(** * The envelope normaliser *)
(* ===================================================================== *)

Section Normaliser.

Local Ltac key_facts :=
  repeat match goal with
    | |- context [opt_get (Arr ?l) ?k] =>
        rewrite (opt_get_array k l) by reflexivity
    | |- context [js_in ?k (Arr ?l)] =>
        rewrite (js_in_array k l) by reflexivity
    | |- context [array_prop ?k ?l] =>
        rewrite (array_prop_name k l) by reflexivity
    end.

Lemma rule4_js_in (envelope : Value) :
  truthy envelope && typeof_object envelope = true ->
  js_in "loggedMeals" envelope = Ok (Spec.exposes "loggedMeals" envelope)
  /\ js_in "dailyTotals" envelope = Ok (Spec.exposes "dailyTotals" envelope).
Proof.
  destruct envelope; simpl; rewrite ?andb_false_r; try discriminate; intros _.
  - key_facts. split; reflexivity.
  - split; reflexivity.
Qed.

Lemma rule4_not_object (envelope : Value) :
  truthy envelope && typeof_object envelope = false ->
  Spec.rule4 envelope = None.
Proof.
  destruct envelope; simpl; rewrite ?andb_false_r; try discriminate; reflexivity.
Qed.

Lemma truthy_opt_get2 (v : Value) (k1 k2 : string) :
  truthy (opt_get (opt_get v k1) k2) = true ->
  Spec.nullish v = false /\ Spec.nullish (opt_get v k1) = false.
Proof.
  intros H. pose proof (truthy_opt_get _ _ H) as H1. split; [|exact H1].
  destruct (Spec.nullish v) eqn:E; [|reflexivity].
  rewrite (opt_get_nullish v k1 E) in H1. discriminate.
Qed.

(** The code and the ordered list of extractors compute the same value. *)
Lemma mealData_normalize (envelope : Value) :
  NMacrosPage.mealData envelope = Ok (Spec.normalize envelope).
Proof.
  unfold NMacrosPage.mealData, Spec.normalize, Spec.rules, Spec.first_match,
    Spec.rule1, Spec.rule2, Spec.rule3, Spec.when_present.
  destruct (truthy (opt_get (opt_get envelope "result") "structuredContent"))
    eqn:E1.
  { destruct (truthy_opt_get2 _ _ _ E1) as [He Hr].
    rewrite (get_opt_get envelope "result" He). simpl.
    now rewrite (get_opt_get _ "structuredContent" Hr). }
  destruct (truthy (opt_get envelope "structuredContent")) eqn:E2.
  { now rewrite (get_opt_get envelope _ (truthy_opt_get _ _ E2)). }
  destruct (truthy (opt_get envelope "result")) eqn:E3.
  { now rewrite (get_opt_get envelope _ (truthy_opt_get _ _ E3)). }
  destruct (truthy envelope && typeof_object envelope) eqn:E4.
  - destruct (rule4_js_in envelope E4) as [-> ->]. simpl.
    unfold Spec.rule4.
    destruct (Spec.exposes "loggedMeals" envelope); simpl; [reflexivity|].
    destruct (Spec.exposes "dailyTotals" envelope); reflexivity.
  - now rewrite (rule4_not_object envelope E4).
Qed.

(** Whichever of the four paths carries a [MealData] object, the normaliser
    returns that object. *)
Lemma mealData_carriers (d : Data.MealData) :
  NMacrosPage.mealData
    (Obj [("result", Obj [("structuredContent", Data.of_MealData d)])])
  = Ok (Data.of_MealData d)
  /\ NMacrosPage.mealData (Obj [("structuredContent", Data.of_MealData d)])
     = Ok (Data.of_MealData d)
  /\ NMacrosPage.mealData (Obj [("result", Data.of_MealData d)])
     = Ok (Data.of_MealData d)
  /\ (Spec.exposes "loggedMeals" (Data.of_MealData d)
       || Spec.exposes "dailyTotals" (Data.of_MealData d) = true ->
      NMacrosPage.mealData (Data.of_MealData d) = Ok (Data.of_MealData d)).
Proof.
  split; [reflexivity|]. split; [reflexivity|]. split.
  - destruct d as [[n|] [l|] [e|]]; reflexivity.
  - intros H. rewrite mealData_normalize. f_equal.
    destruct d as [[n|] [l|] [e|]]; try reflexivity; discriminate H.
Qed.

End Normaliser.

(** C1: the normaliser of [src/app/nmacros/page.tsx] returns, for every
    envelope and without ever throwing, the value found by trying the four
    paths in order, the first match winning and nothing being merged:
    [result.structuredContent], [structuredContent], [result], the envelope
    itself when it exposes [loggedMeals] or [dailyTotals].  A [MealData]
    object carried by any of the four paths is returned as it is.  The
    result is [null] when the envelope is [undefined], [null] or matches
    none of the four. *)
Theorem C1_normaliser_first_match :
  (forall envelope : Value,
      NMacrosPage.mealData envelope = Ok (Spec.normalize envelope))
  /\ (forall d : Data.MealData,
         NMacrosPage.mealData
           (Obj [("result", Obj [("structuredContent", Data.of_MealData d)])])
         = Ok (Data.of_MealData d)
         /\ NMacrosPage.mealData (Obj [("structuredContent", Data.of_MealData d)])
            = Ok (Data.of_MealData d)
         /\ NMacrosPage.mealData (Obj [("result", Data.of_MealData d)])
            = Ok (Data.of_MealData d)
         /\ (Spec.exposes "loggedMeals" (Data.of_MealData d)
              || Spec.exposes "dailyTotals" (Data.of_MealData d) = true ->
             NMacrosPage.mealData (Data.of_MealData d) = Ok (Data.of_MealData d)))
  /\ (forall envelope : Value,
         Spec.first_match Spec.rules envelope = None ->
         NMacrosPage.mealData envelope = Ok Null)
  /\ NMacrosPage.mealData Undefined = Ok Null
  /\ NMacrosPage.mealData Null = Ok Null.
Proof.
  split; [exact mealData_normalize|].
  split; [exact mealData_carriers|].
  split; [|split; reflexivity].
  intros envelope Hnone. rewrite mealData_normalize.
  unfold Spec.normalize. now rewrite Hnone.
Qed.

(** C1 at a concrete envelope: a [MealData] with a meal list at the top
    level, and an envelope that matches no path. *)
Lemma C1_normaliser_witness :
  (Spec.exposes "loggedMeals"
     (Data.of_MealData {| Data.dailyTotals := None;
                          Data.loggedMeals := Some [Example.bigMac];
                          Data.error := None |})
   || Spec.exposes "dailyTotals"
        (Data.of_MealData {| Data.dailyTotals := None;
                             Data.loggedMeals := Some [Example.bigMac];
                             Data.error := None |}) = true)
  /\ NMacrosPage.mealData
       (Data.of_MealData {| Data.dailyTotals := None;
                            Data.loggedMeals := Some [Example.bigMac];
                            Data.error := None |})
     = Ok (Data.of_MealData {| Data.dailyTotals := None;
                               Data.loggedMeals := Some [Example.bigMac];
                               Data.error := None |})
  /\ Spec.first_match Spec.rules (Obj [("foodDescription", Str "pizza")]) = None
  /\ NMacrosPage.mealData (Obj [("foodDescription", Str "pizza")]) = Ok Null.
Proof.
  split; [reflexivity|].
  split.
  - apply (proj1 (proj2 C1_normaliser_first_match)). reflexivity.
  - split; [reflexivity|].
    apply (proj1 (proj2 (proj2 C1_normaliser_first_match))). reflexivity.
Defined.

(* ===================================================================== *)
(** * The rendering state machine of [src/app/nmacros/page.tsx] *)
(* ===================================================================== *)

Section StateMachine.
Context {rt : Runtime}.

Lemma gt_num_length (n : nat) (k : nat) :
  gt_num (nat_num n) (inject_Z (Z.of_nat k)) = Nat.ltb k n.
Proof.
  unfold gt_num, nat_num, ToNumber.
  destruct (Qlt_le_dec (inject_Z (Z.of_nat k)) (inject_Z (Z.of_nat n))) as [H|H];
    symmetry.
  - apply Nat.ltb_lt. rewrite <- Zlt_Qlt in H. lia.
  - apply Nat.ltb_ge. rewrite <- Zle_Qle in H. lia.
Qed.

Lemma strict_eq_num_length (n : nat) :
  strict_eq_num (nat_num n) 0 = Nat.eqb n 0.
Proof. destruct n; reflexivity. Qed.

Lemma gt_num_length_0 (n : nat) : gt_num (nat_num n) 0 = Nat.ltb 0 n.
Proof. exact (gt_num_length n 0). Qed.

Lemma gt_num_length_1 (n : nat) : gt_num (nat_num n) 1 = Nat.ltb 1 n.
Proof. exact (gt_num_length n 1). Qed.

Local Arguments gt_num : simpl never.
Local Arguments nat_num : simpl never.
Local Arguments strict_eq_num : simpl never.

(** The derived [meals] of a well-typed envelope is an array. *)
Lemma meals_well_typed (envelope : Value) :
  Spec.well_typed_meals envelope ->
  exists items,
    NMacrosPage.meals (Spec.normalize envelope) = Arr items
    /\ Spec.absent_or_empty (Spec.derived_loggedMeals envelope)
       = Nat.eqb (List.length items) 0.
Proof.
  unfold Spec.well_typed_meals, Spec.derived_loggedMeals, NMacrosPage.meals, or_else.
  destruct (opt_get (Spec.normalize envelope) "loggedMeals") as [| | | | |items|];
    simpl; intros [H|H]; try discriminate.
  - exists []; split; reflexivity.
  - exists []; split; reflexivity.
  - exists items; split; [reflexivity|]. now destruct items.
  - exists items; split; [reflexivity|]. now destruct items.
Qed.

Lemma loading_rule_object (envelope : Value) :
  Spec.exposes "foodDescription" envelope = true ->
  truthy envelope && typeof_object envelope = true /\ is_null envelope = false.
Proof. destruct envelope; simpl; try discriminate. now split. Qed.

(** [hasMeals], as the effect computes it on an object envelope. *)
Lemma effect_hasMeals (envelope : Value) :
  truthy envelope && typeof_object envelope = true ->
  (inEnv <- js_in "loggedMeals" envelope ;;
   if inEnv then
     lm <- get envelope "loggedMeals" ;;
     if isArray lm then n <- get lm "length" ;; Ok (gt_num n 0) else Ok false
   else Ok false)
  = Ok (Spec.exposes_meals envelope).
Proof.
  destruct envelope as [| | | | |items|props]; simpl; rewrite ?andb_false_r;
    try discriminate; intros _.
  - rewrite (array_prop_name "loggedMeals" items) by reflexivity. reflexivity.
  - unfold Spec.exposes_meals, Spec.exposes, has_key. simpl.
    destruct (lookup "loggedMeals" props) as [v|]; simpl; [|reflexivity].
    destruct v as [| | | | |l|]; simpl; try reflexivity.
    rewrite gt_num_length_0. now destruct l.
Qed.

Lemma effect_hasFoodDescription (envelope : Value) :
  truthy envelope && typeof_object envelope = true ->
  js_in "foodDescription" envelope = Ok (Spec.exposes "foodDescription" envelope).
Proof.
  destruct envelope as [| | | | |items|props]; simpl; rewrite ?andb_false_r;
    try discriminate; intros _; [|reflexivity].
  now rewrite (array_prop_name "foodDescription" items) by reflexivity.
Qed.

(** On a well-typed envelope the effect stores exactly the loading rule. *)
Lemma effect_loading_rule (envelope : Value) :
  Spec.well_typed_meals envelope ->
  NMacrosPage.effect envelope = Ok (Spec.loading_rule envelope).
Proof.
  intros Hwt. destruct (meals_well_typed envelope Hwt) as (items & Hm & Habs).
  unfold NMacrosPage.effect. rewrite mealData_normalize. simpl.
  rewrite Hm. simpl.
  rewrite gt_num_length_0.
  unfold Spec.loading_rule. rewrite Habs.
  destruct items as [|x items]; simpl.
  - destruct (is_null envelope) eqn:En; [reflexivity|]. simpl.
    destruct (truthy envelope && typeof_object envelope) eqn:Eo.
    + rewrite (effect_hasFoodDescription envelope Eo). simpl.
      rewrite (effect_hasMeals envelope Eo). simpl.
      now destruct (Spec.exposes "foodDescription" envelope && _).
    + destruct (Spec.exposes "foodDescription" envelope) eqn:Ef; [|reflexivity].
      destruct (loading_rule_object envelope Ef) as [Ho _]. congruence.
  - destruct (is_null envelope) eqn:En; [|reflexivity].
    destruct envelope; try discriminate En.
    discriminate Hm.
Qed.

(** One call of [Macros] on a well-typed envelope. *)
Lemma Macros_well_typed (isLoading : bool) (envelope : Value) :
  Spec.well_typed_meals envelope ->
  exists view,
    NMacrosPage.Macros isLoading envelope = Ok view
    /\ NMacrosPage.state_of view =
       if truthy (NMacrosPage.error (Spec.normalize envelope) envelope) then Error
       else if isLoading then Loading
       else if Spec.absent_or_empty (Spec.derived_loggedMeals envelope) then Empty
       else Ready.
Proof.
  intros Hwt. destruct (meals_well_typed envelope Hwt) as (items & Hm & Habs).
  unfold NMacrosPage.Macros. rewrite mealData_normalize. simpl.
  rewrite Hm, Habs. simpl. rewrite strict_eq_num_length.
  destruct (truthy (NMacrosPage.error (Spec.normalize envelope) envelope)).
  { eexists; split; reflexivity. }
  destruct isLoading.
  { eexists; split; reflexivity. }
  destruct items as [|x items]; eexists; split; reflexivity.
Qed.

(** The state shown once the effect has run does not depend on what the
    state cell held before: it is the specification's priority order. *)
Lemma state_machine (isLoading : bool) (envelope : Value) :
  Spec.well_typed_meals envelope ->
  NMacrosPage.state isLoading envelope = Ok (Spec.machine envelope).
Proof.
  intros Hwt. unfold NMacrosPage.state, NMacrosPage.arrive.
  destruct (Macros_well_typed isLoading envelope Hwt) as (v & Hv & Hsv).
  destruct (Macros_well_typed (Spec.loading_rule envelope) envelope Hwt)
    as (v' & Hv' & Hsv').
  rewrite Hv, (effect_loading_rule envelope Hwt). simpl.
  unfold Spec.machine.
  destruct (Bool.eqb (Spec.loading_rule envelope) isLoading) eqn:E.
  - apply Bool.eqb_prop in E. subst isLoading. simpl. now rewrite Hsv.
  - rewrite Hv'. simpl. now rewrite Hsv'.
Qed.

End StateMachine.

Section StateClaims.
Context {rt : Runtime}.

Lemma meals_not_nullish (md : Value) :
  exists len, get (NMacrosPage.meals md) "length" = Ok len.
Proof.
  eexists. apply get_opt_get. apply or_else_not_nullish.
Qed.

(** The effect never throws, whatever the envelope. *)
Lemma effect_total (envelope : Value) :
  exists b, NMacrosPage.effect envelope = Ok b.
Proof.
  unfold NMacrosPage.effect. rewrite mealData_normalize. simpl.
  destruct (meals_not_nullish (Spec.normalize envelope)) as [len ->]. simpl.
  destruct (gt_num len 0); [eexists; reflexivity|].
  destruct (is_null envelope); [eexists; reflexivity|].
  destruct (truthy envelope && typeof_object envelope) eqn:Eo;
    [|eexists; reflexivity].
  rewrite (effect_hasFoodDescription envelope Eo). simpl.
  rewrite (effect_hasMeals envelope Eo). simpl.
  destruct (Spec.exposes "foodDescription" envelope && _); eexists; reflexivity.
Qed.

(** A truthy error wins over every other signal, for any envelope and any
    content of the state cell. *)
Lemma error_priority (isLoading : bool) (envelope : Value) :
  truthy (NMacrosPage.error (Spec.normalize envelope) envelope) = true ->
  exists isLoading',
    NMacrosPage.arrive isLoading envelope
    = Ok (isLoading',
          NMacrosPage.ErrorView
            (NMacrosPage.error (Spec.normalize envelope) envelope)).
Proof.
  intros He.
  assert (HM : forall b, NMacrosPage.Macros b envelope
                         = Ok (NMacrosPage.ErrorView
                                 (NMacrosPage.error (Spec.normalize envelope)
                                                    envelope))).
  { intros b. unfold NMacrosPage.Macros. rewrite mealData_normalize. simpl.
    destruct (meals_not_nullish (Spec.normalize envelope)) as [len ->]. simpl.
    now rewrite He. }
  unfold NMacrosPage.arrive. rewrite HM.
  destruct (effect_total envelope) as [b ->]. simpl.
  destruct (Bool.eqb b isLoading); [eexists; reflexivity|].
  rewrite HM. eexists; reflexivity.
Qed.

(** The first non-null of the two error fields, when it is a non-empty
    string, is also the first truthy of them. *)
Lemma extracted_error_truthy (envelope : Value) (s : string) :
  Spec.extracted_error envelope = Str s -> s <> "" ->
  NMacrosPage.error (Spec.normalize envelope) envelope = Str s.
Proof.
  unfold Spec.extracted_error, Spec.coalesce, NMacrosPage.error, or_else.
  intros H Hs.
  assert (Ht : truthy (Str s) = true).
  { simpl. apply negb_true_iff. now apply String.eqb_neq. }
  destruct (opt_get (Spec.normalize envelope) "error"); simpl in *;
    try discriminate H; try assumption.
  injection H as ->. simpl in Ht. now rewrite Ht.
Qed.

(** No extracted error: neither field holds anything truthy. *)
Lemma no_extracted_error (envelope : Value) :
  Spec.nullish (Spec.extracted_error envelope) = true ->
  truthy (NMacrosPage.error (Spec.normalize envelope) envelope) = false.
Proof.
  unfold Spec.extracted_error, Spec.coalesce, NMacrosPage.error, or_else.
  destruct (opt_get (Spec.normalize envelope) "error"); simpl;
    try discriminate; destruct (opt_get envelope "error"); simpl;
    try discriminate; reflexivity.
Qed.

(** A non-empty error string that line 63 extracts is shown, for any
    envelope and any content of the state cell. *)
Lemma string_error_shown (isLoading : bool) (envelope : Value) (s : string) :
  NMacrosPage.error (Spec.normalize envelope) envelope = Str s -> s <> "" ->
  NMacrosPage.state isLoading envelope = Ok Error
  /\ exists isLoading',
      NMacrosPage.arrive isLoading envelope
      = Ok (isLoading', NMacrosPage.ErrorView (Str s)).
Proof.
  intros He Hs.
  assert (Ht : truthy (NMacrosPage.error (Spec.normalize envelope) envelope) = true).
  { rewrite He. simpl. apply negb_true_iff. now apply String.eqb_neq. }
  destruct (error_priority isLoading envelope Ht) as [l Hl].
  rewrite He in Hl.
  split; [|now exists l].
  unfold NMacrosPage.state. now rewrite Hl.
Qed.

(** Without a truthy error no call of [Macros] returns the error view. *)
Lemma Macros_no_error (isLoading : bool) (envelope : Value)
    (v : NMacrosPage.View) :
  truthy (NMacrosPage.error (Spec.normalize envelope) envelope) = false ->
  NMacrosPage.Macros isLoading envelope = Ok v ->
  NMacrosPage.state_of v <> Error.
Proof.
  intros He. unfold NMacrosPage.Macros. rewrite mealData_normalize. simpl.
  destruct (meals_not_nullish (Spec.normalize envelope)) as [len ->]. simpl.
  rewrite He.
  destruct isLoading; [intros [= <-]; discriminate|].
  destruct (strict_eq_num len 0); [intros [= <-]; discriminate|].
  destruct (map_cards _); simpl; [intros [= <-]; discriminate|discriminate].
Qed.

(** Without a truthy error the widget does not show the Error state. *)
Lemma no_error_not_Error (isLoading : bool) (envelope : Value) (st : State) :
  truthy (NMacrosPage.error (Spec.normalize envelope) envelope) = false ->
  NMacrosPage.state isLoading envelope = Ok st -> st <> Error.
Proof.
  intros He. unfold NMacrosPage.state, NMacrosPage.arrive.
  destruct (NMacrosPage.Macros isLoading envelope) as [v|] eqn:Ev; simpl;
    [|discriminate].
  destruct (NMacrosPage.effect envelope) as [b|]; simpl; [|discriminate].
  destruct (Bool.eqb b isLoading); simpl.
  - intros [= <-]. exact (Macros_no_error _ _ _ He Ev).
  - destruct (NMacrosPage.Macros b envelope) as [v'|] eqn:Ev'; simpl;
      [|discriminate].
    intros [= <-]. exact (Macros_no_error _ _ _ He Ev').
Qed.

Lemma derived_meals_well_typed (envelope : Value) (items : list Value) :
  Spec.derived_meals envelope = Some items ->
  Spec.well_typed_meals envelope
  /\ Spec.absent_or_empty (Spec.derived_loggedMeals envelope)
     = Nat.eqb (List.length items) 0.
Proof.
  unfold Spec.derived_meals, Spec.well_typed_meals.
  destruct (Spec.derived_loggedMeals envelope) as [| | | | |l|]; simpl;
    try discriminate; intros [= <-]; simpl.
  - split; [now left|reflexivity].
  - split; [now left|reflexivity].
  - destruct l; simpl; split; auto.
Qed.

End StateClaims.

(** C2, as stated, fails: the empty string is a non-null error string, it
    is the error extracted from [{ error: "" }], and the widget shows the
    Empty state for that envelope. *)
Lemma C2_counterexample :
  Spec.extracted_error Example.empty_error_envelope = Str ""
  /\ NMacrosPage.state (rt := Example.runtime) true Example.empty_error_envelope = Ok Empty
  /\ ~ (forall (rt : Runtime) (isLoading : bool) (envelope : Value) (s : string),
          Spec.extracted_error envelope = Str s ->
          NMacrosPage.state isLoading envelope = Ok Error).
Proof.
  split; [reflexivity|]. split; [reflexivity|].
  intros H.
  specialize (H Example.runtime true Example.empty_error_envelope "" eq_refl).
  discriminate H.
Qed.

(** C2, amended: the error the widget of [src/app/nmacros/page.tsx] goes
    by is the first of the derived MealData's error field and the
    envelope's own error field that is not missing and not falsy (line 63).
    For every envelope in which that is a non-empty string, the MealData's
    own or, when the MealData's is missing or falsy (the empty string in
    particular), the envelope's, the widget shows the Error state with that
    string, whatever else the envelope holds and whatever the state cell
    held.  An error field that is missing or falsy counts as no error: when
    both are, the widget does not show the Error state.  In particular a
    non-empty string that is the first non-null of the two fields is the
    one shown. *)
Theorem C2_nonempty_error_wins :
  forall (rt : Runtime) (isLoading : bool) (envelope : Value),
    (forall s : string,
        s <> "" ->
        opt_get (Spec.normalize envelope) "error" = Str s
        \/ (truthy (opt_get (Spec.normalize envelope) "error") = false
            /\ opt_get envelope "error" = Str s) ->
        NMacrosPage.state isLoading envelope = Ok Error
        /\ exists isLoading',
            NMacrosPage.arrive isLoading envelope
            = Ok (isLoading', NMacrosPage.ErrorView (Str s)))
    /\ (truthy (opt_get (Spec.normalize envelope) "error") = false ->
        truthy (opt_get envelope "error") = false ->
        forall st : State,
          NMacrosPage.state isLoading envelope = Ok st -> st <> Error)
    /\ (forall s : string,
           Spec.extracted_error envelope = Str s ->
           s <> "" ->
           NMacrosPage.state isLoading envelope = Ok Error
           /\ exists isLoading',
               NMacrosPage.arrive isLoading envelope
               = Ok (isLoading', NMacrosPage.ErrorView (Str s))).
Proof.
  intros rt isLoading envelope. split; [|split].
  - intros s Hs H. apply string_error_shown; [|exact Hs].
    unfold NMacrosPage.error, or_else.
    destruct H as [Ha|[Ha Hb]].
    + rewrite Ha. now rewrite (nonempty_truthy s Hs).
    + now rewrite Ha.
  - intros Ha Hb st. apply no_error_not_Error.
    unfold NMacrosPage.error, or_else. now rewrite Ha.
  - intros s Hx Hs.
    exact (string_error_shown isLoading envelope s
             (extracted_error_truthy envelope s Hx Hs) Hs).
Qed.

(** C2 at the envelope [{ structuredContent: { error: "" }, error: "boom" }],
    whose error is "boom"; at [{ error: "" }], which has none; and at
    [{ structuredContent: { error: "rate limited" }, loggedMeals: [bigMac] }]. *)
Lemma C2_nonempty_error_witness :
  NMacrosPage.state (rt := Example.runtime) true Example.fallthrough_envelope
  = Ok Error
  /\ (exists isLoading',
         NMacrosPage.arrive (rt := Example.runtime) true
           Example.fallthrough_envelope
         = Ok (isLoading', NMacrosPage.ErrorView (Str "boom")))
  /\ NMacrosPage.state (rt := Example.runtime) true Example.empty_error_envelope
     <> Ok Error
  /\ NMacrosPage.state (rt := Example.runtime) true
       (Obj [("structuredContent", Obj [("error", Str "rate limited")]);
             ("loggedMeals", Arr [Data.of_Meal Example.bigMac])])
     = Ok Error.
Proof.
  assert (H1 : NMacrosPage.state (rt := Example.runtime) true
                 Example.fallthrough_envelope = Ok Error
               /\ exists isLoading',
                   NMacrosPage.arrive (rt := Example.runtime) true
                     Example.fallthrough_envelope
                   = Ok (isLoading', NMacrosPage.ErrorView (Str "boom"))).
  { apply (proj1 (C2_nonempty_error_wins Example.runtime true
                    Example.fallthrough_envelope) "boom").
    - discriminate.
    - right. split; reflexivity. }
  split; [exact (proj1 H1)|]. split; [exact (proj2 H1)|]. split.
  - intros H.
    apply (proj1 (proj2 (C2_nonempty_error_wins Example.runtime true
                           Example.empty_error_envelope))
             eq_refl eq_refl Error H).
    reflexivity.
  - apply (proj2 (proj2 (C2_nonempty_error_wins Example.runtime true
                           (Obj [("structuredContent",
                                  Obj [("error", Str "rate limited")]);
                                 ("loggedMeals",
                                  Arr [Data.of_Meal Example.bigMac])])))
             "rate limited").
    + reflexivity.
    + discriminate.
Defined.

(** On mount the state cell holds [true]: the first call of [Macros] returns
    the loading view even for a complete envelope; the effect then clears
    the cell and the second call returns the cards. *)
Example first_call_on_mount :
  NMacrosPage.Macros true Example.bigMacEnvelope = Ok NMacrosPage.LoadingView
  /\ NMacrosPage.effect (rt := Example.runtime) Example.bigMacEnvelope = Ok false
  /\ NMacrosPage.state (rt := Example.runtime) true Example.bigMacEnvelope
     = Ok Ready.
Proof. repeat split. Qed.

(** C3, as stated, fails on an envelope whose derived [loggedMeals] is not
    an array: [{ foodDescription: "pizza", structuredContent: { loggedMeals:
    { breakfast: "two eggs" } } }] has no extracted error, is not [null], and
    its derived [loggedMeals] is neither absent nor empty, yet the widget
    shows Loading for it on mount ([meals.length] is [undefined], which is
    not greater than zero, and the envelope has a [foodDescription] and no
    [loggedMeals] of its own). *)
Lemma C3_counterexample :
  Spec.nullish (Spec.extracted_error Example.keyed_meals_envelope) = true
  /\ NMacrosPage.state (rt := Example.runtime) true Example.keyed_meals_envelope
     = Ok Loading
  /\ Example.keyed_meals_envelope <> Null
  /\ Spec.absent_or_empty (Spec.derived_loggedMeals Example.keyed_meals_envelope)
     = false
  /\ ~ (forall (rt : Runtime) (isLoading : bool) (envelope : Value),
          Spec.nullish (Spec.extracted_error envelope) = true ->
          (NMacrosPage.state isLoading envelope = Ok Loading
           <-> (envelope = Null
                \/ (Spec.absent_or_empty (Spec.derived_loggedMeals envelope) = true
                    /\ Spec.exposes "foodDescription" envelope = true
                    /\ Spec.exposes_meals envelope = false)))).
Proof.
  split; [reflexivity|]. split; [reflexivity|]. split; [discriminate|].
  split; [reflexivity|].
  intros H.
  destruct (proj1 (H Example.runtime true Example.keyed_meals_envelope eq_refl)
              eq_refl) as [Hn|[Ha _]]; discriminate.
Qed.

(** C3, amended: for every envelope with no extracted error whose derived
    [loggedMeals] is absent or an array (as the interface declares it), the
    widget of [src/app/nmacros/page.tsx] shows Loading exactly when (a) the
    envelope is [null], or (b) the derived [loggedMeals] is absent or empty
    and the envelope exposes a [foodDescription] field but no non-empty
    [loggedMeals] array. *)
Theorem C3_loading_exactly_when :
  forall (rt : Runtime) (isLoading : bool) (envelope : Value),
    Spec.nullish (Spec.extracted_error envelope) = true ->
    Spec.well_typed_meals envelope ->
    (NMacrosPage.state isLoading envelope = Ok Loading
     <-> (envelope = Null
          \/ (Spec.absent_or_empty (Spec.derived_loggedMeals envelope) = true
              /\ Spec.exposes "foodDescription" envelope = true
              /\ Spec.exposes_meals envelope = false))).
Proof.
  intros rt isLoading envelope Hx Hwt.
  rewrite (state_machine isLoading envelope Hwt).
  unfold Spec.machine. rewrite (no_extracted_error envelope Hx).
  unfold Spec.loading_rule.
  destruct (is_null envelope) eqn:En; simpl.
  - split; [intros _|reflexivity]. left. now destruct envelope.
  - assert (Hn : envelope <> Null) by (intros ->; discriminate En).
    destruct (Spec.absent_or_empty (Spec.derived_loggedMeals envelope)); simpl.
    + destruct (Spec.exposes "foodDescription" envelope); simpl.
      * destruct (Spec.exposes_meals envelope); simpl.
        -- split; [discriminate|]. intros [H|(_ & _ & H)]; [contradiction|discriminate].
        -- split; [intros _|reflexivity]. right. repeat split.
      * split; [discriminate|]. intros [H|(_ & H & _)]; [contradiction|discriminate].
    + split; [discriminate|]. intros [H|(H & _)]; [contradiction|discriminate].
Qed.

(** C3 at the envelope [{ foodDescription: "pizza and burger" }]. *)
Lemma C3_loading_witness :
  Spec.nullish
    (Spec.extracted_error (Obj [("foodDescription", Str "pizza and burger")]))
  = true
  /\ Spec.well_typed_meals (Obj [("foodDescription", Str "pizza and burger")])
  /\ NMacrosPage.state (rt := Example.runtime) false
       (Obj [("foodDescription", Str "pizza and burger")])
     = Ok Loading.
Proof.
  split; [reflexivity|]. split; [left; reflexivity|].
  apply (C3_loading_exactly_when Example.runtime false).
  - reflexivity.
  - left; reflexivity.
  - right. repeat split.
Defined.

(** C4, as stated, fails on an envelope whose derived [loggedMeals] is not
    an array: [{ loggedMeals: "two eggs" }] has no extracted error and does
    not satisfy the Loading rule, its [loggedMeals] has length 8, and the
    widget shows none of the four states for it: [Macros] throws at
    [meals.map], whatever the state cell held. *)
Lemma C4_counterexample :
  Spec.nullish (Spec.extracted_error Example.text_meals_envelope) = true
  /\ Spec.loading_rule Example.text_meals_envelope = false
  /\ get (Spec.derived_loggedMeals Example.text_meals_envelope) "length"
     = Ok (nat_num 8)
  /\ NMacrosPage.state (rt := Example.runtime) true Example.text_meals_envelope
     = Throw (type_error "meals.map is not a function")
  /\ NMacrosPage.state (rt := Example.runtime) false Example.text_meals_envelope
     = Throw (type_error "meals.map is not a function")
  /\ ~ (forall (rt : Runtime) (isLoading : bool) (envelope : Value),
          Spec.nullish (Spec.extracted_error envelope) = true ->
          Spec.loading_rule envelope = false ->
          exists st : State, NMacrosPage.state isLoading envelope = Ok st).
Proof.
  split; [reflexivity|]. split; [reflexivity|]. split; [reflexivity|].
  split; [reflexivity|]. split; [reflexivity|].
  intros H.
  destruct (H Example.runtime true Example.text_meals_envelope eq_refl eq_refl)
    as [st Hst].
  discriminate Hst.
Qed.

(** C4, amended: for every envelope whose derived [loggedMeals] is absent
    or an array, the widget of [src/app/nmacros/page.tsx] shows exactly one
    of the four states; and when such an envelope has no extracted error
    and does not satisfy the Loading rule, it shows Empty when the derived
    sequence of meals has length zero and Ready when it has at least one
    entry. *)
Theorem C4_empty_or_ready :
  forall (rt : Runtime) (isLoading : bool) (envelope : Value)
         (items : list Value),
    Spec.derived_meals envelope = Some items ->
    (exists! st : State, NMacrosPage.state isLoading envelope = Ok st)
    /\ (Spec.nullish (Spec.extracted_error envelope) = true ->
        Spec.loading_rule envelope = false ->
        (List.length items = 0%nat ->
         NMacrosPage.state isLoading envelope = Ok Empty)
        /\ ((1 <= List.length items)%nat ->
            NMacrosPage.state isLoading envelope = Ok Ready)).
Proof.
  intros rt isLoading envelope items Hd.
  destruct (derived_meals_well_typed envelope items Hd) as [Hwt Habs].
  rewrite (state_machine isLoading envelope Hwt).
  split.
  - exists (Spec.machine envelope). split; [reflexivity|].
    now intros st [= <-].
  - intros Hx Hl. unfold Spec.machine.
    rewrite (no_extracted_error envelope Hx), Hl, Habs.
    split; intros Hlen.
    + now rewrite Hlen.
    + destruct items; [simpl in Hlen; lia|reflexivity].
Qed.

(** C4 at the envelopes [{ loggedMeals: [] }] and
    [{ loggedMeals: [bigMac] }]. *)
Lemma C4_empty_or_ready_witness :
  NMacrosPage.state (rt := Example.runtime) true (Obj [("loggedMeals", Arr [])])
  = Ok Empty
  /\ NMacrosPage.state (rt := Example.runtime) true
       (Obj [("loggedMeals", Arr [Data.of_Meal Example.bigMac])])
     = Ok Ready.
Proof.
  split.
  - apply (proj2 (C4_empty_or_ready Example.runtime true
                    (Obj [("loggedMeals", Arr [])]) [] eq_refl));
      reflexivity.
  - apply (proj2 (C4_empty_or_ready Example.runtime true
                    (Obj [("loggedMeals", Arr [Data.of_Meal Example.bigMac])])
                    [Data.of_Meal Example.bigMac] eq_refl));
      solve [reflexivity | simpl; lia].
Defined.

(* ===================================================================== *)
(** * The handler that accepts [analyzedData], and the echoing handler *)
(* ===================================================================== *)

(** C5: for every request whose [analyzedData] supplies a totals object and
    a non-empty meal list, the handler of [src/app/nmacros/page.tsx] takes
    the passthrough branch: [structuredContent] is the supplied
    [analyzedData], field for field and without an [error], and the content
    text says that the description was analyzed. *)
Theorem C5_passthrough :
  forall (rt : Runtime) (widget : ContentWidget) (foodDescription : string)
         (a : AnalyzedData),
    loggedMeals a <> [] ->
    AnalyzedDataRoute.handler widget (Str foodDescription) (of_AnalyzedData a)
    = {| content := text_content ("Food analyzed: " ++ foodDescription);
         structuredContent := of_AnalyzedData a;
         _meta := widgetMeta widget |}
    /\ opt_get (structuredContent
                  (AnalyzedDataRoute.handler widget (Str foodDescription)
                     (of_AnalyzedData a))) "error" = Undefined.
Proof.
  intros rt widget foodDescription [dt lm] _. split; reflexivity.
Qed.

(** C5 at the request for a Big Mac meal. *)
Lemma C5_passthrough_witness :
  structuredContent
    (AnalyzedDataRoute.handler (rt := Example.runtime) Example.widget
       (Str "Big Mac meal")
       (of_AnalyzedData
          {| dailyTotals := Example.nutrients 657 30 62 35;
             loggedMeals := [Data.of_Meal Example.bigMac] |}))
  = of_AnalyzedData
      {| dailyTotals := Example.nutrients 657 30 62 35;
         loggedMeals := [Data.of_Meal Example.bigMac] |}.
Proof.
  rewrite (proj1 (C5_passthrough Example.runtime Example.widget "Big Mac meal"
                    {| dailyTotals := Example.nutrients 657 30 62 35;
                       loggedMeals := [Data.of_Meal Example.bigMac] |}
                    ltac:(discriminate))).
  reflexivity.
Defined.

(** C6, as stated, fails on [src/app/mcp/route.ts]: its handler answers
    [{ foodDescription: "100g blueberries" }] with a [structuredContent]
    that has the description and no [error] field. *)
Lemma C6_counterexample :
  structuredContent
    (McpRoute.handler (rt := Example.runtime) Example.widget
       (Str "100g blueberries"))
  = Obj [("foodDescription", Str "100g blueberries")]
  /\ ~ Spec.deferred_response "100g blueberries"
         (McpRoute.handler (rt := Example.runtime) Example.widget
            (Str "100g blueberries")).
Proof.
  split; [reflexivity|].
  intros (_ & (m & Hm & _) & _). discriminate Hm.
Qed.

(** C6, amended: for every request without a pre-analyzed payload, whether
    a credential is configured or not, both handlers defer and fabricate no
    number: [structuredContent] holds the description verbatim.  The handler
    that accepts [analyzedData] adds a non-empty error string that asks for
    a call with [analyzedData]; the handler of [src/app/mcp/route.ts] sets
    no [error] field and gives its instruction in the content text only. *)
Theorem C6_deferred :
  forall (rt : Runtime) (widget : ContentWidget) (foodDescription : string),
    Spec.deferred_response foodDescription
      (AnalyzedDataRoute.handler widget (Str foodDescription) Undefined)
    /\ structuredContent
         (AnalyzedDataRoute.handler widget (Str foodDescription) Undefined)
       = Obj [("foodDescription", Str foodDescription);
              ("error",
               Str "Please call this tool with the analyzedData parameter containing the analyzed meal data.")]
    /\ structuredContent (McpRoute.handler widget (Str foodDescription))
       = Obj [("foodDescription", Str foodDescription)]
    /\ Spec.no_numbers
         (structuredContent (McpRoute.handler widget (Str foodDescription)))
       = true
    /\ content (McpRoute.handler widget (Str foodDescription))
       = text_content
           ("Food to analyze: " ++ foodDescription ++ newline ++ newline
              ++ "Please analyze this food using your nutrition knowledge and return the nutritional data in the JSON structure specified in the tool description.")
    /\ content (AnalyzedDataRoute.handler widget (Str foodDescription) Undefined)
       = text_content
           ("Please analyze " ++ dquote ++ foodDescription ++ dquote
              ++ " using your nutrition knowledge and call this tool with the analyzedData parameter populated with the complete meal data.").
Proof.
  intros rt widget foodDescription.
  split; [|repeat split].
  unfold Spec.deferred_response. split; [reflexivity|]. split; [|reflexivity].
  eexists. split; [reflexivity|discriminate].
Qed.

Section PassthroughEmpty.
Context {rt : Runtime}.

(** The client's state for an envelope whose derived meal list is the empty
    array and that holds no error and no [foodDescription]. *)
Lemma empty_list_state (isLoading : bool) (envelope : Value) :
  Spec.derived_loggedMeals envelope = Arr [] ->
  truthy (NMacrosPage.error (Spec.normalize envelope) envelope) = false ->
  Spec.exposes "foodDescription" envelope = false ->
  is_null envelope = false ->
  NMacrosPage.state isLoading envelope = Ok Empty.
Proof.
  intros Hd He Hf Hn.
  rewrite state_machine by (left; now rewrite Hd).
  unfold Spec.machine, Spec.loading_rule. now rewrite He, Hd, Hf, Hn.
Qed.

End PassthroughEmpty.

(** C10: when [analyzedData] has a [dailyTotals] object and an empty
    [loggedMeals] array, the handler of [src/app/nmacros/page.tsx] still
    takes the passthrough branch (an empty array is truthy): the result
    holds the totals, the empty list and no error.  The widget shows Empty
    for it, whichever way the host hands the result over: the payload
    itself, the whole result, or the result under [result]. *)
Theorem C10_passthrough_empty_list :
  forall (rt : Runtime) (widget : ContentWidget) (foodDescription : string)
         (totals : Data.Nutrients) (isLoading : bool),
    let a := {| dailyTotals := totals; loggedMeals := [] |} in
    let r := AnalyzedDataRoute.handler widget (Str foodDescription)
               (of_AnalyzedData a) in
    r = {| content := text_content ("Food analyzed: " ++ foodDescription);
           structuredContent :=
             Obj [("dailyTotals", Data.of_Nutrients totals);
                  ("loggedMeals", Arr [])];
           _meta := widgetMeta widget |}
    /\ opt_get (structuredContent r) "error" = Undefined
    /\ NMacrosPage.state isLoading (structuredContent r) = Ok Empty
    /\ NMacrosPage.state isLoading (of_ToolResult r) = Ok Empty
    /\ NMacrosPage.state isLoading (Obj [("result", of_ToolResult r)]) = Ok Empty.
Proof.
  intros rt widget foodDescription totals isLoading a r.
  split; [reflexivity|]. split; [reflexivity|].
  repeat split; apply empty_list_state; reflexivity.
Qed.

(* ===================================================================== *)
(** * The handler that calls the completion service *)
(* ===================================================================== *)

Section LiveService.
Context {rt : Runtime} (widget : ContentWidget) (fetch : Value -> Value -> LiveRoute.Fetched).

Lemma get_throws_message (v : Value) (k : string) (e : Thrown) :
  get v k = Throw e -> caught_message e <> "".
Proof.
  destruct v; simpl; intros [= <-]; simpl; discriminate.
Qed.

Lemma get_index_throws_message (v : Value) (i : nat) (e : Thrown) :
  get_index v i = Throw e -> caught_message e <> "".
Proof.
  destruct v; simpl; try discriminate; intros [= <-]; simpl; discriminate.
Qed.

Lemma parse_throws_message (s : string) (e : Thrown) :
  Spec.parser_messages -> LiveRoute.parse s = Throw e -> caught_message e <> "".
Proof.
  intros Hp. unfold LiveRoute.parse.
  destruct (JSON_parse s) as [v|m] eqn:E; [discriminate|].
  intros [= <-]. simpl. now apply (Hp s).
Qed.

Lemma message_content_throws (responseData : Value) (e : Thrown) :
  LiveRoute.message_content responseData = Throw e -> caught_message e <> "".
Proof.
  unfold LiveRoute.message_content.
  destruct (get responseData "choices") as [choices|e1] eqn:E1; simpl;
    [|intros [= <-]; now apply (get_throws_message _ _ _ E1)].
  destruct (get_index choices 0) as [choice|e2] eqn:E2; simpl;
    [|intros [= <-]; now apply (get_index_throws_message _ _ _ E2)].
  destruct (get choice "message") as [message|e3] eqn:E3; simpl;
    [|intros [= <-]; now apply (get_throws_message _ _ _ E3)].
  apply get_throws_message.
Qed.

(** The message of the [Error] thrown for a non-success reply. *)
Lemma upstream_error_message (err : Value) :
  match opt_get err "message" with
  | Undefined | Null | Str _ => True
  | _ => False
  end ->
  caught_message
    (new_Error (or_else (opt_get err "message") (Str "Failed to process food data")))
  <> "".
Proof.
  unfold or_else. destruct (opt_get err "message") as [| | | |s| |]; simpl;
    try contradiction; try discriminate.
  intros _. destruct (String.eqb s "") eqn:E; simpl; [discriminate|].
  now apply String.eqb_neq.
Qed.

(** What the [try] block can do: return the credential error, return the
    analysed data, or throw something whose message is not empty, the
    message thrown for a non-success reply being the reply's own. *)
Lemma body_outcome (apiKey : Value) (foodDescription : string) :
  Spec.parser_messages ->
  Spec.rejection_messages fetch apiKey (Str foodDescription) ->
  match LiveRoute.body widget fetch apiKey (Str foodDescription) with
  | Ok r =>
      (truthy apiKey = false
       /\ content r = text_content ("Error: " ++ LiveRoute.credential_message)
       /\ structuredContent r = Obj [("error", Str LiveRoute.credential_message)]
       /\ _meta r = widgetMeta widget)
      \/ (truthy apiKey = true /\ Spec.success_shaped widget foodDescription r)
  | Throw e =>
      truthy apiKey = true
      /\ (Spec.error_replies_typed fetch apiKey (Str foodDescription) ->
          caught_message e <> "")
  end.
Proof.
  intros Hp Hr. unfold LiveRoute.body.
  destruct (truthy apiKey) eqn:Ek; simpl; [|left; repeat split].
  destruct (fetch apiKey (Str foodDescription)) as [e|ok bodyText] eqn:Ef.
  { split; [reflexivity|]. intros _.
    destruct e as [n m|v]; simpl; [|discriminate].
    now apply (Hr n m). }
  destruct ok; simpl; unfold LiveRoute.response_json.
  - destruct (LiveRoute.parse bodyText) as [responseData|e1] eqn:E1; simpl;
      [|split; [reflexivity|intros _; now apply (parse_throws_message _ _ Hp E1)]].
    destruct (LiveRoute.message_content responseData) as [c|e2] eqn:E2; simpl;
      [|split; [reflexivity|intros _; now apply (message_content_throws _ _ E2)]].
    destruct (LiveRoute.parse (ToString c)) as [data|e3] eqn:E3; simpl;
      [|split; [reflexivity|intros _; now apply (parse_throws_message _ _ Hp E3)]].
    destruct (get data "dailyTotals") as [dt|e4] eqn:E4; simpl;
      [|split; [reflexivity|intros _; now apply (get_throws_message _ _ _ E4)]].
    destruct (truthy dt) eqn:Edt; simpl; [|split; [reflexivity|discriminate]].
    destruct (get data "loggedMeals") as [lm|e5] eqn:E5; simpl;
      [|split; [reflexivity|intros _; now apply (get_throws_message _ _ _ E5)]].
    destruct (truthy lm) eqn:Elm; simpl; [|split; [reflexivity|discriminate]].
    right. split; [reflexivity|]. exists dt, lm. now repeat split.
  - destruct (LiveRoute.parse bodyText) as [errorData|e1] eqn:E1; simpl;
      [|split; [reflexivity|intros _; now apply (parse_throws_message _ _ Hp E1)]].
    destruct (get errorData "error") as [err|e2] eqn:E2; simpl;
      [|split; [reflexivity|intros _; now apply (get_throws_message _ _ _ E2)]].
    split; [reflexivity|]. intros Ht. apply upstream_error_message.
    unfold LiveRoute.parse in E1.
    destruct (JSON_parse bodyText) as [v|m] eqn:Ej; [|discriminate].
    injection E1 as ->.
    specialize (Ht bodyText errorData Ef Ej).
    unfold Spec.upstream_message_typed in Ht.
    assert (Hn : Spec.nullish errorData = false).
    { destruct errorData; simpl in E2; try discriminate; reflexivity. }
    rewrite (get_opt_get errorData "error" Hn) in E2. now injection E2 as <-.
Qed.

End LiveService.

Section LiveClaim.
Context {rt : Runtime} (widget : ContentWidget) (fetch : Value -> Value -> LiveRoute.Fetched).

Lemma handler_of_throw (apiKey : Value) (foodDescription : string) (e : Thrown) :
  LiveRoute.body widget fetch apiKey (Str foodDescription) = Throw e ->
  LiveRoute.handler widget fetch apiKey (Str foodDescription)
  = {| content :=
         text_content ("Error processing food analysis request: " ++ foodDescription);
       structuredContent := Obj [("error", Str (caught_message e))];
       _meta := widgetMeta widget |}.
Proof.
  intros H. unfold LiveRoute.handler, try_catch. now rewrite H.
Qed.

(** A present value that exposes no [dailyTotals] reads as [undefined]. *)
Lemma lacking_dailyTotals (data : Value) :
  Spec.nullish data = false ->
  Spec.exposes "dailyTotals" data = false ->
  get data "dailyTotals" = Ok Undefined.
Proof.
  destruct data as [| | | | |items|props]; simpl; try discriminate;
    try reflexivity; intros _.
  - now rewrite (array_prop_name "dailyTotals" items) by reflexivity.
  - unfold has_key. now destruct (lookup "dailyTotals" props).
Qed.

End LiveClaim.

(** C7, amended: in the handler of [src/unnamed/part_001], every failure
    is caught by the [try]/[catch] and becomes an ordinary result whose
    [structuredContent.error] carries the message: a missing credential, a
    non-success status, an unparseable reply body or message content, and a
    parsed reply that lacks both [dailyTotals] and [loggedMeals] (the
    validation failure).  The handler is a total function: nothing is
    thrown past it, and every result is either the successful one or has
    [structuredContent = { error: message }].  The message is not empty on
    the credential, parsing and validation paths; on the path of a
    non-success status, and so on every path, it is not empty provided the
    error message of a non-success reply is a string when it is present.
    Assumed of the runtime: the messages of its own errors are not
    empty. *)
Theorem C7_failures_become_error_results :
  forall (rt : Runtime) (widget : ContentWidget)
         (fetch : Value -> Value -> LiveRoute.Fetched)
         (apiKey : Value) (foodDescription : string),
    Spec.parser_messages ->
    Spec.rejection_messages fetch apiKey (Str foodDescription) ->
    let r := LiveRoute.handler widget fetch apiKey (Str foodDescription) in
    (_meta r = widgetMeta widget /\ exists t, content r = text_content t)
    /\ (Spec.success_shaped widget foodDescription r
        \/ exists message, structuredContent r = Obj [("error", Str message)])
    /\ (forall e,
          LiveRoute.body widget fetch apiKey (Str foodDescription) = Throw e ->
          r = Spec.caught_result widget foodDescription (caught_message e))
    /\ (truthy apiKey = false ->
        Spec.error_shaped r LiveRoute.credential_message)
    /\ (truthy apiKey = true ->
        forall bodyText,
          fetch apiKey (Str foodDescription) = LiveRoute.Response false bodyText ->
          exists message,
            structuredContent r = Obj [("error", Str message)]
            /\ (Spec.error_replies_typed fetch apiKey (Str foodDescription) ->
                message <> ""))
    /\ (truthy apiKey = true ->
        forall bodyText message,
          fetch apiKey (Str foodDescription) = LiveRoute.Response true bodyText ->
          JSON_parse bodyText = inr message ->
          Spec.error_shaped r message)
    /\ (truthy apiKey = true ->
        forall bodyText responseData c,
          fetch apiKey (Str foodDescription) = LiveRoute.Response true bodyText ->
          JSON_parse bodyText = inl responseData ->
          LiveRoute.message_content responseData = Ok c ->
          (forall message,
              JSON_parse (ToString c) = inr message ->
              Spec.error_shaped r message)
          /\ (forall data,
                 JSON_parse (ToString c) = inl data ->
                 Spec.nullish data = false ->
                 Spec.exposes "dailyTotals" data = false ->
                 Spec.exposes "loggedMeals" data = false ->
                 Spec.error_shaped r LiveRoute.invalid_format_message))
    /\ (Spec.error_replies_typed fetch apiKey (Str foodDescription) ->
        (Spec.success_shaped widget foodDescription r
         \/ exists message, Spec.error_shaped r message)
        /\ (forall e,
               LiveRoute.body widget fetch apiKey (Str foodDescription) = Throw e ->
               Spec.error_shaped r (caught_message e))).
Proof.
  intros rt widget fetch apiKey foodDescription Hp Hr r.
  pose proof (body_outcome widget fetch apiKey foodDescription Hp Hr) as Hb.
  assert (Hcatch : forall e,
             LiveRoute.body widget fetch apiKey (Str foodDescription) = Throw e ->
             r = Spec.caught_result widget foodDescription (caught_message e)).
  { intros e He. subst r.
    exact (handler_of_throw widget fetch apiKey foodDescription e He). }
  assert (Hshaped : forall e,
             LiveRoute.body widget fetch apiKey (Str foodDescription) = Throw e ->
             caught_message e <> "" ->
             Spec.error_shaped r (caught_message e)).
  { intros e He Hm. rewrite (Hcatch e He). split; [reflexivity|exact Hm]. }
  assert (Hcred : truthy apiKey = false ->
                  Spec.error_shaped r LiveRoute.credential_message).
  { intros Hk. subst r. unfold LiveRoute.handler, LiveRoute.body, try_catch.
    rewrite Hk. simpl. split; [reflexivity|discriminate]. }
  split; [|split; [|split; [exact Hcatch|split; [exact Hcred|]]]].
  - subst r. unfold LiveRoute.handler, try_catch.
    destruct (LiveRoute.body widget fetch apiKey (Str foodDescription)) as [r|e].
    + destruct Hb as [(_ & Hc & _ & Hm)|(_ & dt & lm & -> & _)].
      * split; [exact Hm|]. eexists; exact Hc.
      * split; [reflexivity|]. eexists; reflexivity.
    + split; [reflexivity|]. eexists; reflexivity.
  - destruct (LiveRoute.body widget fetch apiKey (Str foodDescription))
      as [r'|e] eqn:Eb.
    + destruct Hb as [(Hk & _)|(_ & Hs)].
      * right. eexists. exact (proj1 (Hcred Hk)).
      * left. subst r. unfold LiveRoute.handler, try_catch. now rewrite Eb.
    + right. eexists. now rewrite (Hcatch e eq_refl).
  - split; [|split; [|split]].
    + intros Hk bodyText Hf.
      assert (exists e, LiveRoute.body widget fetch apiKey (Str foodDescription)
                        = Throw e) as [e He].
      { unfold LiveRoute.body. rewrite Hk, Hf. simpl.
        destruct (LiveRoute.response_json bodyText) as [errorData|e1]; simpl;
          [|eexists; reflexivity].
        destruct (get errorData "error"); simpl; eexists; reflexivity. }
      exists (caught_message e). rewrite (Hcatch e He).
      split; [reflexivity|]. rewrite He in Hb. exact (proj2 Hb).
    + intros Hk bodyText message Hf Hj.
      apply (Hshaped (ErrorObj "SyntaxError" message)).
      * unfold LiveRoute.body, LiveRoute.response_json, LiveRoute.parse.
        now rewrite Hk, Hf, Hj.
      * exact (Hp bodyText message Hj).
    + intros Hk bodyText responseData c Hf Hj Hc. split.
      * intros message Hm.
        apply (Hshaped (ErrorObj "SyntaxError" message)).
        -- unfold LiveRoute.body, LiveRoute.response_json, LiveRoute.parse.
           rewrite Hk, Hf, Hj. simpl. rewrite Hc. simpl. now rewrite Hm.
        -- exact (Hp (ToString c) message Hm).
      * intros data Hd Hn Hdt _.
        apply (Hshaped LiveRoute.invalid_format).
        -- unfold LiveRoute.body, LiveRoute.response_json, LiveRoute.parse.
           rewrite Hk, Hf, Hj. simpl. rewrite Hc. simpl. rewrite Hd. simpl.
           now rewrite (lacking_dailyTotals data Hn Hdt).
        -- discriminate.
    + intros Ht.
      assert (Hthrow : forall e,
                 LiveRoute.body widget fetch apiKey (Str foodDescription) = Throw e ->
                 Spec.error_shaped r (caught_message e)).
      { intros e He. apply (Hshaped e He). rewrite He in Hb.
        exact (proj2 Hb Ht). }
      split; [|exact Hthrow].
      destruct (LiveRoute.body widget fetch apiKey (Str foodDescription))
        as [r'|e] eqn:Eb.
      * destruct Hb as [(Hk & _)|(_ & Hs)].
        -- right. eexists. exact (Hcred Hk).
        -- left. subst r. unfold LiveRoute.handler, try_catch. now rewrite Eb.
      * right. eexists. exact (Hthrow e eq_refl).
Qed.

Lemma example_parser_messages : Spec.parser_messages (rt := Example.runtime).
Proof.
  intros s message. simpl. unfold Example.parse_table.
  destruct (String.eqb s "{}"); [discriminate|].
  destruct (String.eqb s "null"); [discriminate|].
  destruct (String.eqb s Example.reply_body); [discriminate|].
  destruct (String.eqb s Example.array_message_body); [discriminate|].
  intros [= <-]. discriminate.
Qed.

(** C7, as stated, fails: a non-success reply whose body is
    [{"error":{"message":[]}}] has a truthy error message, the empty array,
    whose text is the empty string; the handler returns an ordinary result,
    but its [structuredContent.error] is the empty string. *)
Lemma C7_counterexample :
  Spec.parser_messages (rt := Example.runtime)
  /\ Spec.rejection_messages Example.array_message_service
       (Str "sk-test") (Str "pizza")
  /\ Example.array_message_service (Str "sk-test") (Str "pizza")
     = LiveRoute.Response false Example.array_message_body
  /\ JSON_parse (Runtime := Example.runtime) Example.array_message_body
     = inl (Obj [("error", Obj [("message", Arr [])])])
  /\ structuredContent
       (LiveRoute.handler (rt := Example.runtime) Example.widget
          Example.array_message_service (Str "sk-test") (Str "pizza"))
     = Obj [("error", Str "")]
  /\ ~ (exists message,
          Spec.error_shaped
            (LiveRoute.handler (rt := Example.runtime) Example.widget
               Example.array_message_service (Str "sk-test") (Str "pizza"))
            message).
Proof.
  split; [exact example_parser_messages|].
  split; [intros n m; discriminate|].
  split; [reflexivity|]. split; [reflexivity|]. split; [reflexivity|].
  intros [message [H Hm]].
  change (Obj [("error", Str "")] = Obj [("error", Str message)]) in H.
  injection H as <-. now apply Hm.
Qed.

(** C7 at a reply whose message content is the text of an empty object:
    the validation failure reaches the caller as an error result. *)
Lemma C7_failures_witness :
  Spec.parser_messages (rt := Example.runtime)
  /\ Spec.rejection_messages Example.service (Str "sk-test") (Str "pizza")
  /\ Spec.error_shaped
       (LiveRoute.handler (rt := Example.runtime) Example.widget Example.service
          (Str "sk-test") (Str "pizza"))
       LiveRoute.invalid_format_message.
Proof.
  assert (H2 : Spec.rejection_messages Example.service (Str "sk-test") (Str "pizza"))
    by (intros n m; discriminate).
  split; [exact example_parser_messages|]. split; [exact H2|].
  pose proof (C7_failures_become_error_results Example.runtime Example.widget
                Example.service (Str "sk-test") "pizza"
                example_parser_messages H2) as H.
  destruct H as (_ & _ & _ & _ & _ & _ & H & _).
  destruct (H eq_refl Example.reply_body Example.reply (Str "{}")
              eq_refl eq_refl eq_refl) as [_ Hv].
  exact (Hv (Obj []) eq_refl eq_refl eq_refl eq_refl).
Defined.

(* ===================================================================== *)
(** * The presenter: rounding and the cards *)
(* ===================================================================== *)

Section Rounding.

Lemma floor_half_bounds (q : Q) :
  inject_Z (Qfloor (q + (1 # 2))) - (1 # 2) <= q
  /\ q < inject_Z (Qfloor (q + (1 # 2))) + (1 # 2).
Proof.
  pose proof (Qfloor_le (q + (1 # 2))) as Hl.
  pose proof (Qlt_floor (q + (1 # 2))) as Hu.
  rewrite inject_Z_plus in Hu. change (inject_Z 1) with 1 in Hu.
  split; lra.
Qed.

(** On a non-negative number [Math.round]'s integer is the nearest one, a
    half going away from zero. *)
Lemma floor_half_nearest (q : Q) :
  0 <= q -> Spec.nearest_half_away q (Qfloor (q + (1 # 2))).
Proof.
  intros Hq. destruct (floor_half_bounds q) as [Hl Hu].
  set (z := inject_Z (Qfloor (q + (1 # 2)))) in *.
  unfold Spec.nearest_half_away. fold z.
  destruct (Qlt_le_dec (z - (1 # 2)) q) as [Hs|Hs].
  - left. apply Qabs_Qlt_condition. split; lra.
  - right. assert (He : q == z - (1 # 2)) by lra. split.
    + rewrite He. setoid_replace (z - (1 # 2) - z) with (- (1 # 2)) by ring.
      reflexivity.
    + rewrite (Qabs_pos q Hq). rewrite Qabs_pos by lra. lra.
Qed.

(** The nearest integer with halves away from zero is unique. *)
Lemma nearest_half_away_unique (q : Q) (z1 z2 : Z) :
  Spec.nearest_half_away q z1 -> Spec.nearest_half_away q z2 -> z1 = z2.
Proof.
  unfold Spec.nearest_half_away.
  intros H1 H2.
  assert (B1 : - (1 # 2) <= q - inject_Z z1 <= 1 # 2).
  { destruct H1 as [H|[H _]].
    - apply Qabs_Qlt_condition in H. lra.
    - apply Qabs_Qle_condition. rewrite H. apply Qle_refl. }
  assert (B2 : - (1 # 2) <= q - inject_Z z2 <= 1 # 2).
  { destruct H2 as [H|[H _]].
    - apply Qabs_Qlt_condition in H. lra.
    - apply Qabs_Qle_condition. rewrite H. apply Qle_refl. }
  destruct (Z.lt_trichotomy z1 z2) as [Hlt|[Heq|Hgt]]; [|exact Heq|]; exfalso.
  - assert (Hz : inject_Z z1 + 1 <= inject_Z z2).
    { change 1 with (inject_Z 1). rewrite <- inject_Z_plus.
      rewrite <- Zle_Qle. lia. }
    assert (E1 : q - inject_Z z1 == 1 # 2) by lra.
    assert (E2 : q - inject_Z z2 == - (1 # 2)) by lra.
    destruct H1 as [H|[_ H1]]; [rewrite E1 in H; now apply Qlt_irrefl in H|].
    destruct H2 as [H|[_ H2]]; [rewrite E2 in H; now apply Qlt_irrefl in H|].
    destruct (Z_lt_le_dec z1 0) as [Hn|Hp].
    + assert (Hn' : inject_Z z1 <= - (1)).
      { change (- (1)) with (inject_Z (-1)). rewrite <- Zle_Qle. lia. }
      assert (Hq : q <= 0) by lra. assert (Hz2 : inject_Z z2 <= 0) by lra.
      rewrite (Qabs_neg q Hq), (Qabs_neg _ Hz2) in H2. lra.
    + assert (Hp' : 0 <= inject_Z z1).
      { change 0 with (inject_Z 0). now rewrite <- Zle_Qle. }
      assert (Hq : 0 <= q) by lra.
      rewrite (Qabs_pos q Hq), (Qabs_pos _ Hp') in H1. lra.
  - assert (Hz : inject_Z z2 + 1 <= inject_Z z1).
    { change 1 with (inject_Z 1). rewrite <- inject_Z_plus.
      rewrite <- Zle_Qle. lia. }
    assert (E1 : q - inject_Z z1 == - (1 # 2)) by lra.
    assert (E2 : q - inject_Z z2 == 1 # 2) by lra.
    destruct H1 as [H|[_ H1]]; [rewrite E1 in H; now apply Qlt_irrefl in H|].
    destruct H2 as [H|[_ H2]]; [rewrite E2 in H; now apply Qlt_irrefl in H|].
    destruct (Z_lt_le_dec z2 0) as [Hn|Hp].
    + assert (Hn' : inject_Z z2 <= - (1)).
      { change (- (1)) with (inject_Z (-1)). rewrite <- Zle_Qle. lia. }
      assert (Hq : q <= 0) by lra. assert (Hz1 : inject_Z z1 <= 0) by lra.
      rewrite (Qabs_neg q Hq), (Qabs_neg _ Hz1) in H1. lra.
    + assert (Hp' : 0 <= inject_Z z2).
      { change 0 with (inject_Z 0). now rewrite <- Zle_Qle. }
      assert (Hq : 0 <= q) by lra.
      rewrite (Qabs_pos q Hq), (Qabs_pos _ Hp') in H2. lra.
Qed.

End Rounding.

Section Presenter.
Context {rt : Runtime}.

Lemma nearest_half_away_opp (q : Q) (z : Z) :
  Spec.nearest_half_away (- q) z -> Spec.nearest_half_away q (- z).
Proof.
  unfold Spec.nearest_half_away.
  assert (E : q - inject_Z (- z) == - (- q - inject_Z z)).
  { rewrite inject_Z_opp. ring. }
  intros [H|[H1 H2]]; [left|right; split].
  - now rewrite E, Qabs_opp.
  - now rewrite E, Qabs_opp.
  - rewrite inject_Z_opp, Qabs_opp. now rewrite Qabs_opp in H2.
Qed.

(** The specification's rounding is the nearest integer, halves away from
    zero, on every number. *)
Lemma round_half_away_nearest (q : Q) :
  Spec.nearest_half_away q (Spec.round_half_away q).
Proof.
  unfold Spec.round_half_away.
  destruct (Qle_bool 0 q) eqn:E.
  - apply floor_half_nearest. now apply Qle_bool_iff.
  - apply nearest_half_away_opp. apply floor_half_nearest.
    assert (H : ~ 0 <= q) by (rewrite <- Qle_bool_iff; congruence).
    lra.
Qed.

Lemma Math_round_nonneg (q : Q) :
  0 <= q -> Math_round (Num q) = Spec.shown q.
Proof.
  intros H. unfold Math_round, Spec.shown, Spec.round_half_away. simpl.
  apply Qle_bool_iff in H. now rewrite H.
Qed.

Local Arguments Math_round : simpl never.
Local Arguments gt_num : simpl never.
Local Arguments nat_num : simpl never.

Lemma grid_cells (n : Data.Nutrients) :
  grid (Ok (Data.of_Nutrients n))
  = Ok {| g_calories := Math_round (Num (Data.calories n));
          g_protein := Math_round (Num (Data.protein n));
          g_carbs := Math_round (Num (Data.carbs n));
          g_fat := Math_round (Num (Data.fat n)) |}.
Proof. reflexivity. Qed.

Lemma grid_nonneg (n : Data.Nutrients) :
  Data.nonneg n ->
  grid (Ok (Data.of_Nutrients n)) = Ok (Spec.shown_grid n).
Proof.
  intros (Hc & Hp & Hb & Hf). rewrite grid_cells. unfold Spec.shown_grid.
  now rewrite !Math_round_nonneg.
Qed.

Lemma ingredientLine_nonneg (i : Data.Ingredient) :
  Data.nonneg (Data.nutrients i) ->
  ingredientLine (Data.of_Ingredient i) = Ok (Spec.shown_line i).
Proof.
  intros H. unfold ingredientLine.
  assert (Hn : get (Data.of_Ingredient i) "nutrients"
               = Ok (Data.of_Nutrients (Data.nutrients i))).
  { destruct i as [nm [b|] si n]; reflexivity. }
  rewrite Hn, (grid_nonneg _ H).
  destruct i as [nm [b|] si n]; reflexivity.
Qed.

Lemma breakdown_nonneg (l : list Data.Ingredient) :
  Forall (fun i => Data.nonneg (Data.nutrients i)) l ->
  mapM ingredientLine (map Data.of_Ingredient l) = Ok (map Spec.shown_line l).
Proof.
  induction 1 as [|i l Hi _ IH]; simpl; [reflexivity|].
  now rewrite (ingredientLine_nonneg i Hi), IH.
Qed.

Lemma several_length {A} (l : list A) :
  Nat.ltb 1 (List.length l) = Spec.several l.
Proof. destruct l as [|a [|b l]]; reflexivity. Qed.

(** The card of a meal of the data model is the specified card. *)
Lemma MealCard_nonneg (showBreakdown : bool) (m : Data.Meal) :
  Spec.nonneg_meal m ->
  MealCard showBreakdown (Data.of_Meal m) = Ok (Spec.shown_card showBreakdown m).
Proof.
  intros [Ht Hi]. unfold MealCard.
  assert (Hing : get (Data.of_Meal m) "ingredients"
                 = Ok (Arr (map Data.of_Ingredient (Data.ingredients m)))).
  { destruct m as [nm [s|] l n]; reflexivity. }
  assert (Htn : get (Data.of_Meal m) "total_nutrients"
                = Ok (Data.of_Nutrients (Data.total_nutrients m))).
  { destruct m as [nm [s|] l n]; reflexivity. }
  assert (Hnm : get (Data.of_Meal m) "meal_name" = Ok (Str (Data.meal_name m))).
  { destruct m as [nm [s|] l n]; reflexivity. }
  assert (Hsz : get (Data.of_Meal m) "meal_size"
                = Ok (match Data.meal_size m with
                      | Some s => Str s
                      | None => Undefined
                      end)).
  { destruct m as [nm [s|] l n]; reflexivity. }
  rewrite Hing. cbn [bind get]. 
  change (match array_prop "length" (map Data.of_Ingredient (Data.ingredients m)) with
          | Some x => x | None => Undefined end)
    with (nat_num (List.length (map Data.of_Ingredient (Data.ingredients m)))).
  rewrite gt_num_length_1, length_map, several_length.
  rewrite Hnm, Hsz, Htn, (grid_nonneg _ Ht). cbn [bind].
  unfold Spec.shown_card.
  destruct (showBreakdown && Spec.several (Data.ingredients m)) eqn:Eb.
  - cbn [map_items bind]. rewrite (breakdown_nonneg _ Hi). cbn [bind].
    destruct (Data.meal_size m) as [s|]; cbn [truthy];
      [destruct (String.eqb s "")|]; reflexivity.
  - cbn [bind].
    destruct (Data.meal_size m) as [s|]; cbn [truthy];
      [destruct (String.eqb s "")|]; reflexivity.
Qed.

End Presenter.

Section Screens.
Context {rt : Runtime}.

Local Arguments Math_round : simpl never.
Local Arguments reconcile : simpl never.
Local Arguments card_children : simpl never.

Lemma dailyTotalsBlock_present (d : Data.MealData) (n : Data.Nutrients) :
  Data.dailyTotals d = Some n ->
  TotalsPage.dailyTotalsBlock (Data.of_MealData d)
  = Ok (Element {| g_calories := Math_round (Num (Data.calories n));
                   g_protein := Math_round (Num (Data.protein n));
                   g_carbs := Math_round (Num (Data.carbs n));
                   g_fat := Math_round (Num (Data.fat n)) |}).
Proof.
  destruct d as [dt lm e]. simpl. intros ->. reflexivity.
Qed.

Lemma dailyTotalsBlock_absent (d : Data.MealData) :
  Data.dailyTotals d = None ->
  TotalsPage.dailyTotalsBlock (Data.of_MealData d) = Ok (Bare Undefined).
Proof.
  destruct d as [dt [lm|] [e|]]; simpl; intros ->; reflexivity.
Qed.

Lemma dailyTotalsBlock_nonneg (d : Data.MealData) (n : Data.Nutrients) :
  Data.dailyTotals d = Some n -> Data.nonneg n ->
  TotalsPage.dailyTotalsBlock (Data.of_MealData d) = Ok (Element (Spec.shown_grid n)).
Proof.
  intros Hd (Hc & Hp & Hb & Hf). rewrite (dailyTotalsBlock_present d n Hd).
  unfold Spec.shown_grid. now rewrite !Math_round_nonneg.
Qed.

(** In the final [return] of the totals page the block is there exactly
    when [mealData?.dailyTotals] is truthy. *)
Lemma totals_block_iff (envelope : Value) (blk : Slot Grid)
    (cards : list CardElement) :
  TotalsPage.Macros envelope = Ok (TotalsPage.Main blk cards) ->
  (shown blk = true
   <-> truthy (opt_get (TotalsPage.mealData envelope) "dailyTotals") = true).
Proof.
  unfold TotalsPage.Macros, TotalsPage.dailyTotalsBlock.
  destruct (truthy (TotalsPage.error _ _)); [discriminate|].
  destruct (get (TotalsPage.meals _) "length") as [len|]; simpl; [|discriminate].
  destruct (strict_eq_num len 0); [discriminate|].
  destruct (truthy (opt_get (TotalsPage.mealData envelope) "dailyTotals")) eqn:Et.
  - destruct (grid _) as [g|]; simpl; [|discriminate].
    destruct (map_cards _); simpl; [|discriminate].
    intros [= <- _]. simpl. tauto.
  - simpl. destruct (map_cards _); simpl; [|discriminate].
    intros [= <- _]. simpl. tauto.
Qed.

(** No view of the page with the loading state has a totals block. *)
Lemma nmacros_no_totals_block (v : NMacrosPage.View) :
  NMacrosPage.dailyTotalsBlock_shown v = false.
Proof. now destruct v. Qed.

(** The lines of a breakdown of the data model hold texts only. *)
Lemma reconcile_lines (l : list Data.Ingredient) :
  reconcile (flat_map (fun i => [i_name i; i_serving_info i])
                      (map Spec.shown_line l)) = Ok tt.
Proof. induction l as [|i l IH]; simpl; [reflexivity|exact IH]. Qed.

(** The children of the card of a meal of the data model are valid. *)
Lemma reconcile_shown_card (showBreakdown : bool) (m : Data.Meal) :
  reconcile (card_children (Spec.shown_card showBreakdown m)) = Ok tt.
Proof.
  unfold card_children, Spec.shown_card. cbn [c_meal_name c_meal_size c_breakdown].
  assert (Hs : invalid_child
                 match
                   match Data.meal_size m with
                   | Some s => if String.eqb s "" then Bare (Str s) else Element (Str s)
                   | None => Bare Undefined
                   end
                 with Element v => v | Bare v => v end = None).
  { destruct (Data.meal_size m) as [s|]; [destruct (String.eqb s "")|]; reflexivity. }
  unfold reconcile at 1. cbn [invalid_child]. rewrite Hs.
  destruct (showBreakdown && Spec.several (Data.ingredients m));
    [apply reconcile_lines|reflexivity].
Qed.

(** An error that is an object reaches the paragraph of the error view as
    a child, and React throws; an error string is shown. *)
Lemma paint_error_view (showBreakdown : nat -> bool)
    (props : list (string * Value)) (s : string) :
  NMacrosPage.paint showBreakdown (NMacrosPage.ErrorView (Obj props))
  = Throw (ErrorObj "Error" (invalid_child_message props))
  /\ TotalsPage.paint showBreakdown (TotalsPage.ErrorView (Obj props))
     = Throw (ErrorObj "Error" (invalid_child_message props))
  /\ NMacrosPage.paint showBreakdown (NMacrosPage.ErrorView (Str s))
     = Ok (NMacrosPage.ErrorScreen (Str s))
  /\ TotalsPage.paint showBreakdown (TotalsPage.ErrorView (Str s))
     = Ok (TotalsPage.ErrorScreen (Str s)).
Proof. split; [|split; [|split]]; reflexivity. Qed.

(** Rendering the cards of meals of the data model. *)
Lemma render_cards_nonneg (showBreakdown : nat -> bool) (l : list Data.Meal) :
  Forall Spec.nonneg_meal l ->
  forall start,
    mapM (fun c =>
            card <- MealCard (showBreakdown (key c)) (meal c) ;;
            _ <- reconcile (card_children card) ;;
            Ok card)
         (map (fun p => {| key := fst p; meal := snd p |})
              (combine (seq start (List.length (map Data.of_Meal l)))
                       (map Data.of_Meal l)))
    = Ok (Spec.shown_cards_from start showBreakdown l).
Proof.
  unfold Spec.shown_cards_from.
  induction 1 as [|m l Hm _ IH]; intros start; simpl; [reflexivity|].
  rewrite (MealCard_nonneg _ m Hm). cbn [bind].
  rewrite reconcile_shown_card. cbn [bind]. now rewrite IH.
Qed.

End Screens.

(** [Math.round] differs from rounding halves away from zero below zero:
    -2.5 gives -2, not -3. *)
Example Math_round_negative_half :
  Math_round (rt := Example.runtime) (Num (- (5 # 2))) = Fin (- (2))
  /\ Spec.shown (- (5 # 2)) = Fin (- (3)).
Proof. split; reflexivity. Qed.

(** C8: every non-negative nutrient value that the presenters show (the
    daily totals of [src/unnamed/part_000], the meal totals and the
    ingredient lines of [MealCard]) is shown as the nearest integer, a half
    going away from zero; 56.5 is shown as 57 and 0 as 0. *)
Theorem C8_rounded_display :
  forall rt : Runtime,
    (forall q : Q,
        0 <= q ->
        Math_round (Num q) = Fin (inject_Z (Spec.round_half_away q))
        /\ Spec.nearest_half_away q (Spec.round_half_away q)
        /\ (forall z, Spec.nearest_half_away q z -> z = Spec.round_half_away q))
    /\ (forall (d : Data.MealData) (n : Data.Nutrients),
           Data.dailyTotals d = Some n -> Data.nonneg n ->
           TotalsPage.dailyTotalsBlock (Data.of_MealData d)
           = Ok (Element (Spec.shown_grid n)))
    /\ (forall (showBreakdown : bool) (m : Data.Meal),
           Spec.nonneg_meal m ->
           MealCard showBreakdown (Data.of_Meal m)
           = Ok (Spec.shown_card showBreakdown m))
    /\ (forall (showBreakdown : nat -> bool) (l : list Data.Meal)
               (cards : list CardElement) (blk : Slot Grid),
           Forall Spec.nonneg_meal l ->
           map_cards (Arr (map Data.of_Meal l)) = Ok cards ->
           NMacrosPage.paint showBreakdown (NMacrosPage.MealCards cards)
           = Ok (NMacrosPage.ReadyScreen (Spec.shown_cards showBreakdown l))
           /\ TotalsPage.paint showBreakdown (TotalsPage.Main blk cards)
              = Ok (TotalsPage.ReadyScreen blk (Spec.shown_cards showBreakdown l)))
    /\ Math_round (Num (113 # 2)) = Fin 57
    /\ Math_round (Num 0) = Fin 0.
Proof.
  intros rt. split; [|split; [|split; [|split; [|split; reflexivity]]]].
  - intros q Hq. split; [exact (Math_round_nonneg q Hq)|].
    split; [apply round_half_away_nearest|].
    intros z Hz.
    exact (nearest_half_away_unique q z _ Hz (round_half_away_nearest q)).
  - exact dailyTotalsBlock_nonneg.
  - exact MealCard_nonneg.
  - intros showBreakdown l cards blk Hl [= <-]. simpl. unfold render_cards.
    rewrite (render_cards_nonneg showBreakdown l Hl 0%nat). split; reflexivity.
Qed.

Lemma bigMac_nonneg : Spec.nonneg_meal Example.bigMac.
Proof.
  unfold Spec.nonneg_meal, Data.nonneg. simpl.
  split; [repeat split; discriminate|].
  repeat constructor; simpl; discriminate.
Qed.

(** C8 at the Big Mac meal, whose fries have 94.5 calories, and at 56.5. *)
Lemma C8_rounded_display_witness :
  Spec.nonneg_meal Example.bigMac
  /\ (0 <= 113 # 2)
  /\ Math_round (rt := Example.runtime) (Num (113 # 2)) = Fin 57
  /\ option_map (map (fun l => g_calories (i_grid l)))
       (match MealCard (rt := Example.runtime) true (Data.of_Meal Example.bigMac) with
        | Ok c => c_breakdown c
        | Throw _ => None
        end)
     = Some [Fin 563; Fin 95].
Proof.
  split; [exact bigMac_nonneg|]. split; [discriminate|].
  destruct (C8_rounded_display Example.runtime) as (Hq & _ & Hm & _).
  split.
  - exact (proj1 (Hq (113 # 2) ltac:(discriminate))).
  - rewrite (Hm true Example.bigMac bigMac_nonneg). reflexivity.
Defined.

(** C9, as stated, fails on [src/app/nmacros/page.tsx]: for the envelope
    with totals and one meal under [result.structuredContent] the widget is
    in the Ready state, the canonical MealData has a [dailyTotals] object,
    and the view is the list of meal cards without a totals block. *)
Lemma C9_counterexample :
  NMacrosPage.state (rt := Example.runtime) true Example.bigMacEnvelope = Ok Ready
  /\ (exists n,
         opt_get (Spec.normalize Example.bigMacEnvelope) "dailyTotals"
         = Data.of_Nutrients n)
  /\ NMacrosPage.arrive (rt := Example.runtime) true Example.bigMacEnvelope
     = Ok (false,
           NMacrosPage.MealCards
             [{| key := 0; meal := Data.of_Meal Example.bigMac |}])
  /\ NMacrosPage.dailyTotalsBlock_shown
       (NMacrosPage.MealCards
          [{| key := 0; meal := Data.of_Meal Example.bigMac |}])
     = false.
Proof.
  split; [reflexivity|]. split; [eexists; reflexivity|].
  split; reflexivity.
Qed.

(** C9, amended: in the Ready state the widget of [src/unnamed/part_000]
    renders a daily totals block if and only if the canonical MealData has a
    (truthy) [dailyTotals]; when a [dailyTotals] object is present its four
    fields are shown rounded, before the meal cards, and when it is absent
    nothing is shown in its place.  The widget of
    [src/app/nmacros/page.tsx] has no daily totals block in any state. *)
Theorem C9_daily_totals_block :
  forall rt : Runtime,
    (forall (envelope : Value) (blk : Slot Grid) (cards : list CardElement),
        TotalsPage.Macros envelope = Ok (TotalsPage.Main blk cards) ->
        (TotalsPage.dailyTotalsBlock_shown (TotalsPage.Main blk cards) = true
         <-> truthy (opt_get (TotalsPage.mealData envelope) "dailyTotals") = true))
    /\ (forall (d : Data.MealData) (n : Data.Nutrients),
           Data.dailyTotals d = Some n ->
           TotalsPage.dailyTotalsBlock (Data.of_MealData d)
           = Ok (Element
                   {| g_calories := Math_round (Num (Data.calories n));
                      g_protein := Math_round (Num (Data.protein n));
                      g_carbs := Math_round (Num (Data.carbs n));
                      g_fat := Math_round (Num (Data.fat n)) |}))
    /\ (forall d : Data.MealData,
           Data.dailyTotals d = None ->
           TotalsPage.dailyTotalsBlock (Data.of_MealData d) = Ok (Bare Undefined))
    /\ (forall (isLoading isLoading' : bool) (envelope : Value)
               (v : NMacrosPage.View),
           NMacrosPage.arrive isLoading envelope = Ok (isLoading', v) ->
           NMacrosPage.dailyTotalsBlock_shown v = false).
Proof.
  intros rt. split; [|split; [|split]].
  - intros envelope blk cards H. simpl. exact (totals_block_iff envelope blk cards H).
  - exact dailyTotalsBlock_present.
  - exact dailyTotalsBlock_absent.
  - intros isLoading isLoading' envelope v _. apply nmacros_no_totals_block.
Qed.

(** C9 at the envelope of the first scenario, on the totals page: Ready,
    with the totals block shown before the one card. *)
Lemma C9_daily_totals_witness :
  TotalsPage.Macros (rt := Example.runtime) Example.bigMacEnvelope
  = Ok (TotalsPage.Main
          (Element {| g_calories := Fin 657; g_protein := Fin 30;
                      g_carbs := Fin 62; g_fat := Fin 35 |})
          [{| key := 0; meal := Data.of_Meal Example.bigMac |}])
  /\ TotalsPage.dailyTotalsBlock_shown
       (TotalsPage.Main
          (Element {| g_calories := Fin 657; g_protein := Fin 30;
                      g_carbs := Fin 62; g_fat := Fin 35 |})
          [{| key := 0; meal := Data.of_Meal Example.bigMac |}])
     = true
  /\ TotalsPage.dailyTotalsBlock (rt := Example.runtime)
       (Data.of_MealData Example.bigMacData)
     = Ok (Element {| g_calories := Fin 657; g_protein := Fin 30;
                      g_carbs := Fin 62; g_fat := Fin 35 |}).
Proof.
  split; [reflexivity|].
  destruct (C9_daily_totals_block Example.runtime) as (Hiff & Hpresent & _).
  split.
  - apply (Hiff Example.bigMacEnvelope); reflexivity.
  - exact (Hpresent Example.bigMacData (Example.nutrients 657 30 62 35) eq_refl).
Defined.

(* ===================================================================== *)
(** * Further properties of [src/app/nmacros/page.tsx]: the widget *)
(* ===================================================================== *)

Section WidgetFacts.
Context {rt : Runtime}.

Local Arguments gt_num : simpl never.
Local Arguments nat_num : simpl never.
Local Arguments strict_eq_num : simpl never.

(** An arrival on a well-typed envelope: the cell ends as the loading rule,
    the view is in the state of the priority order. *)
Lemma arrive_well_typed (isLoading : bool) (envelope : Value) :
  Spec.well_typed_meals envelope ->
  exists v,
    NMacrosPage.arrive isLoading envelope = Ok (Spec.loading_rule envelope, v)
    /\ NMacrosPage.state_of v = Spec.machine envelope.
Proof.
  intros Hwt. unfold NMacrosPage.arrive.
  destruct (Macros_well_typed isLoading envelope Hwt) as (v & Hv & Hsv).
  destruct (Macros_well_typed (Spec.loading_rule envelope) envelope Hwt)
    as (v' & Hv' & Hsv').
  rewrite Hv, (effect_loading_rule envelope Hwt). simpl.
  destruct (Bool.eqb (Spec.loading_rule envelope) isLoading) eqn:E.
  - apply Bool.eqb_prop in E. subst isLoading. exists v. split; [reflexivity|].
    exact Hsv.
  - rewrite Hv'. simpl. exists v'. split; [reflexivity|]. exact Hsv'.
Qed.

(** The views that [Macros] can return as a list of cards. *)
Lemma Macros_cards (isLoading : bool) (envelope : Value)
    (cards : list CardElement) :
  NMacrosPage.Macros isLoading envelope = Ok (NMacrosPage.MealCards cards) ->
  isLoading = false
  /\ truthy (NMacrosPage.error (Spec.normalize envelope) envelope) = false
  /\ exists x items,
      NMacrosPage.meals (Spec.normalize envelope) = Arr (x :: items)
      /\ map_cards (Arr (x :: items)) = Ok cards.
Proof.
  unfold NMacrosPage.Macros. rewrite mealData_normalize. simpl.
  destruct (meals_not_nullish (Spec.normalize envelope)) as [len Hlen].
  rewrite Hlen. simpl.
  destruct (truthy (NMacrosPage.error (Spec.normalize envelope) envelope));
    [discriminate|].
  destruct isLoading; [discriminate|].
  destruct (strict_eq_num len 0) eqn:E0; [discriminate|].
  destruct (NMacrosPage.meals (Spec.normalize envelope)) as [| | | | |items|] eqn:Em;
    simpl; try discriminate.
  intros H. split; [reflexivity|]. split; [reflexivity|].
  destruct items as [|x items].
  - simpl in Hlen. injection Hlen as <-. discriminate E0.
  - exists x, items. split; [reflexivity|].
    injection H as <-. reflexivity.
Qed.

Lemma map_cards_fields (items : list Value) (cards : list CardElement) :
  map_cards (Arr items) = Ok cards ->
  map meal cards = items /\ map key cards = seq 0 (List.length items).
Proof.
  simpl. intros [= <-]. rewrite !map_map. simpl.
  generalize 0%nat. induction items as [|x items IH]; intros n; simpl;
    [split; reflexivity|].
  destruct (IH (S n)) as [H1 H2]. now rewrite H1, H2.
Qed.

End WidgetFacts.

Section Settled.
Context {rt : Runtime}.

(** What an arrival leaves behind is a fixed point of rendering. *)
Lemma arrive_settled (isLoading isLoading' : bool) (toolOutput : Value)
    (v : NMacrosPage.View) :
  NMacrosPage.arrive isLoading toolOutput = Ok (isLoading', v) ->
  NMacrosPage.effect toolOutput = Ok isLoading'
  /\ NMacrosPage.Macros isLoading' toolOutput = Ok v
  /\ NMacrosPage.arrive isLoading' toolOutput = Ok (isLoading', v).
Proof.
  unfold NMacrosPage.arrive.
  destruct (NMacrosPage.Macros isLoading toolOutput) as [v0|] eqn:Hm; simpl;
    [|discriminate].
  destruct (NMacrosPage.effect toolOutput) as [b|] eqn:He; simpl; [|discriminate].
  destruct (Bool.eqb b isLoading) eqn:E.
  - apply Bool.eqb_prop in E. subst b. intros [= <- <-].
    rewrite Hm. simpl. rewrite Bool.eqb_reflx. now repeat split.
  - destruct (NMacrosPage.Macros b toolOutput) as [v'|] eqn:Hm'; simpl;
      [|discriminate].
    intros [= <- <-]. rewrite Hm'. simpl. rewrite Bool.eqb_reflx.
    now repeat split.
Qed.

End Settled.

(** X2: whatever envelopes arrived before, the state shown after a
    sequence of arrivals is the one of the last envelope alone, provided
    every envelope of the sequence has a [loggedMeals] that is absent or an
    array: the widget may go back from Ready to Loading or Empty. *)
Theorem X2_last_envelope_decides :
  forall (rt : Runtime) (earlier : list Value) (latest : Value)
         (isLoading : bool) (onScreen : option NMacrosPage.View),
    Forall Spec.well_typed_meals earlier ->
    Spec.well_typed_meals latest ->
    exists v,
      NMacrosPage.arrivals isLoading onScreen (earlier ++ [latest])%list
      = Ok (Spec.loading_rule latest, Some v)
      /\ NMacrosPage.state_of v = Spec.machine latest.
Proof.
  intros rt earlier latest isLoading onScreen He Hl. revert isLoading onScreen.
  induction He as [|e earlier Hwt _ IH]; intros isLoading onScreen; simpl.
  - destruct (arrive_well_typed isLoading latest Hl) as (v & -> & Hv).
    simpl. now exists v.
  - destruct (arrive_well_typed isLoading e Hwt) as (v & -> & _). simpl.
    apply IH.
Qed.

(** X2 on a complete envelope followed by a request acknowledgement: the
    widget goes from Ready back to Loading. *)
Lemma X2_last_envelope_witness :
  Forall Spec.well_typed_meals [Example.bigMacEnvelope]
  /\ Spec.well_typed_meals (Obj [("foodDescription", Str "pizza")])
  /\ exists v,
      NMacrosPage.arrivals (rt := Example.runtime) true None
        [Example.bigMacEnvelope; Obj [("foodDescription", Str "pizza")]]
      = Ok (true, Some v)
      /\ NMacrosPage.state_of v = Loading.
Proof.
  assert (H1 : Forall Spec.well_typed_meals [Example.bigMacEnvelope])
    by (repeat constructor; right; reflexivity).
  assert (H2 : Spec.well_typed_meals (Obj [("foodDescription", Str "pizza")]))
    by (left; reflexivity).
  split; [exact H1|]. split; [exact H2|].
  exact (X2_last_envelope_decides Example.runtime [Example.bigMacEnvelope]
           (Obj [("foodDescription", Str "pizza")]) true None H1 H2).
Defined.

Section ReadyFacts.
Context {rt : Runtime}.

Local Arguments gt_num : simpl never.
Local Arguments nat_num : simpl never.
Local Arguments strict_eq_num : simpl never.

Lemma derived_meals_cons (envelope x : Value) (items : list Value) :
  Spec.derived_meals envelope = Some (x :: items) ->
  NMacrosPage.meals (Spec.normalize envelope) = Arr (x :: items).
Proof.
  unfold Spec.derived_meals, Spec.derived_loggedMeals, NMacrosPage.meals, or_else.
  destruct (opt_get (Spec.normalize envelope) "loggedMeals"); simpl;
    try discriminate. now intros [= ->].
Qed.

(** A derived [loggedMeals] that is a non-empty string. *)
Lemma string_meals (envelope : Value) (s : string) :
  Spec.derived_loggedMeals envelope = Str s -> s <> "" ->
  NMacrosPage.meals (Spec.normalize envelope) = Str s
  /\ (0 < String.length s)%nat.
Proof.
  unfold Spec.derived_loggedMeals, NMacrosPage.meals, or_else.
  intros -> Hs. simpl.
  destruct (String.eqb s "") eqn:E.
  - apply String.eqb_eq in E. contradiction.
  - split; [reflexivity|]. destruct s; [contradiction|simpl; lia].
Qed.

Lemma Macros_string_meals (b : bool) (toolOutput : Value) (s : string) :
  NMacrosPage.meals (Spec.normalize toolOutput) = Str s ->
  (0 < String.length s)%nat ->
  truthy (NMacrosPage.error (Spec.normalize toolOutput) toolOutput) = false ->
  NMacrosPage.Macros b toolOutput
  = if b then Ok NMacrosPage.LoadingView
    else Throw (ErrorObj "TypeError" "meals.map is not a function").
Proof.
  intros Hm Hlen He.
  unfold NMacrosPage.Macros. rewrite mealData_normalize. simpl.
  rewrite Hm, He. simpl. destruct b; [reflexivity|].
  change (Num (inject_Z (Z.of_nat (String.length s))))
    with (nat_num (String.length s)).
  rewrite strict_eq_num_length.
  destruct (String.length s); [lia|reflexivity].
Qed.

Lemma effect_string_meals (toolOutput : Value) (s : string) :
  NMacrosPage.meals (Spec.normalize toolOutput) = Str s ->
  (0 < String.length s)%nat ->
  NMacrosPage.effect toolOutput = Ok false.
Proof.
  intros Hm Hlen.
  unfold NMacrosPage.effect. rewrite mealData_normalize. simpl.
  rewrite Hm. simpl.
  change (Num (inject_Z (Z.of_nat (String.length s))))
    with (nat_num (String.length s)).
  rewrite gt_num_length_0.
  destruct (String.length s); [lia|reflexivity].
Qed.

End ReadyFacts.

(** X3: for every envelope, well-formed or not, the widget shows the meal
    cards only when there is no error and the derived [meals] is a
    non-empty array; the state cell is then [false] and the view has one
    card per meal, in the order of the array, keyed by position.
    Conversely every envelope with a non-empty meal array and no error is
    shown that way. *)
Theorem X3_ready_lists_every_meal :
  forall (rt : Runtime) (isLoading : bool) (toolOutput : Value),
    (forall (isLoading' : bool) (cards : list CardElement),
        NMacrosPage.arrive isLoading toolOutput
        = Ok (isLoading', NMacrosPage.MealCards cards) ->
        isLoading' = false
        /\ truthy (NMacrosPage.error (Spec.normalize toolOutput) toolOutput) = false
        /\ exists x items,
            NMacrosPage.meals (Spec.normalize toolOutput) = Arr (x :: items)
            /\ map meal cards = x :: items
            /\ map key cards = seq 0 (S (List.length items)))
    /\ (forall (x : Value) (items : list Value),
           Spec.derived_meals toolOutput = Some (x :: items) ->
           truthy (NMacrosPage.error (Spec.normalize toolOutput) toolOutput) = false ->
           exists cards,
             NMacrosPage.arrive isLoading toolOutput
             = Ok (false, NMacrosPage.MealCards cards)
             /\ map meal cards = x :: items).
Proof.
  intros rt isLoading toolOutput.
  assert (Hfwd : forall l l' cards,
             NMacrosPage.arrive l toolOutput = Ok (l', NMacrosPage.MealCards cards) ->
             l' = false
             /\ truthy (NMacrosPage.error (Spec.normalize toolOutput) toolOutput) = false
             /\ exists x items,
                 NMacrosPage.meals (Spec.normalize toolOutput) = Arr (x :: items)
                 /\ map meal cards = x :: items
                 /\ map key cards = seq 0 (S (List.length items))).
  { intros l l' cards H.
    destruct (arrive_settled l l' toolOutput _ H) as (_ & Hm & _).
    destruct (Macros_cards l' toolOutput cards Hm) as (Hl & He & x & items & Hx & Hc).
    split; [exact Hl|]. split; [exact He|].
    exists x, items. split; [exact Hx|].
    exact (map_cards_fields (x :: items) cards Hc). }
  split; [exact (Hfwd isLoading)|].
  intros x items Hd He.
  destruct (derived_meals_well_typed toolOutput _ Hd) as [Hwt Habs].
  destruct (arrive_well_typed isLoading toolOutput Hwt) as (v & Hv & Hs).
  unfold Spec.machine in Hs. rewrite He, Habs in Hs.
  assert (Hl : Spec.loading_rule toolOutput = false).
  { unfold Spec.loading_rule. rewrite Habs. simpl. rewrite orb_false_r.
    destruct toolOutput; try reflexivity. discriminate Hd. }
  rewrite Hl in Hs, Hv. simpl in Hs.
  destruct v as [| | |cards]; try discriminate Hs.
  exists cards. split; [exact Hv|].
  destruct (Hfwd isLoading false cards Hv) as (_ & _ & x' & items' & Hx' & Hc & _).
  rewrite (derived_meals_cons toolOutput x items Hd) in Hx'.
  injection Hx' as <- <-. exact Hc.
Qed.

(** X3 at an envelope with two meals at the top level. *)
Lemma X3_ready_witness :
  exists cards,
    NMacrosPage.arrive (rt := Example.runtime) true
      (Obj [("loggedMeals", Arr [Data.of_Meal Example.bigMac; Str "second"])])
    = Ok (false, NMacrosPage.MealCards cards)
    /\ map meal cards = [Data.of_Meal Example.bigMac; Str "second"].
Proof.
  exact (proj2 (X3_ready_lists_every_meal Example.runtime true
                  (Obj [("loggedMeals",
                         Arr [Data.of_Meal Example.bigMac; Str "second"])]))
           (Data.of_Meal Example.bigMac) [Str "second"] eq_refl eq_refl).
Defined.

(** X4: a derived [loggedMeals] that is a non-empty string (the interface
    wants an array) and no error make the component throw the TypeError
    "meals.map is not a function", whatever the state cell held: the string
    has a positive length, so the loading and the empty views are skipped. *)
Theorem X4_string_meals_throw :
  forall (rt : Runtime) (isLoading : bool) (toolOutput : Value) (s : string),
    Spec.derived_loggedMeals toolOutput = Str s ->
    s <> "" ->
    truthy (NMacrosPage.error (Spec.normalize toolOutput) toolOutput) = false ->
    NMacrosPage.arrive isLoading toolOutput
    = Throw (ErrorObj "TypeError" "meals.map is not a function").
Proof.
  intros rt isLoading toolOutput s Hd Hs He.
  destruct (string_meals toolOutput s Hd Hs) as [Hm Hlen].
  pose proof (fun b => Macros_string_meals b toolOutput s Hm Hlen He) as HM.
  pose proof (effect_string_meals toolOutput s Hm Hlen) as HE.
  unfold NMacrosPage.arrive. rewrite HM. destruct isLoading; simpl.
  - rewrite HE. simpl. now rewrite HM.
  - reflexivity.
Qed.

(** X4 at the envelope [{ loggedMeals: "two eggs" }]. *)
Lemma X4_string_meals_witness :
  NMacrosPage.arrive (rt := Example.runtime) true
    (Obj [("loggedMeals", Str "two eggs")])
  = Throw (ErrorObj "TypeError" "meals.map is not a function").
Proof.
  apply (X4_string_meals_throw Example.runtime true _ "two eggs").
  - reflexivity.
  - discriminate.
  - reflexivity.
Defined.

(** X5: which error is shown.  A truthy error of the derived MealData is
    the one shown, whatever the envelope's own error is; when the
    MealData's error is missing or falsy (the empty string included) a
    truthy error of the envelope is shown instead. *)
Theorem X5_nested_error_first :
  forall (rt : Runtime) (isLoading : bool) (toolOutput : Value),
    (truthy (opt_get (Spec.normalize toolOutput) "error") = true ->
     exists isLoading',
       NMacrosPage.arrive isLoading toolOutput
       = Ok (isLoading',
             NMacrosPage.ErrorView (opt_get (Spec.normalize toolOutput) "error")))
    /\ (truthy (opt_get (Spec.normalize toolOutput) "error") = false ->
        truthy (opt_get toolOutput "error") = true ->
        exists isLoading',
          NMacrosPage.arrive isLoading toolOutput
          = Ok (isLoading', NMacrosPage.ErrorView (opt_get toolOutput "error"))).
Proof.
  intros rt isLoading toolOutput. split.
  - intros Ha.
    assert (He : NMacrosPage.error (Spec.normalize toolOutput) toolOutput
                 = opt_get (Spec.normalize toolOutput) "error").
    { unfold NMacrosPage.error, or_else. now rewrite Ha. }
    rewrite <- He. apply error_priority. now rewrite He.
  - intros Ha Hb.
    assert (He : NMacrosPage.error (Spec.normalize toolOutput) toolOutput
                 = opt_get toolOutput "error").
    { unfold NMacrosPage.error, or_else. now rewrite Ha. }
    rewrite <- He. apply error_priority. now rewrite He.
Qed.

(** X5 at an envelope whose MealData has an empty error and whose own
    error is "quota exceeded", and at one with both errors. *)
Lemma X5_nested_error_witness :
  (exists l,
      NMacrosPage.arrive (rt := Example.runtime) true
        (Obj [("structuredContent", Obj [("error", Str "")]);
              ("error", Str "quota exceeded")])
      = Ok (l, NMacrosPage.ErrorView (Str "quota exceeded")))
  /\ (exists l,
         NMacrosPage.arrive (rt := Example.runtime) true
           (Obj [("structuredContent", Obj [("error", Str "rate limited")]);
                 ("error", Str "quota exceeded")])
         = Ok (l, NMacrosPage.ErrorView (Str "rate limited"))).
Proof.
  split.
  - exact (proj2 (X5_nested_error_first Example.runtime true
                    (Obj [("structuredContent", Obj [("error", Str "")]);
                          ("error", Str "quota exceeded")]))
             eq_refl eq_refl).
  - exact (proj1 (X5_nested_error_first Example.runtime true
                    (Obj [("structuredContent", Obj [("error", Str "rate limited")]);
                          ("error", Str "quota exceeded")]))
             eq_refl).
Defined.

(* ===================================================================== *)
(** * Further properties of [src/unnamed/part_000]: the totals page *)
(* ===================================================================== *)

Section TotalsFacts.
Context {rt : Runtime}.

Local Arguments strict_eq_num : simpl never.
Local Arguments nat_num : simpl never.
Local Arguments Math_round : simpl never.

Lemma totals_mealData_two_paths (envelope : Value) :
  TotalsPage.mealData envelope = Spec.normalize_two_paths envelope.
Proof.
  unfold TotalsPage.mealData, Spec.normalize_two_paths, Spec.two_paths,
    Spec.first_match, Spec.rule1, Spec.rule2, Spec.when_present, or_else.
  destruct (truthy (opt_get (opt_get envelope "result") "structuredContent")) eqn:E1;
    simpl; rewrite ?E1; [reflexivity|].
  destruct (truthy (opt_get envelope "structuredContent")) eqn:E2;
    simpl; rewrite ?E2; reflexivity.
Qed.

Lemma two_paths_agree (envelope : Value) :
  Spec.rule1 envelope <> None \/ Spec.rule2 envelope <> None ->
  Spec.normalize_two_paths envelope = Spec.normalize envelope.
Proof.
  unfold Spec.normalize_two_paths, Spec.normalize, Spec.two_paths, Spec.rules,
    Spec.first_match.
  destruct (Spec.rule1 envelope); [reflexivity|].
  destruct (Spec.rule2 envelope); [reflexivity|].
  intros [H|H]; now elim H.
Qed.

(** A grid read off a truthy value never throws. *)
Lemma grid_of_truthy (n : Value) :
  truthy n = true -> exists g, grid (Ok n) = Ok g.
Proof.
  intros Hn. pose proof (truthy_not_nullish n Hn) as Hnn.
  unfold grid. simpl. rewrite !(get_opt_get n _ Hnn). simpl.
  eexists. reflexivity.
Qed.

Lemma dailyTotalsBlock_total (md : Value) :
  exists blk,
    TotalsPage.dailyTotalsBlock md = Ok blk
    /\ shown blk = truthy (opt_get md "dailyTotals").
Proof.
  unfold TotalsPage.dailyTotalsBlock.
  destruct (truthy (opt_get md "dailyTotals")) eqn:E.
  - rewrite (get_opt_get md "dailyTotals" (truthy_opt_get _ _ E)).
    destruct (grid_of_truthy _ E) as [g ->]. simpl.
    eexists. split; reflexivity.
  - eexists. split; reflexivity.
Qed.

Lemma totals_meals_well_typed (envelope : Value) :
  Spec.totals_well_typed_meals envelope ->
  exists items,
    TotalsPage.meals (Spec.normalize_two_paths envelope) = Arr items
    /\ Spec.absent_or_empty
         (opt_get (Spec.normalize_two_paths envelope) "loggedMeals")
       = Nat.eqb (List.length items) 0.
Proof.
  unfold Spec.totals_well_typed_meals, TotalsPage.meals, or_else.
  destruct (opt_get (Spec.normalize_two_paths envelope) "loggedMeals")
    as [| | | | |items|]; simpl; intros [H|H]; try discriminate.
  - exists []; split; reflexivity.
  - exists []; split; reflexivity.
  - exists items; split; [reflexivity|]. now destruct items.
  - exists items; split; [reflexivity|]. now destruct items.
Qed.

Lemma totals_state_machine (envelope : Value) :
  Spec.totals_well_typed_meals envelope ->
  TotalsPage.state envelope = Ok (Spec.totals_machine envelope).
Proof.
  intros Hwt. destruct (totals_meals_well_typed envelope Hwt) as (items & Hm & Habs).
  unfold TotalsPage.state, TotalsPage.Macros, Spec.totals_machine.
  rewrite totals_mealData_two_paths, Habs.
  destruct (truthy (TotalsPage.error _ _)); [reflexivity|].
  rewrite Hm. simpl. rewrite strict_eq_num_length.
  destruct items as [|x items]; simpl; [reflexivity|].
  destruct (dailyTotalsBlock_total (Spec.normalize_two_paths envelope))
    as (blk & -> & _).
  reflexivity.
Qed.

Lemma totals_error_priority (envelope : Value) :
  truthy (TotalsPage.error (TotalsPage.mealData envelope) envelope) = true ->
  TotalsPage.Macros envelope
  = Ok (TotalsPage.ErrorView
          (TotalsPage.error (TotalsPage.mealData envelope) envelope)).
Proof.
  intros H. unfold TotalsPage.Macros. now rewrite H.
Qed.

(** The priority order without Loading is the one of the other page with
    Loading read as Empty. *)
Lemma totals_machine_without_loading (envelope : Value) :
  Spec.normalize_two_paths envelope = Spec.normalize envelope ->
  Spec.totals_machine envelope = Spec.without_loading (Spec.machine envelope).
Proof.
  intros Hn. unfold Spec.totals_machine, Spec.machine, Spec.loading_rule,
    Spec.derived_loggedMeals.
  rewrite Hn.
  change (TotalsPage.error (Spec.normalize envelope) envelope)
    with (NMacrosPage.error (Spec.normalize envelope) envelope).
  destruct (truthy (NMacrosPage.error (Spec.normalize envelope) envelope));
    [reflexivity|].
  destruct (is_null envelope) eqn:En; simpl.
  - destruct envelope; try discriminate En. reflexivity.
  - destruct (Spec.absent_or_empty (opt_get (Spec.normalize envelope) "loggedMeals"));
      simpl; [|reflexivity].
    now destruct (Spec.exposes "foodDescription" envelope && _).
Qed.

End TotalsFacts.

(** X6: the normaliser of the totals page tries two paths only,
    [result.structuredContent] and then [structuredContent]: it never
    throws, it returns [null] when neither holds a truthy value (a MealData
    directly under [result] or at the top level is not found), and it
    agrees with the four-path normaliser of [src/app/nmacros/page.tsx]
    whenever one of the two paths matches. *)
Theorem X6_totals_page_two_paths :
  (forall envelope : Value,
      TotalsPage.mealData envelope = Spec.normalize_two_paths envelope)
  /\ (forall envelope : Value,
         Spec.rule1 envelope = None -> Spec.rule2 envelope = None ->
         TotalsPage.mealData envelope = Null)
  /\ (forall envelope : Value,
         Spec.rule1 envelope <> None \/ Spec.rule2 envelope <> None ->
         NMacrosPage.mealData envelope = Ok (TotalsPage.mealData envelope))
  /\ (forall d : Data.MealData,
         TotalsPage.mealData (Data.of_MealData d) = Null
         /\ TotalsPage.mealData (Obj [("result", Data.of_MealData d)]) = Null).
Proof.
  split; [exact totals_mealData_two_paths|]. split; [|split].
  - intros envelope H1 H2. rewrite totals_mealData_two_paths.
    unfold Spec.normalize_two_paths, Spec.two_paths, Spec.first_match.
    now rewrite H1, H2.
  - intros envelope H. rewrite mealData_normalize, totals_mealData_two_paths.
    now rewrite (two_paths_agree envelope H).
  - intros d. destruct d as [[n|] [l|] [e|]]; split; reflexivity.
Qed.

(** X6 at an envelope that carries the data under [structuredContent]
    beside a top-level [loggedMeals] that neither normaliser looks at. *)
Lemma X6_totals_page_witness :
  NMacrosPage.mealData
    (Obj [("structuredContent", Data.of_MealData Example.bigMacData);
          ("loggedMeals", Arr [])])
  = Ok (TotalsPage.mealData
          (Obj [("structuredContent", Data.of_MealData Example.bigMacData);
                ("loggedMeals", Arr [])]))
  /\ TotalsPage.mealData (Obj [("foodDescription", Str "pizza")]) = Null.
Proof.
  destruct X6_totals_page_two_paths as (_ & Hnull & Hagree & _).
  split.
  - apply Hagree. right. discriminate.
  - apply Hnull; reflexivity.
Defined.

(** X7: the totals page has three states.  Any truthy error gives the
    error view, for every envelope.  Otherwise, when the derived
    [loggedMeals] is absent or an array, the page neither throws nor
    waits: it shows Empty for no meals, the [null] envelope and a bare
    request acknowledgement included, and Ready for at least one. *)
Theorem X7_totals_page_states :
  forall (rt : Runtime) (envelope : Value),
    (truthy (TotalsPage.error (TotalsPage.mealData envelope) envelope) = true ->
     TotalsPage.state envelope = Ok Error)
    /\ (Spec.totals_well_typed_meals envelope ->
        TotalsPage.state envelope = Ok (Spec.totals_machine envelope)
        /\ TotalsPage.state envelope <> Ok Loading)
    /\ TotalsPage.state Null = Ok Empty
    /\ (forall description : Value,
           TotalsPage.state (Obj [("foodDescription", description)]) = Ok Empty).
Proof.
  intros rt envelope. split; [|split; [|split]].
  - intros H. unfold TotalsPage.state.
    now rewrite (totals_error_priority envelope H).
  - intros Hwt. rewrite (totals_state_machine envelope Hwt).
    split; [reflexivity|].
    unfold Spec.totals_machine.
    destruct (truthy _); [discriminate|]. destruct (Spec.absent_or_empty _);
      discriminate.
  - reflexivity.
  - intros description. reflexivity.
Qed.

(** X7 at the envelope of the first scenario and at an error envelope. *)
Lemma X7_totals_page_witness :
  Spec.totals_well_typed_meals Example.bigMacEnvelope
  /\ TotalsPage.state (rt := Example.runtime) Example.bigMacEnvelope = Ok Ready
  /\ TotalsPage.state (rt := Example.runtime)
       (Obj [("structuredContent", Obj [("error", Str "rate limited")])])
     = Ok Error.
Proof.
  assert (H : Spec.totals_well_typed_meals Example.bigMacEnvelope)
    by (right; reflexivity).
  split; [exact H|]. split.
  - exact (proj1 (proj1 (proj2 (X7_totals_page_states Example.runtime
                                  Example.bigMacEnvelope)) H)).
  - exact (proj1 (X7_totals_page_states Example.runtime
                    (Obj [("structuredContent", Obj [("error", Str "rate limited")])]))
             eq_refl).
Defined.

(** X8: the two widgets differ on where they find the data.  A MealData
    with at least one meal and no error, handed over at the top level of
    the envelope or directly under [result], is Ready on the page of
    [src/app/nmacros/page.tsx] and Empty on the totals page. *)
Theorem X8_pages_differ_on_paths :
  forall (rt : Runtime) (isLoading : bool) (totals : option Data.Nutrients)
         (m : Data.Meal) (ms : list Data.Meal),
    let d := {| Data.dailyTotals := totals;
                Data.loggedMeals := Some (m :: ms);
                Data.error := None |} in
    NMacrosPage.state isLoading (Data.of_MealData d) = Ok Ready
    /\ NMacrosPage.state isLoading (Obj [("result", Data.of_MealData d)]) = Ok Ready
    /\ TotalsPage.state (Data.of_MealData d) = Ok Empty
    /\ TotalsPage.state (Obj [("result", Data.of_MealData d)]) = Ok Empty.
Proof.
  intros rt isLoading totals m ms d.
  assert (H1 : Spec.well_typed_meals (Data.of_MealData d))
    by (right; destruct totals; reflexivity).
  assert (H2 : Spec.well_typed_meals (Obj [("result", Data.of_MealData d)]))
    by (right; destruct totals; reflexivity).
  split; [|split; [|split]].
  - rewrite (state_machine isLoading _ H1). destruct totals; reflexivity.
  - rewrite (state_machine isLoading _ H2). destruct totals; reflexivity.
  - destruct totals; reflexivity.
  - destruct totals; reflexivity.
Qed.

(** X9: on every envelope that carries its data under
    [result.structuredContent] or [structuredContent], with a
    [loggedMeals] that is absent or an array, the two widgets show the same
    state, except that the totals page shows Empty where the other page
    shows Loading. *)
Theorem X9_pages_agree_on_shared_paths :
  forall (rt : Runtime) (isLoading : bool) (envelope : Value),
    Spec.rule1 envelope <> None \/ Spec.rule2 envelope <> None ->
    Spec.well_typed_meals envelope ->
    exists s,
      NMacrosPage.state isLoading envelope = Ok s
      /\ TotalsPage.state envelope = Ok (Spec.without_loading s).
Proof.
  intros rt isLoading envelope Hp Hwt.
  pose proof (two_paths_agree envelope Hp) as Hn.
  exists (Spec.machine envelope). split; [exact (state_machine isLoading envelope Hwt)|].
  rewrite totals_state_machine.
  - now rewrite (totals_machine_without_loading envelope Hn).
  - unfold Spec.totals_well_typed_meals. rewrite Hn. exact Hwt.
Qed.

(** X9 at an acknowledgement that repeats the description beside an empty
    payload: Loading on one page, Empty on the other. *)
Lemma X9_pages_agree_witness :
  NMacrosPage.state (rt := Example.runtime) true
    (Obj [("foodDescription", Str "pizza"); ("structuredContent", Obj [])])
  = Ok Loading
  /\ exists s,
      NMacrosPage.state (rt := Example.runtime) true
        (Obj [("foodDescription", Str "pizza"); ("structuredContent", Obj [])])
      = Ok s
      /\ TotalsPage.state (rt := Example.runtime)
           (Obj [("foodDescription", Str "pizza"); ("structuredContent", Obj [])])
         = Ok (Spec.without_loading s).
Proof.
  split; [reflexivity|].
  apply (X9_pages_agree_on_shared_paths Example.runtime true).
  - right. discriminate.
  - left. reflexivity.
Defined.

(* ===================================================================== *)
(** * Further properties of [MealCard] and of the rounding *)
(* ===================================================================== *)

Section CardFacts.
Context {rt : Runtime}.

Local Arguments gt_num : simpl never.
Local Arguments nat_num : simpl never.
Local Arguments Math_round : simpl never.

Lemma mapM_length {A B} (f : A -> Res B) (l : list A) (bs : list B) :
  mapM f l = Ok bs -> List.length bs = List.length l.
Proof.
  revert bs. induction l as [|a l IH]; intros bs; simpl.
  - now intros [= <-].
  - destruct (f a); simpl; [|discriminate].
    destruct (mapM f l); simpl; [|discriminate].
    intros [= <-]. simpl. f_equal. now apply IH.
Qed.

(** The first element that throws decides what [mapM] throws. *)
Lemma mapM_throws {A B} (f : A -> Res B) (l : list A) (a : A) (e : Thrown) :
  In a l -> f a = Throw e -> exists e', mapM f l = Throw e'.
Proof.
  induction l as [|x l IH]; simpl; [contradiction|].
  intros [->|Hin] Hf.
  - rewrite Hf. simpl. now exists e.
  - destruct (f x); simpl; [|eexists; reflexivity].
    destruct (IH Hin Hf) as [e' ->]. simpl. now exists e'.
Qed.

(** The shape of every card that [MealCard] returns. *)
Lemma MealCard_shape (showBreakdown : bool) (meal : Value) (c : Card) :
  MealCard showBreakdown meal = Ok c ->
  exists ings len,
    get meal "ingredients" = Ok ings
    /\ get ings "length" = Ok len
    /\ c_toggle c = (if gt_num len 1 then Some showBreakdown else None)
    /\ (if showBreakdown && gt_num len 1
        then exists ls, c_breakdown c = Some ls
                        /\ map_items ingredientLine ings = Ok ls
        else c_breakdown c = None).
Proof.
  unfold MealCard.
  destruct (get meal "ingredients") as [ings|] eqn:Ei; simpl; [|discriminate].
  destruct (get ings "length") as [len|] eqn:El; simpl; [|discriminate].
  destruct (get meal "meal_name"); simpl; [|discriminate].
  destruct (get meal "meal_size"); simpl; [|discriminate].
  destruct (grid _); simpl; [|discriminate].
  destruct (showBreakdown && gt_num len 1) eqn:Eb.
  - destruct (map_items ingredientLine ings) as [ls|] eqn:Em; simpl; [|discriminate].
    intros [= <-]. exists ings, len. simpl.
    split; [first [reflexivity|assumption]|].
    split; [first [reflexivity|assumption]|]. split; [reflexivity|].
    rewrite ?Eb. exists ls. now split.
  - simpl. intros [= <-]. exists ings, len. simpl.
    split; [first [reflexivity|assumption]|].
    split; [first [reflexivity|assumption]|]. split; [reflexivity|].
    now rewrite ?Eb.
Qed.

Lemma gt_num_array_length (items : list Value) (len : Value) :
  get (Arr items) "length" = Ok len ->
  gt_num len 1 = Nat.ltb 1 (List.length items).
Proof.
  simpl. intros [= <-]. apply gt_num_length_1.
Qed.

End CardFacts.

(** X10: for every meal value, well-formed or not, a card that renders
    keeps the breakdown behind its toggle: the breakdown is rendered only
    when the card's [showBreakdown] cell is [true] and the toggle button is
    there; a card whose cell is [false], as on first render, has no
    breakdown; and a rendered breakdown has one line per ingredient of an
    ingredient array of more than one entry. *)
Theorem X10_breakdown_behind_toggle :
  forall (rt : Runtime) (showBreakdown : bool) (meal : Value) (c : Card),
    MealCard showBreakdown meal = Ok c ->
    (showBreakdown = false -> c_breakdown c = None)
    /\ (c_toggle c = None -> c_breakdown c = None)
    /\ (forall ls,
           c_breakdown c = Some ls ->
           showBreakdown = true
           /\ c_toggle c = Some true
           /\ exists items,
               get meal "ingredients" = Ok (Arr items)
               /\ List.length ls = List.length items
               /\ (1 < List.length items)%nat).
Proof.
  intros rt showBreakdown meal c H.
  destruct (MealCard_shape showBreakdown meal c H)
    as (ings & len & Hi & Hl & Ht & Hb).
  destruct showBreakdown; simpl in Hb.
  - destruct (gt_num len 1) eqn:Eg.
    + destruct Hb as (ls & Hbs & Hm).
      split; [discriminate|]. split; [rewrite Ht; discriminate|].
      intros ls' Hls'. rewrite Hbs in Hls'. injection Hls' as <-.
      split; [reflexivity|]. split; [exact Ht|].
      destruct ings as [| | | | |items|]; simpl in Hm; try discriminate.
      exists items. split; [exact Hi|]. split; [exact (mapM_length _ _ _ Hm)|].
      rewrite (gt_num_array_length items len Hl) in Eg.
      now apply Nat.ltb_lt.
    + split; [discriminate|]. split; [intros _; exact Hb|].
      intros ls Hls. rewrite Hb in Hls. discriminate.
  - split; [intros _; exact Hb|]. split; [intros _; exact Hb|].
    intros ls Hls. rewrite Hb in Hls. discriminate.
Qed.

(** X10 at the Big Mac meal with its breakdown open. *)
Lemma X10_breakdown_witness :
  exists c ls,
    MealCard (rt := Example.runtime) true (Data.of_Meal Example.bigMac) = Ok c
    /\ c_breakdown c = Some ls
    /\ c_toggle c = Some true
    /\ List.length ls = 2%nat.
Proof.
  destruct (MealCard (rt := Example.runtime) true (Data.of_Meal Example.bigMac))
    as [c|] eqn:E; [|discriminate E].
  destruct (c_breakdown c) as [ls|] eqn:Eb.
  - exists c, ls.
    destruct (X10_breakdown_behind_toggle Example.runtime true _ c E)
      as (_ & _ & H).
    destruct (H ls Eb) as (_ & Ht & items & Hi & Hlen & _).
    split; [reflexivity|]. split; [exact Eb|]. split; [exact Ht|].
    rewrite Hlen. injection Hi as <-. reflexivity.
  - exfalso. injection E as <-. discriminate Eb.
Defined.

(** X11: a meal object without an [ingredients] property makes [MealCard]
    throw the TypeError of reading [length] of [undefined], and one meal
    whose card throws keeps the whole list of cards, on either page, from
    rendering.  (An empty [ingredients] array is fine.) *)
Theorem X11_meal_without_ingredients :
  forall rt : Runtime,
    (forall (showBreakdown : bool) (props : list (string * Value)),
        lookup "ingredients" props = None ->
        MealCard showBreakdown (Obj props)
        = Throw (ErrorObj "TypeError"
                   "Cannot read properties of undefined (reading 'length')"))
    /\ (forall (showBreakdown : nat -> bool) (cards : list CardElement)
               (c : CardElement) (e : Thrown) (blk : Slot Grid),
           In c cards ->
           MealCard (showBreakdown (key c)) (meal c) = Throw e ->
           exists e',
             NMacrosPage.paint showBreakdown (NMacrosPage.MealCards cards)
             = Throw e'
             /\ TotalsPage.paint showBreakdown (TotalsPage.Main blk cards)
                = Throw e').
Proof.
  intros rt. split.
  - intros showBreakdown props H. unfold MealCard. simpl. now rewrite H.
  - intros showBreakdown cards c e blk Hin Hc.
    destruct (mapM_throws
                (fun c => card <- MealCard (showBreakdown (key c)) (meal c) ;;
                          _ <- reconcile (card_children card) ;; Ok card)
                cards c e Hin) as [e' He'].
    { now rewrite Hc. }
    exists e'. cbn [NMacrosPage.paint TotalsPage.paint]. unfold render_cards.
    rewrite He'. now split.
Qed.

(** X11 at a list of the Big Mac meal followed by a meal that has only a
    name. *)
Lemma X11_meal_without_ingredients_witness :
  exists e',
    NMacrosPage.paint (rt := Example.runtime) (fun _ => false)
      (NMacrosPage.MealCards
         [{| key := 0; meal := Data.of_Meal Example.bigMac |};
          {| key := 1; meal := Obj [("meal_name", Str "Soup")] |}])
    = Throw e'
    /\ TotalsPage.paint (rt := Example.runtime) (fun _ => false)
         (TotalsPage.Main (Bare Undefined)
            [{| key := 0; meal := Data.of_Meal Example.bigMac |};
             {| key := 1; meal := Obj [("meal_name", Str "Soup")] |}])
       = Throw e'.
Proof.
  destruct (X11_meal_without_ingredients Example.runtime) as [H1 H2].
  apply (H2 (fun _ => false) _
            {| key := 1; meal := Obj [("meal_name", Str "Soup")] |}
            (ErrorObj "TypeError"
               "Cannot read properties of undefined (reading 'length')")).
  - right. left. reflexivity.
  - apply H1. reflexivity.
Defined.

(** X12: a nutrients object never makes a grid throw: a missing field is
    shown as NaN and a [null] field as 0; only a nutrients value that is
    itself [undefined] or [null] throws. *)
Theorem X12_missing_nutrient_is_NaN :
  forall (rt : Runtime) (props : list (string * Value)),
    (exists g,
        grid (Ok (Obj props)) = Ok g
        /\ (lookup "calories" props = None -> g_calories g = NaN)
        /\ (lookup "protein" props = None -> g_protein g = NaN)
        /\ (lookup "carbs" props = None -> g_carbs g = NaN)
        /\ (lookup "fat" props = None -> g_fat g = NaN)
        /\ (lookup "calories" props = Some Null -> g_calories g = Fin 0))
    /\ grid (Ok Undefined)
       = Throw (ErrorObj "TypeError"
                  "Cannot read properties of undefined (reading 'calories')")
    /\ grid (Ok Null)
       = Throw (ErrorObj "TypeError"
                  "Cannot read properties of null (reading 'calories')").
Proof.
  intros rt props. split; [|split; reflexivity].
  eexists. split; [reflexivity|]. simpl.
  repeat split; intros ->; reflexivity.
Qed.

(** X12 at a nutrients object that has calories only. *)
Lemma X12_missing_nutrient_witness :
  exists g,
    grid (rt := Example.runtime) (Ok (Obj [("calories", Num 120)])) = Ok g
    /\ g_calories g = Fin 120
    /\ g_protein g = NaN.
Proof.
  destruct (proj1 (X12_missing_nutrient_is_NaN Example.runtime
                     [("calories", Num 120)]))
    as (g & Hg & _ & Hp & _).
  exists g. split; [exact Hg|]. split; [|exact (Hp eq_refl)].
  injection Hg as <-. reflexivity.
Defined.

Section RoundFacts.
Context {rt : Runtime}.

Lemma floor_half_up (q : Q) : Spec.nearest_half_up q (Qfloor (q + (1 # 2))).
Proof.
  destruct (floor_half_bounds q) as [Hl Hu].
  set (z := inject_Z (Qfloor (q + (1 # 2)))) in *.
  unfold Spec.nearest_half_up. fold z.
  destruct (Qlt_le_dec (z - (1 # 2)) q) as [Hs|Hs].
  - left. apply Qabs_Qlt_condition. split; lra.
  - right. assert (He : q == z - (1 # 2)) by lra. split; [|lra].
    rewrite He. setoid_replace (z - (1 # 2) - z) with (- (1 # 2)) by ring.
    reflexivity.
Qed.

Lemma nearest_half_up_unique (q : Q) (z1 z2 : Z) :
  Spec.nearest_half_up q z1 -> Spec.nearest_half_up q z2 -> z1 = z2.
Proof.
  unfold Spec.nearest_half_up. intros H1 H2.
  assert (B1 : - (1 # 2) <= q - inject_Z z1 <= 1 # 2).
  { destruct H1 as [H|[H _]].
    - apply Qabs_Qlt_condition in H. lra.
    - apply Qabs_Qle_condition. rewrite H. apply Qle_refl. }
  assert (B2 : - (1 # 2) <= q - inject_Z z2 <= 1 # 2).
  { destruct H2 as [H|[H _]].
    - apply Qabs_Qlt_condition in H. lra.
    - apply Qabs_Qle_condition. rewrite H. apply Qle_refl. }
  destruct (Z.lt_trichotomy z1 z2) as [Hlt|[Heq|Hgt]]; [|exact Heq|]; exfalso.
  - assert (Hz : inject_Z z1 + 1 <= inject_Z z2).
    { change 1 with (inject_Z 1). rewrite <- inject_Z_plus.
      rewrite <- Zle_Qle. lia. }
    assert (E1 : q - inject_Z z1 == 1 # 2) by lra.
    destruct H1 as [H|[_ H1]]; [rewrite E1 in H; now apply Qlt_irrefl in H|].
    lra.
  - assert (Hz : inject_Z z2 + 1 <= inject_Z z1).
    { change 1 with (inject_Z 1). rewrite <- inject_Z_plus.
      rewrite <- Zle_Qle. lia. }
    assert (E2 : q - inject_Z z2 == 1 # 2) by lra.
    destruct H2 as [H|[_ H2]]; [rewrite E2 in H; now apply Qlt_irrefl in H|].
    lra.
Qed.

Lemma floor_of_integer_plus_half (n : Z) : Qfloor (inject_Z n + (1 # 2)) = n.
Proof.
  apply Z.le_antisymm.
  - assert (H : inject_Z (Qfloor (inject_Z n + (1 # 2))) < inject_Z (n + 1)).
    { apply Qle_lt_trans with (inject_Z n + (1 # 2)); [apply Qfloor_le|].
      rewrite inject_Z_plus. change (inject_Z 1) with 1. lra. }
    rewrite <- Zlt_Qlt in H. lia.
  - rewrite <- (Qfloor_Z n) at 1. apply Qfloor_resp_le. lra.
Qed.

(** Away from the negative ties the floor of [q + 1/2] is the rounding with
    halves away from zero. *)
Lemma floor_half_away (q : Q) :
  ~ (q < 0 /\ Spec.is_tie q) ->
  Qfloor (q + (1 # 2)) = Spec.round_half_away q.
Proof.
  intros Hn.
  apply (nearest_half_away_unique q); [|apply round_half_away_nearest].
  destruct (Qlt_le_dec q 0) as [Hneg|Hpos]; [|now apply floor_half_nearest].
  destruct (floor_half_bounds q) as [Hl Hu].
  unfold Spec.is_tie in Hn. unfold Spec.nearest_half_away.
  set (z := inject_Z (Qfloor (q + (1 # 2)))) in *.
  left. apply Qabs_Qlt_condition. split; [|lra].
  destruct (Qlt_le_dec (z - (1 # 2)) q) as [Hs|Hs]; [lra|].
  exfalso. apply Hn. split; [exact Hneg|]. lra.
Qed.

(** On a negative tie it is one above that rounding. *)
Lemma floor_half_negative_tie (q : Q) :
  q < 0 -> Spec.is_tie q ->
  Qfloor (q + (1 # 2)) = (Spec.round_half_away q + 1)%Z.
Proof.
  intros Hneg Ht. unfold Spec.is_tie in Ht.
  set (z := Qfloor (q + (1 # 2))) in *.
  assert (E : (z - 1)%Z = Spec.round_half_away q).
  { apply (nearest_half_away_unique q); [|apply round_half_away_nearest].
    unfold Spec.nearest_half_away. right.
    assert (Hz : inject_Z (z - 1) == inject_Z z - 1).
    { unfold Z.sub. rewrite inject_Z_plus. reflexivity. }
    assert (Hz0 : (z <= 0)%Z).
    { assert (H : inject_Z z < inject_Z 1).
      { change (inject_Z 1) with 1. lra. }
      rewrite <- Zlt_Qlt in H. lia. }
    assert (Hz0' : inject_Z z <= 0).
    { change 0 with (inject_Z 0). now rewrite <- Zle_Qle. }
    split.
    - rewrite Hz. setoid_replace (q - (inject_Z z - 1)) with (1 # 2) by lra.
      reflexivity.
    - rewrite (Qabs_neg q) by lra. rewrite Qabs_neg by lra. lra. }
  lia.
Qed.

Lemma Math_round_num (q : Q) :
  Math_round (Num q) = Fin (inject_Z (Qfloor (q + (1 # 2)))).
Proof. reflexivity. Qed.

End RoundFacts.

(** X13: what [Math.round] shows for every finite number, negative ones
    included: the unique nearest integer, a tie going towards +infinity.
    An integer is shown unchanged.  The result is the rounding with halves
    away from zero except on a negative number that lies halfway between
    two integers, where it is the integer above (-2.5 is shown as -2). *)
Theorem X13_Math_round_half_up :
  forall (rt : Runtime) (q : Q),
    Math_round (Num q) = Fin (inject_Z (Qfloor (q + (1 # 2))))
    /\ Spec.nearest_half_up q (Qfloor (q + (1 # 2)))
    /\ (forall z, Spec.nearest_half_up q z -> z = Qfloor (q + (1 # 2)))
    /\ (forall n : Z, Math_round (Num (inject_Z n)) = Fin (inject_Z n))
    /\ (~ (q < 0 /\ Spec.is_tie q) -> Math_round (Num q) = Spec.shown q)
    /\ (q < 0 -> Spec.is_tie q ->
        Math_round (Num q) = Fin (inject_Z (Spec.round_half_away q + 1))).
Proof.
  intros rt q. split; [reflexivity|]. split; [apply floor_half_up|].
  split; [|split; [|split]].
  - intros z Hz. exact (nearest_half_up_unique q z _ Hz (floor_half_up q)).
  - intros n. now rewrite Math_round_num, floor_of_integer_plus_half.
  - intros Hn. rewrite Math_round_num. unfold Spec.shown.
    now rewrite (floor_half_away q Hn).
  - intros Hneg Ht. rewrite Math_round_num.
    now rewrite (floor_half_negative_tie q Hneg Ht).
Qed.

(** X13 at -2.5 and at 2.4. *)
Lemma X13_Math_round_witness :
  Math_round (rt := Example.runtime) (Num (- (5 # 2))) = Fin (- (2))
  /\ Math_round (rt := Example.runtime) (Num (12 # 5)) = Fin 2.
Proof.
  split.
  - exact (proj2 (proj2 (proj2 (proj2 (proj2
             (X13_Math_round_half_up Example.runtime (- (5 # 2)))))))
             ltac:(reflexivity) ltac:(reflexivity)).
  - apply (proj1 (proj2 (proj2 (proj2 (proj2
             (X13_Math_round_half_up Example.runtime (12 # 5))))))).
    intros [H _]. discriminate H.
Defined.

(* ===================================================================== *)
(** * Further properties of the tool handlers *)
(* ===================================================================== *)

Section HandlerFacts.
Context {rt : Runtime} (widget : ContentWidget).

Lemma catch_clause_well_formed (foodDescription : Value) (e : Thrown) :
  Spec.well_formed_result widget (catch_clause widget foodDescription e).
Proof. split; [reflexivity|]. eexists; reflexivity. Qed.

Lemma try_catch_well_formed (foodDescription : Value) (body : Res ToolResult) :
  (forall r, body = Ok r -> Spec.well_formed_result widget r) ->
  Spec.well_formed_result widget (try_catch widget foodDescription body).
Proof.
  intros H. unfold try_catch. destruct body as [r|e].
  - now apply H.
  - apply catch_clause_well_formed.
Qed.

(** The [try] block of the handler with [analyzedData] never throws. *)
Lemma analyzed_body (foodDescription analyzedData : Value) :
  AnalyzedDataRoute.body widget foodDescription analyzedData
  = Ok (if truthy (opt_get analyzedData "loggedMeals")
           && truthy (opt_get analyzedData "dailyTotals")
        then {| content :=
                  text_content ("Food analyzed: " ++ ToString foodDescription);
                structuredContent :=
                  Obj [("dailyTotals", opt_get analyzedData "dailyTotals");
                       ("loggedMeals", opt_get analyzedData "loggedMeals")];
                _meta := widgetMeta widget |}
        else {| content :=
                  text_content
                    ("Please analyze " ++ dquote ++ ToString foodDescription
                       ++ dquote
                       ++ " using your nutrition knowledge and call this tool with the analyzedData parameter populated with the complete meal data.");
                structuredContent :=
                  Obj [("foodDescription", foodDescription);
                       ("error",
                        Str "Please call this tool with the analyzedData parameter containing the analyzed meal data.")];
                _meta := widgetMeta widget |}).
Proof.
  unfold AnalyzedDataRoute.body.
  destruct (truthy (opt_get analyzedData "loggedMeals")) eqn:E1; simpl;
    [|reflexivity].
  destruct (truthy (opt_get analyzedData "dailyTotals")) eqn:E2; simpl;
    [|reflexivity].
  pose proof (truthy_opt_get _ _ E1) as Hn.
  now rewrite !(get_opt_get analyzedData _ Hn).
Qed.

Lemma live_body_well_formed (fetch : Value -> Value -> LiveRoute.Fetched)
    (apiKey foodDescription : Value) (r : ToolResult) :
  LiveRoute.body widget fetch apiKey foodDescription = Ok r ->
  Spec.well_formed_result widget r.
Proof.
  unfold LiveRoute.body.
  destruct (truthy apiKey); simpl.
  2:{ intros [= <-]. split; [reflexivity|]. eexists; reflexivity. }
  destruct (fetch apiKey foodDescription) as [e|ok bodyText]; [discriminate|].
  destruct ok; simpl.
  - destruct (LiveRoute.response_json bodyText); simpl; [|discriminate].
    destruct (LiveRoute.message_content _); simpl; [|discriminate].
    destruct (LiveRoute.parse _) as [data|]; simpl; [|discriminate].
    destruct (get data "dailyTotals") as [dt|]; simpl; [|discriminate].
    destruct (truthy dt); simpl; [|discriminate].
    destruct (get data "loggedMeals") as [lm|]; simpl; [|discriminate].
    destruct (truthy lm); simpl; [|discriminate].
    intros [= <-]. split; [reflexivity|]. eexists; reflexivity.
  - destruct (LiveRoute.response_json bodyText); simpl; [|discriminate].
    destruct (get _ "error"); simpl; discriminate.
Qed.

End HandlerFacts.

(** X14: whatever their arguments, the three handlers resolve to a result
    of one shape: [_meta] is [widgetMeta(macrosWidget)] and [content] is a
    single text item, on the normal paths as in the [catch] clause.  The
    handler that calls the service does so however the service settles. *)
Theorem X14_results_have_one_shape :
  forall (rt : Runtime) (widget : ContentWidget)
         (fetch : Value -> Value -> LiveRoute.Fetched)
         (apiKey foodDescription analyzedData : Value),
    (_meta (AnalyzedDataRoute.handler widget foodDescription analyzedData)
     = widgetMeta widget
     /\ exists t,
         content (AnalyzedDataRoute.handler widget foodDescription analyzedData)
         = [{| type := "text"; text := t |}])
    /\ (_meta (McpRoute.handler widget foodDescription) = widgetMeta widget
        /\ exists t,
            content (McpRoute.handler widget foodDescription)
            = [{| type := "text"; text := t |}])
    /\ (_meta (LiveRoute.handler widget fetch apiKey foodDescription)
        = widgetMeta widget
        /\ exists t,
            content (LiveRoute.handler widget fetch apiKey foodDescription)
            = [{| type := "text"; text := t |}])
    /\ widgetAccessible (widgetMeta widget) = false
    /\ resultCanProduceWidget (widgetMeta widget) = true.
Proof.
  intros rt widget fetch apiKey foodDescription analyzedData.
  split; [|split; [|split; [|split; reflexivity]]].
  - unfold AnalyzedDataRoute.handler. rewrite analyzed_body. simpl.
    destruct (truthy _ && truthy _); split; try reflexivity; eexists; reflexivity.
  - split; [reflexivity|]. eexists; reflexivity.
  - apply (try_catch_well_formed widget).
    intros r. apply live_body_well_formed.
Qed.

(** X15: the [try] block of the handler with [analyzedData] never throws,
    for any arguments, so its [catch] clause is never taken.  With both
    fields of [analyzedData] truthy the result holds exactly those two
    fields: nothing else that [analyzedData] carries, such as an [error],
    is passed on.  With either field missing or falsy the result is the
    deferred one and what was supplied is dropped. *)
Theorem X15_analyzed_handler_branches :
  forall (rt : Runtime) (widget : ContentWidget)
         (foodDescription analyzedData : Value),
    (exists r,
        AnalyzedDataRoute.body widget foodDescription analyzedData = Ok r
        /\ AnalyzedDataRoute.handler widget foodDescription analyzedData = r)
    /\ (truthy (opt_get analyzedData "loggedMeals") = true ->
        truthy (opt_get analyzedData "dailyTotals") = true ->
        structuredContent
          (AnalyzedDataRoute.handler widget foodDescription analyzedData)
        = Obj [("dailyTotals", opt_get analyzedData "dailyTotals");
               ("loggedMeals", opt_get analyzedData "loggedMeals")])
    /\ (truthy (opt_get analyzedData "loggedMeals") = false
        \/ truthy (opt_get analyzedData "dailyTotals") = false ->
        structuredContent
          (AnalyzedDataRoute.handler widget foodDescription analyzedData)
        = Obj [("foodDescription", foodDescription);
               ("error",
                Str "Please call this tool with the analyzedData parameter containing the analyzed meal data.")]).
Proof.
  intros rt widget foodDescription analyzedData.
  unfold AnalyzedDataRoute.handler. rewrite analyzed_body. simpl.
  split; [eexists; split; reflexivity|]. split.
  - intros -> ->. reflexivity.
  - intros [->| ->]; [reflexivity|].
    now destruct (truthy (opt_get analyzedData "loggedMeals")).
Qed.

(** X15 at an [analyzedData] that carries an [error] beside its two fields,
    and at one that has totals only. *)
Lemma X15_analyzed_handler_witness :
  structuredContent
    (AnalyzedDataRoute.handler (rt := Example.runtime) Example.widget
       (Str "pizza")
       (Obj [("dailyTotals", Data.of_Nutrients (Example.nutrients 285 12 36 10));
             ("loggedMeals", Arr []);
             ("error", Str "ignored")]))
  = Obj [("dailyTotals", Data.of_Nutrients (Example.nutrients 285 12 36 10));
         ("loggedMeals", Arr [])]
  /\ opt_get
       (structuredContent
          (AnalyzedDataRoute.handler (rt := Example.runtime) Example.widget
             (Str "pizza")
             (Obj [("dailyTotals",
                    Data.of_Nutrients (Example.nutrients 285 12 36 10))])))
       "dailyTotals"
     = Undefined.
Proof.
  split.
  - apply (proj1 (proj2 (X15_analyzed_handler_branches Example.runtime
                           Example.widget (Str "pizza")
                           (Obj [("dailyTotals",
                                  Data.of_Nutrients
                                    (Example.nutrients 285 12 36 10));
                                 ("loggedMeals", Arr []);
                                 ("error", Str "ignored")]))));
      reflexivity.
  - rewrite (proj2 (proj2 (X15_analyzed_handler_branches Example.runtime
                             Example.widget (Str "pizza")
                             (Obj [("dailyTotals",
                                    Data.of_Nutrients
                                      (Example.nutrients 285 12 36 10))])))
               (or_introl eq_refl)).
    reflexivity.
Defined.

(* ===================================================================== *)
(** * From a handler's result to what the widgets show *)
(* ===================================================================== *)

Section EndToEnd.
Context {rt : Runtime}.

(** The whole result as an envelope is normalised to its payload, when the
    payload is an object. *)
Lemma normalize_of_ToolResult (r : ToolResult) (props : list (string * Value)) :
  structuredContent r = Obj props ->
  Spec.normalize (of_ToolResult r) = Obj props
  /\ TotalsPage.mealData (of_ToolResult r) = Obj props
  /\ opt_get (of_ToolResult r) "error" = Undefined.
Proof.
  intros H. unfold of_ToolResult. rewrite H. repeat split.
Qed.

Lemma error_payload_normalize (m : string) :
  Spec.normalize (Obj [("error", Str m)]) = Null
  /\ TotalsPage.mealData (Obj [("error", Str m)]) = Null.
Proof. split; reflexivity. Qed.

End EndToEnd.

(** X16: every error result of a handler reaches the user: when
    [structuredContent] is [{ error: m }] with a non-empty [m], both
    widgets show the Error state with [m] itself, whether the host hands
    over the payload or the whole result. *)
Theorem X16_error_results_are_shown :
  forall (rt : Runtime) (isLoading : bool) (r : ToolResult) (message : string),
    Spec.error_shaped r message ->
    (exists isLoading',
        NMacrosPage.arrive isLoading (structuredContent r)
        = Ok (isLoading', NMacrosPage.ErrorView (Str message)))
    /\ (exists isLoading',
           NMacrosPage.arrive isLoading (of_ToolResult r)
           = Ok (isLoading', NMacrosPage.ErrorView (Str message)))
    /\ TotalsPage.Macros (structuredContent r)
       = Ok (TotalsPage.ErrorView (Str message))
    /\ TotalsPage.Macros (of_ToolResult r)
       = Ok (TotalsPage.ErrorView (Str message)).
Proof.
  intros rt isLoading r message [Hs Hm].
  pose proof (nonempty_truthy message Hm) as Ht.
  destruct (normalize_of_ToolResult r _ Hs) as (Hn & Hn' & He).
  split; [|split; [|split]].
  - rewrite Hs.
    assert (E : NMacrosPage.error (Spec.normalize (Obj [("error", Str message)]))
                  (Obj [("error", Str message)]) = Str message) by reflexivity.
    rewrite <- E. apply error_priority. now rewrite E.
  - assert (E : NMacrosPage.error (Spec.normalize (of_ToolResult r))
                  (of_ToolResult r) = Str message).
    { rewrite Hn. unfold NMacrosPage.error, or_else.
      change (opt_get (Obj [("error", Str message)]) "error") with (Str message).
      now rewrite Ht. }
    rewrite <- E. apply error_priority. now rewrite E.
  - rewrite Hs.
    assert (E : TotalsPage.error (TotalsPage.mealData (Obj [("error", Str message)]))
                  (Obj [("error", Str message)]) = Str message) by reflexivity.
    rewrite <- E. apply totals_error_priority. now rewrite E.
  - assert (E : TotalsPage.error (TotalsPage.mealData (of_ToolResult r))
                  (of_ToolResult r) = Str message).
    { rewrite Hn'. unfold TotalsPage.error, or_else.
      change (opt_get (Obj [("error", Str message)]) "error") with (Str message).
      now rewrite Ht. }
    rewrite <- E. apply totals_error_priority. now rewrite E.
Qed.

(** X16 at the result of the [catch] clause for a failed fetch. *)
Lemma X16_error_results_witness :
  TotalsPage.Macros (rt := Example.runtime)
    (structuredContent
       (catch_clause (rt := Example.runtime) Example.widget (Str "pizza")
          (ErrorObj "TypeError" "fetch failed")))
  = Ok (TotalsPage.ErrorView (Str "fetch failed")).
Proof.
  apply (X16_error_results_are_shown Example.runtime true).
  split; [reflexivity|discriminate].
Defined.

(** X17: the deferred result of the handler with [analyzedData] is shown as
    an error, not as a pending request: although its payload has a
    [foodDescription] and no meals, both widgets show the Error state with
    the instruction text, for the payload and for the whole result. *)
Theorem X17_deferred_result_is_an_error :
  forall (rt : Runtime) (widget : ContentWidget) (foodDescription : string)
         (isLoading : bool),
    let r := AnalyzedDataRoute.handler widget (Str foodDescription) Undefined in
    let instruction :=
      Str "Please call this tool with the analyzedData parameter containing the analyzed meal data." in
    Spec.exposes "foodDescription" (structuredContent r) = true
    /\ (exists isLoading',
           NMacrosPage.arrive isLoading (structuredContent r)
           = Ok (isLoading', NMacrosPage.ErrorView instruction))
    /\ (exists isLoading',
           NMacrosPage.arrive isLoading (of_ToolResult r)
           = Ok (isLoading', NMacrosPage.ErrorView instruction))
    /\ TotalsPage.Macros (structuredContent r) = Ok (TotalsPage.ErrorView instruction)
    /\ TotalsPage.Macros (of_ToolResult r) = Ok (TotalsPage.ErrorView instruction).
Proof.
  intros rt widget foodDescription isLoading r instruction.
  split; [reflexivity|]. split; [|split; [|split; reflexivity]].
  - exact (error_priority isLoading (structuredContent r) eq_refl).
  - exact (error_priority isLoading (of_ToolResult r) eq_refl).
Qed.

(** X18: the result of the handler of [src/app/mcp/route.ts] never leaves
    the widgets with data.  Handed over as the payload
    [{ foodDescription }], it keeps the page of
    [src/app/nmacros/page.tsx] in the Loading state (with the state cell
    [true]) and the totals page in Empty; handed over as the whole result,
    where [foodDescription] is not at the top level, both pages show
    Empty. *)
Theorem X18_echo_result_on_the_widgets :
  forall (rt : Runtime) (widget : ContentWidget) (foodDescription : string)
         (isLoading : bool),
    let r := McpRoute.handler widget (Str foodDescription) in
    NMacrosPage.arrive isLoading (structuredContent r)
    = Ok (true, NMacrosPage.LoadingView)
    /\ NMacrosPage.arrive isLoading (of_ToolResult r)
       = Ok (false, NMacrosPage.EmptyView)
    /\ TotalsPage.Macros (structuredContent r) = Ok TotalsPage.EmptyView
    /\ TotalsPage.Macros (of_ToolResult r) = Ok TotalsPage.EmptyView.
Proof.
  intros rt widget foodDescription isLoading r.
  split; [|split; [|split; reflexivity]]; destruct isLoading; reflexivity.
Qed.

(** X19: a passthrough result with at least one meal is Ready on the page
    of [src/app/nmacros/page.tsx], for the payload and for the whole
    result.  The totals page is Ready, with the totals block, only for the
    whole result: for the bare payload it finds no data and shows Empty. *)
Theorem X19_passthrough_result_on_the_widgets :
  forall (rt : Runtime) (widget : ContentWidget) (foodDescription : string)
         (totals : Data.Nutrients) (m : Value) (ms : list Value)
         (isLoading : bool),
    let r := AnalyzedDataRoute.handler widget (Str foodDescription)
               (of_AnalyzedData {| dailyTotals := totals;
                                   loggedMeals := m :: ms |}) in
    NMacrosPage.state isLoading (structuredContent r) = Ok Ready
    /\ NMacrosPage.state isLoading (of_ToolResult r) = Ok Ready
    /\ (exists blk cards,
           TotalsPage.Macros (of_ToolResult r) = Ok (TotalsPage.Main blk cards)
           /\ shown blk = true
           /\ map meal cards = m :: ms)
    /\ TotalsPage.Macros (structuredContent r) = Ok TotalsPage.EmptyView.
Proof.
  intros rt widget foodDescription totals m ms isLoading r.
  split; [|split; [|split; [|reflexivity]]].
  - rewrite state_machine by (right; reflexivity). reflexivity.
  - rewrite state_machine by (right; reflexivity). reflexivity.
  - eexists. eexists. split; [reflexivity|]. split; [reflexivity|].
    exact (proj1 (map_cards_fields (m :: ms) _ eq_refl)).
Qed.

(* ===================================================================== *)
(** * Further properties of the handler that calls the service *)
(* ===================================================================== *)

Section LiveFacts.
Context {rt : Runtime} (widget : ContentWidget)
        (fetch : Value -> Value -> LiveRoute.Fetched).

Lemma live_handler_throw (apiKey : Value) (foodDescription : string) (e : Thrown) :
  LiveRoute.body widget fetch apiKey (Str foodDescription) = Throw e ->
  LiveRoute.handler widget fetch apiKey (Str foodDescription)
  = Spec.caught_result widget foodDescription (caught_message e).
Proof.
  intros H. unfold LiveRoute.handler, try_catch. now rewrite H.
Qed.

(** The [try] block once the completion's data is at hand. *)
Lemma live_body_data (apiKey : Value) (foodDescription : string) (data : Value) :
  truthy apiKey = true ->
  Spec.completion_data fetch apiKey (Str foodDescription) data ->
  LiveRoute.body widget fetch apiKey (Str foodDescription)
  = (dt <- get data "dailyTotals" ;;
     if negb (truthy dt) then Throw LiveRoute.invalid_format
     else
       lm <- get data "loggedMeals" ;;
       if negb (truthy lm) then Throw LiveRoute.invalid_format
       else
         dt' <- get data "dailyTotals" ;;
         lm' <- get data "loggedMeals" ;;
         Ok {| content := text_content ("Food analyzed: " ++ foodDescription);
               structuredContent :=
                 Obj [("dailyTotals", dt'); ("loggedMeals", lm')];
               _meta := widgetMeta widget |}).
Proof.
  intros Hk (bodyText & responseData & c & Hf & Hj & Hc & Hd).
  unfold LiveRoute.body, LiveRoute.response_json, LiveRoute.parse.
  rewrite Hk, Hf, Hj. simpl. rewrite Hc. simpl. now rewrite Hd.
Qed.

(** The [try] block on a non-success reply whose body parses. *)
Lemma live_body_error_reply (apiKey : Value) (foodDescription bodyText : string)
    (errorData : Value) :
  truthy apiKey = true ->
  fetch apiKey (Str foodDescription) = LiveRoute.Response false bodyText ->
  JSON_parse bodyText = inl errorData ->
  LiveRoute.body widget fetch apiKey (Str foodDescription)
  = (err <- get errorData "error" ;;
     Throw (new_Error (or_else (opt_get err "message")
                               (Str "Failed to process food data")))).
Proof.
  intros Hk Hf Hj.
  unfold LiveRoute.body, LiveRoute.response_json, LiveRoute.parse.
  now rewrite Hk, Hf, Hj.
Qed.

End LiveFacts.

(** X20: without a credential the handler of [src/unnamed/part_001] does
    not consult the service: whatever the service would answer, the result
    is the one error result that names the missing key (its text does not
    mention the food description).  An empty key counts as missing. *)
Theorem X20_no_key_no_request :
  forall (rt : Runtime) (widget : ContentWidget)
         (fetch fetch' : Value -> Value -> LiveRoute.Fetched)
         (apiKey foodDescription : Value),
    truthy apiKey = false ->
    LiveRoute.handler widget fetch apiKey foodDescription
    = {| content := text_content ("Error: " ++ LiveRoute.credential_message);
         structuredContent := Obj [("error", Str LiveRoute.credential_message)];
         _meta := widgetMeta widget |}
    /\ LiveRoute.handler widget fetch apiKey foodDescription
       = LiveRoute.handler widget fetch' apiKey foodDescription.
Proof.
  intros rt widget fetch fetch' apiKey foodDescription Hk.
  unfold LiveRoute.handler, LiveRoute.body, try_catch. rewrite Hk. simpl.
  split; reflexivity.
Qed.

(** X20 at the empty key. *)
Lemma X20_no_key_witness :
  structuredContent
    (LiveRoute.handler (rt := Example.runtime) Example.widget Example.service
       (Str "") (Str "pizza"))
  = Obj [("error", Str LiveRoute.credential_message)].
Proof.
  rewrite (proj1 (X20_no_key_no_request Example.runtime Example.widget
                    Example.service Example.service (Str "") (Str "pizza")
                    eq_refl)).
  reflexivity.
Defined.

(** X21: how the handler validates the completion's data.  When both
    [dailyTotals] and [loggedMeals] are truthy (an empty meal array
    passes) the result holds exactly these two fields of the data and
    nothing else of it; when either one is missing or falsy the result
    is the error result with the invalid-format message. *)
Theorem X21_validation_of_the_completion :
  forall (rt : Runtime) (widget : ContentWidget)
         (fetch : Value -> Value -> LiveRoute.Fetched)
         (apiKey : Value) (foodDescription : string) (data : Value),
    truthy apiKey = true ->
    Spec.completion_data fetch apiKey (Str foodDescription) data ->
    Spec.nullish data = false ->
    (truthy (opt_get data "dailyTotals") = true ->
     truthy (opt_get data "loggedMeals") = true ->
     LiveRoute.handler widget fetch apiKey (Str foodDescription)
     = {| content := text_content ("Food analyzed: " ++ foodDescription);
          structuredContent :=
            Obj [("dailyTotals", opt_get data "dailyTotals");
                 ("loggedMeals", opt_get data "loggedMeals")];
          _meta := widgetMeta widget |})
    /\ (truthy (opt_get data "dailyTotals") = false
        \/ truthy (opt_get data "loggedMeals") = false ->
        LiveRoute.handler widget fetch apiKey (Str foodDescription)
        = Spec.caught_result widget foodDescription
            LiveRoute.invalid_format_message).
Proof.
  intros rt widget fetch apiKey foodDescription data Hk Hc Hn.
  pose proof (live_body_data widget fetch apiKey foodDescription data Hk Hc) as Hb.
  rewrite !(get_opt_get data _ Hn) in Hb. simpl in Hb.
  unfold LiveRoute.handler, try_catch. rewrite Hb. split.
  - intros -> ->. reflexivity.
  - intros [->| ->]; [reflexivity|].
    now destruct (truthy (opt_get data "dailyTotals")).
Qed.

(** X21 at a completion whose content is the text of an empty object. *)
Lemma X21_validation_witness :
  Spec.completion_data (rt := Example.runtime) Example.service
    (Str "sk-test") (Str "pizza") (Obj [])
  /\ LiveRoute.handler (rt := Example.runtime) Example.widget Example.service
       (Str "sk-test") (Str "pizza")
     = Spec.caught_result (rt := Example.runtime) Example.widget "pizza"
         LiveRoute.invalid_format_message.
Proof.
  assert (H : Spec.completion_data (rt := Example.runtime) Example.service
                (Str "sk-test") (Str "pizza") (Obj [])).
  { exists Example.reply_body, Example.reply, (Str "{}"). now repeat split. }
  split; [exact H|].
  apply (proj2 (X21_validation_of_the_completion Example.runtime Example.widget
                  Example.service (Str "sk-test") "pizza" (Obj [])
                  eq_refl H eq_refl)).
  left. reflexivity.
Defined.

(** X22: on a non-success reply whose body parses, the error shown is the
    service's own [error.message] when that is a non-empty string, and the
    text "Failed to process food data" when the message is missing or
    falsy; a body that parses to [null] gives the TypeError of reading
    [error] of [null]. *)
Theorem X22_upstream_message :
  forall (rt : Runtime) (widget : ContentWidget)
         (fetch : Value -> Value -> LiveRoute.Fetched)
         (apiKey : Value) (foodDescription bodyText : string)
         (errorData : Value),
    truthy apiKey = true ->
    fetch apiKey (Str foodDescription) = LiveRoute.Response false bodyText ->
    JSON_parse bodyText = inl errorData ->
    (forall message,
        opt_get (opt_get errorData "error") "message" = Str message ->
        message <> "" ->
        Spec.nullish errorData = false ->
        LiveRoute.handler widget fetch apiKey (Str foodDescription)
        = Spec.caught_result widget foodDescription message)
    /\ (truthy (opt_get (opt_get errorData "error") "message") = false ->
        Spec.nullish errorData = false ->
        LiveRoute.handler widget fetch apiKey (Str foodDescription)
        = Spec.caught_result widget foodDescription "Failed to process food data")
    /\ (errorData = Null ->
        LiveRoute.handler widget fetch apiKey (Str foodDescription)
        = Spec.caught_result widget foodDescription
            "Cannot read properties of null (reading 'error')").
Proof.
  intros rt widget fetch apiKey foodDescription bodyText errorData Hk Hf Hj.
  pose proof (live_body_error_reply widget fetch apiKey foodDescription bodyText
                errorData Hk Hf Hj) as Hb.
  split; [|split].
  - intros message Hm Hne Hn.
    rewrite (get_opt_get errorData _ Hn) in Hb. simpl in Hb.
    rewrite (live_handler_throw widget fetch apiKey foodDescription _ Hb).
    unfold or_else. rewrite Hm.
    assert (Ht : truthy (Str message) = true) by now apply nonempty_truthy.
    now rewrite Ht.
  - intros Hm Hn.
    rewrite (get_opt_get errorData _ Hn) in Hb. simpl in Hb.
    rewrite (live_handler_throw widget fetch apiKey foodDescription _ Hb).
    unfold or_else. now rewrite Hm.
  - intros ->. simpl in Hb.
    now rewrite (live_handler_throw widget fetch apiKey foodDescription _ Hb).
Qed.

(** X23: the reply is read without any check of its shape, so a success
    reply of an unexpected shape shows the user the text of a TypeError: a
    reply object without [choices], one with an empty [choices] array, and
    a message content that parses to [null]. *)
Theorem X23_unexpected_reply_shapes :
  forall (rt : Runtime) (widget : ContentWidget)
         (fetch : Value -> Value -> LiveRoute.Fetched)
         (apiKey : Value) (foodDescription bodyText : string)
         (props : list (string * Value)),
    truthy apiKey = true ->
    fetch apiKey (Str foodDescription) = LiveRoute.Response true bodyText ->
    JSON_parse bodyText = inl (Obj props) ->
    (lookup "choices" props = None ->
     LiveRoute.handler widget fetch apiKey (Str foodDescription)
     = Spec.caught_result widget foodDescription
         "Cannot read properties of undefined (reading '0')")
    /\ (lookup "choices" props = Some (Arr []) ->
        LiveRoute.handler widget fetch apiKey (Str foodDescription)
        = Spec.caught_result widget foodDescription
            "Cannot read properties of undefined (reading 'message')")
    /\ (forall content,
           LiveRoute.message_content (Obj props) = Ok content ->
           JSON_parse (ToString content) = inl Null ->
           LiveRoute.handler widget fetch apiKey (Str foodDescription)
           = Spec.caught_result widget foodDescription
               "Cannot read properties of null (reading 'dailyTotals')").
Proof.
  intros rt widget fetch apiKey foodDescription bodyText props Hk Hf Hj.
  split; [|split].
  - intros Hc.
    apply (live_handler_throw widget fetch apiKey foodDescription
             (type_error "Cannot read properties of undefined (reading '0')")).
    unfold LiveRoute.body, LiveRoute.response_json, LiveRoute.parse,
      LiveRoute.message_content.
    rewrite Hk, Hf, Hj. simpl. now rewrite Hc.
  - intros Hc.
    apply (live_handler_throw widget fetch apiKey foodDescription
             (type_error
                "Cannot read properties of undefined (reading 'message')")).
    unfold LiveRoute.body, LiveRoute.response_json, LiveRoute.parse,
      LiveRoute.message_content.
    rewrite Hk, Hf, Hj. simpl. now rewrite Hc.
  - intros c Hc Hd.
    apply (live_handler_throw widget fetch apiKey foodDescription
             (type_error
                "Cannot read properties of null (reading 'dailyTotals')")).
    rewrite (live_body_data widget fetch apiKey foodDescription Null Hk).
    + reflexivity.
    + now exists bodyText, (Obj props), c.
Qed.

(** X24: when the request itself fails, an [Error] gives its own message
    to the user and anything else that is thrown gives the text "Failed to
    analyze food. Please try again."; the content text names the food
    description. *)
Theorem X24_failed_request :
  forall (rt : Runtime) (widget : ContentWidget)
         (fetch : Value -> Value -> LiveRoute.Fetched)
         (apiKey : Value) (foodDescription : string) (e : Thrown),
    truthy apiKey = true ->
    fetch apiKey (Str foodDescription) = LiveRoute.Rejected e ->
    LiveRoute.handler widget fetch apiKey (Str foodDescription)
    = {| content :=
           text_content ("Error processing food analysis request: "
                           ++ foodDescription);
         structuredContent :=
           Obj [("error",
                 Str (match e with
                      | ErrorObj _ message => message
                      | NonError _ => "Failed to analyze food. Please try again."
                      end))];
         _meta := widgetMeta widget |}.
Proof.
  intros rt widget fetch apiKey foodDescription e Hk Hf.
  unfold LiveRoute.handler, LiveRoute.body, try_catch. rewrite Hk, Hf. simpl.
  now destruct e.
Qed.

(** X22 at a refusal whose error body is an empty object. *)
Lemma X22_upstream_message_witness :
  LiveRoute.handler (rt := Example.runtime) Example.widget
    Example.refusing_service (Str "sk-test") (Str "pizza")
  = Spec.caught_result (rt := Example.runtime) Example.widget "pizza"
      "Failed to process food data".
Proof.
  apply (proj1 (proj2 (X22_upstream_message Example.runtime Example.widget
                         Example.refusing_service (Str "sk-test") "pizza" "{}"
                         (Obj []) eq_refl eq_refl eq_refl)));
    reflexivity.
Defined.

(** X23 at a success reply whose body is an empty object. *)
Lemma X23_unexpected_reply_witness :
  LiveRoute.handler (rt := Example.runtime) Example.widget
    Example.hollow_service (Str "sk-test") (Str "pizza")
  = Spec.caught_result (rt := Example.runtime) Example.widget "pizza"
      "Cannot read properties of undefined (reading '0')".
Proof.
  apply (proj1 (X23_unexpected_reply_shapes Example.runtime Example.widget
                  Example.hollow_service (Str "sk-test") "pizza" "{}" []
                  eq_refl eq_refl eq_refl)).
  reflexivity.
Defined.

(** X24 at a service that cannot be reached. *)
Lemma X24_failed_request_witness :
  structuredContent
    (LiveRoute.handler (rt := Example.runtime) Example.widget
       Example.unreachable_service (Str "sk-test") (Str "pizza"))
  = Obj [("error", Str "fetch failed")].
Proof.
  rewrite (X24_failed_request Example.runtime Example.widget
             Example.unreachable_service (Str "sk-test") "pizza"
             (ErrorObj "TypeError" "fetch failed") eq_refl eq_refl).
  reflexivity.
Defined.

(* ===================================================================== *)
(** * The registered resource and the results that point at it *)
(* ===================================================================== *)

(** X25: the widget template is wired consistently.  Whatever page was
    fetched and whatever the base URL, every result of the three handlers
    names as its output template the very URI under which the resource is
    registered; reading the resource gives one entry that echoes the
    requested URI, has the registration's MIME type, carries the base URL as
    its widget domain and wraps the fetched page in an [html] element. *)
Theorem X25_results_point_at_the_resource :
  forall (rt : Runtime) (macrosHtml baseURL : string)
         (fetch : Value -> Value -> LiveRoute.Fetched)
         (apiKey foodDescription analyzedData : Value) (href : string),
    let widget := macrosWidget macrosHtml baseURL in
    let resource := registerResource_call widget in
    outputTemplate
      (_meta (AnalyzedDataRoute.handler widget foodDescription analyzedData))
    = r_uri resource
    /\ outputTemplate (_meta (McpRoute.handler widget foodDescription))
       = r_uri resource
    /\ outputTemplate
         (_meta (LiveRoute.handler widget fetch apiKey foodDescription))
       = r_uri resource
    /\ r_read resource href
       = [{| rc_uri := href;
             rc_mimeType := r_mimeType resource;
             rc_text := "<html>" ++ macrosHtml ++ "</html>";
             rc_widgetDescription := r_description resource;
             rc_widgetPrefersBorder := r_widgetPrefersBorder resource;
             rc_widgetDomain := baseURL |}].
Proof.
  intros rt macrosHtml baseURL fetch apiKey foodDescription analyzedData href
         widget resource.
  split; [|split; [|split; [|reflexivity]]].
  - unfold AnalyzedDataRoute.handler. rewrite analyzed_body. simpl.
    now destruct (truthy _ && truthy _).
  - reflexivity.
  - destruct (try_catch_well_formed widget foodDescription
                (LiveRoute.body widget fetch apiKey foodDescription)
                (fun r => live_body_well_formed widget fetch apiKey
                            foodDescription r)) as [Hm _].
    unfold LiveRoute.handler. now rewrite Hm.
Qed.
